(** * ansible-later: dependency resolution, task extraction and normalization

    A shallow embedding of [ansiblelater/utils/yamlhelper.py] and
    [ansiblelater/standard.py].

    - Parsed YAML documents that are only read (the dependency resolver) are
      trees of type [value].
    - Code that updates mappings in place (the task extractor, the task
      normalizer, [Standard.__init__]) runs over an object store: mappings and
      sequences live at locations, values refer to them by reference, so that
      an update is seen through every reference to the same object.
    - Python exceptions are the constructors of [exn]; a computation is a
      function from the process state to an outcome and the state it leaves.
    - The operating system and the Ansible library are collaborators whose
      code is not part of the repository; they are fields of [environment]. *)

From Stdlib Require Import ZArith String Ascii List Bool Lia DecimalString.
From stdpp Require Import base list strings.

Import ListNotations.
Local Open Scope Z_scope.
Local Open Scope nat_scope.
Local Open Scope list_scope.
Set Warnings "-register-all".

(** ** Python strings *)

Module PyStr.

(** A character of a string is a code point below 256.  [str.isspace] on
    these: the controls 9 to 13 and 28 to 31, the space, NEL (133) and the
    no-break space (160).  The other white space of Python lies above 255. *)
Definition is_space (c : ascii) : bool :=
  let n := nat_of_ascii c in
  ((9 <=? n) && (n <=? 13)) || ((28 <=? n) && (n <=? 32))
  || (n =? 133) || (n =? 160).

(** The characters of [s] are ASCII: below 128, where a code point and its
    encoding are the same and white space is the same under every reading. *)
Definition is_ascii (s : string) : bool :=
  forallb (fun c => nat_of_ascii c <? 128) (list_ascii_of_string s).

(** [needle in hay] *)
Fixpoint contains (needle hay : string) : bool :=
  if String.prefix needle hay then true
  else match hay with
       | EmptyString => false
       | String _ hay' => contains needle hay'
       end.

(** [s.startswith(p)] *)
Definition startswith (p s : string) : bool := String.prefix p s.

(** [s.endswith(p)] *)
Definition endswith (p s : string) : bool :=
  let n := String.length s in
  let m := String.length p in
  (m <=? n) && String.eqb (String.substring (n - m) m s) p.

(** [s.lstrip()] *)
Fixpoint lstrip (s : string) : string :=
  match s with
  | String c s' => if is_space c then lstrip s' else s
  | EmptyString => EmptyString
  end.

(** [s.split(sep)] for a one-character separator: empty fields are kept and
    the result is never empty. *)
Fixpoint split (sep : ascii) (s : string) : list string :=
  match s with
  | EmptyString => [EmptyString]
  | String c s' =>
      if Ascii.eqb c sep then EmptyString :: split sep s'
      else match split sep s' with
           | w :: ws => String c w :: ws
           | [] => [String c EmptyString]
           end
  end.

(** [s.split(sep, 1)] *)
Fixpoint split_once (sep : ascii) (s : string) : list string :=
  match s with
  | EmptyString => [EmptyString]
  | String c s' =>
      if Ascii.eqb c sep then [EmptyString; s']
      else match split_once sep s' with
           | w :: ws => String c w :: ws
           | [] => [String c EmptyString]
           end
  end.

(** [s.replace(c, "")] for a one-character [c] *)
Fixpoint remove_char (c : ascii) (s : string) : string :=
  match s with
  | EmptyString => EmptyString
  | String c' s' =>
      if Ascii.eqb c' c then remove_char c s' else String c' (remove_char c s')
  end.

(** [s.split()]: fields separated by runs of white space, none empty.
    [cur] is the field being read, in reverse. *)
Fixpoint split_ws_from (cur : list ascii) (s : string) : list string :=
  let flush (rest : list string) :=
    match cur with
    | [] => rest
    | _ :: _ => string_of_list_ascii (rev cur) :: rest
    end in
  match s with
  | EmptyString => flush []
  | String c s' =>
      if is_space c then flush (split_ws_from [] s')
      else split_ws_from (c :: cur) s'
  end.

Definition split_ws (s : string) : list string := split_ws_from [] s.

(** [sep.join(l)] *)
Fixpoint join (sep : string) (l : list string) : string :=
  match l with
  | [] => EmptyString
  | [w] => w
  | w :: ws => w +:+ sep +:+ join sep ws
  end.

(** The characters of a string, as iteration over a [str] yields them. *)
Fixpoint chars (s : string) : list string :=
  match s with
  | EmptyString => []
  | String c s' => String c EmptyString :: chars s'
  end.

(** [str(n)] for an [int] *)
Definition of_Z (n : Z) : string := NilZero.string_of_int (Z.to_int n).

End PyStr.

(** ** [os.path] on POSIX *)

Module OsPath.

(** [os.path.join(a, b)] *)
Definition join (a b : string) : string :=
  if PyStr.startswith "/" b then b
  else if String.eqb a "" || PyStr.endswith "/" a then a +:+ b
  else a +:+ "/" +:+ b.

(** [os.path.join(a, *p)] *)
Definition join_all (a : string) (p : list string) : string :=
  fold_left join p a.

(** [s.rstrip("/")], on the reversed characters *)
Fixpoint drop_slashes (rs : list ascii) : list ascii :=
  match rs with
  | c :: rs' => if Ascii.eqb c "/" then drop_slashes rs' else rs
  | [] => []
  end.

(** The reversed characters up to and including the last ["/"]:
    [p[:p.rfind("/") + 1]], reversed. *)
Fixpoint head_rev (rs : list ascii) : list ascii :=
  match rs with
  | c :: rs' => if Ascii.eqb c "/" then rs else head_rev rs'
  | [] => []
  end.

(** [os.path.dirname(p)] *)
Definition dirname (p : string) : string :=
  let head := head_rev (rev (list_ascii_of_string p)) in
  match drop_slashes head with
  | [] => string_of_list_ascii (rev head)
  | stripped => string_of_list_ascii (rev stripped)
  end.

End OsPath.

(** ** Parsed documents *)

(** A parsed YAML document: scalars, sequences and mappings.  Mappings keep
    the order of their keys, as a Python [dict] does; keys are strings. *)
Inductive value : Type :=
  | VNone
  | VBool (b : bool)
  | VInt (n : Z)
  | VStr (s : string)
  | VList (l : list value)
  | VDict (d : list (string * value)).

(** ** Dictionaries: association lists in insertion order, keys unique *)

Section Dict.
Context {A : Type}.

(** [d.get(k)] *)
Fixpoint dict_get (d : list (string * A)) (k : string) : option A :=
  match d with
  | [] => None
  | (k', v) :: d' => if String.eqb k' k then Some v else dict_get d' k
  end.

(** [k in d] *)
Definition dict_has (d : list (string * A)) (k : string) : bool :=
  match dict_get d k with Some _ => true | None => false end.

(** [d[k] = v]: an existing key keeps its position, a new key goes last. *)
Fixpoint dict_set (d : list (string * A)) (k : string) (v : A) : list (string * A) :=
  match d with
  | [] => [(k, v)]
  | (k', v') :: d' =>
      if String.eqb k' k then (k', v) :: d' else (k', v') :: dict_set d' k v
  end.

(** [d.pop(k, None)] and [del d[k]], as far as [d] is concerned *)
Definition dict_remove (d : list (string * A)) (k : string) : list (string * A) :=
  List.filter (fun kv => negb (String.eqb (fst kv) k)) d.

(** [d.update(e)] *)
Definition dict_update (d e : list (string * A)) : list (string * A) :=
  fold_left (fun acc kv => dict_set acc (fst kv) (snd kv)) e d.

(** [d.keys()] *)
Definition dict_keys (d : list (string * A)) : list string := map fst d.

(** The value under [k] after [f] has been applied to it: the recursive
    functions over [value] reach the value under a key through this. *)
Context {B : Type} (f : A -> B).
Fixpoint dict_get_with (d : list (string * A)) (k : string) : option B :=
  match d with
  | [] => None
  | (k', v) :: d' => if String.eqb k' k then Some (f v) else dict_get_with d' k
  end.
End Dict.

(** [k in l] for a list of strings *)
Definition str_in (k : string) (l : list string) : bool :=
  existsb (String.eqb k) l.

(** ** Exceptions and outcomes *)

Inductive exn : Type :=
  | TypeError
  | AttributeError
  | KeyError (key : string)
  | IndexError
  | RuntimeError (msg : string)
  | SystemExit (msg : string)
  | LaterAnsibleError (msg : string)
  (** not a Python exception: a reference to a location the store does not
      have.  No store built by allocation produces it. *)
  | InvalidReference.

Inductive outcome (A : Type) : Type :=
  | Ok (a : A)
  | Raise (e : exn).
Arguments Ok {A} a.
Arguments Raise {A} e.

(** ** Objects *)

(** A Python value at run time: a scalar, or a reference to a mapping or a
    sequence in the store. *)
Inductive pyval : Type :=
  | PNone
  | PBool (b : bool)
  | PInt (n : Z)
  | PStr (s : string)
  | PRef (l : nat).

Inductive pyobj : Type :=
  | ODict (d : list (string * pyval))
  | OList (items : list pyval).

(** The process state: the object store, the directories registered with
    Ansible's module loader, and [ansible.parsing.mod_args.BUILTIN_TASKS]. *)
Record world : Type := mkWorld {
  heap : list pyobj;
  module_dirs : list string;
  BUILTIN_TASKS : list string
}.

(** ** Computations *)

Definition M (A : Type) : Type := world -> outcome A * world.

Definition ret {A} (a : A) : M A := fun w => (Ok a, w).

Definition raise {A} (e : exn) : M A := fun w => (Raise e, w).

Definition bind {A B} (m : M A) (k : A -> M B) : M B :=
  fun w => match m w with
           | (Ok a, w') => k a w'
           | (Raise e, w') => (Raise e, w')
           end.

Definition lift {A} (o : outcome A) : M A := fun w => (o, w).

Arguments ret {A} a w /.
Arguments raise {A} e w /.
Arguments lift {A} o w /.
Arguments bind {A B} m k w /.

Declare Scope py_scope.
Delimit Scope py_scope with py.
Notation "x <- c1 ;; c2" := (bind c1 (fun x => c2))
  (at level 100, c1 at next level, right associativity) : py_scope.
Notation "c1 ;; c2" := (bind c1 (fun _ => c2))
  (at level 100, right associativity) : py_scope.
Local Open Scope py_scope.

Section Loops.
Context {A B : Type}.

(** [for x in l: results.extend(f(x))] *)
Definition concat_mapM (f : A -> M (list B)) : list A -> M (list B) :=
  fix go (l : list A) : M (list B) :=
    match l with
    | [] => ret []
    | x :: l' => r <- f x ;; rs <- go l' ;; ret (r ++ rs)
    end.

(** [[x for x in l if p(x)]] *)
Definition filterM (p : A -> M bool) : list A -> M (list A) :=
  fix go (l : list A) : M (list A) :=
    match l with
    | [] => ret []
    | x :: l' => b <- p x ;; rs <- go l' ;; ret (if b then x :: rs else rs)
    end.

(** [all(p(x) for x in l)]: stops at the first [False]. *)
Definition allM (p : A -> M bool) : list A -> M bool :=
  fix go (l : list A) : M bool :=
    match l with
    | [] => ret true
    | x :: l' => b <- p x ;; if b then go l' else ret false
    end.
End Loops.

(** [for x in l: acc = f(acc, x)] *)
Definition foldM {A S : Type} (f : S -> A -> M S) : list A -> S -> M S :=
  fix go (l : list A) (acc : S) : M S :=
    match l with
    | [] => ret acc
    | x :: l' => acc' <- f acc x ;; go l' acc'
    end.


(** A call of a Python function that declares [declared] positional parameters
    (none with a default) with [given] positional arguments: the arguments are
    bound before the body [run] is entered, and the call raises [TypeError]
    when the two numbers differ. *)
Definition py_call {A} (declared given : nat) (run : M A) : M A :=
  if Nat.eqb declared given then run else raise TypeError.

(** ** Python operations on parsed documents *)

(** [bool(v)] *)
Definition py_truthy (v : value) : bool :=
  match v with
  | VNone => false
  | VBool b => b
  | VInt n => negb (Z.eqb n 0)
  | VStr s => negb (String.eqb s "")
  | VList l => match l with [] => false | _ :: _ => true end
  | VDict d => match d with [] => false | _ :: _ => true end
  end.

(** [v == k] for a string [k] *)
Definition py_eq_str (v : value) (k : string) : bool :=
  match v with
  | VStr s => String.eqb s k
  | _ => false
  end.

(** [for x in v]: the elements of a sequence, the keys of a mapping, the
    characters of a string; other values are not iterable. *)
Definition py_iter (v : value) : M (list value) :=
  match v with
  | VList l => ret l
  | VDict d => ret (map VStr (dict_keys d))
  | VStr s => ret (map VStr (PyStr.chars s))
  | _ => raise TypeError
  end.

(** [k in v] for a string [k] *)
Definition py_in (k : string) (v : value) : M bool :=
  match v with
  | VDict d => ret (dict_has d k)
  | VList l => ret (existsb (fun x => py_eq_str x k) l)
  | VStr s => ret (PyStr.contains k s)
  | _ => raise TypeError
  end.

(** [v[k]] for a string [k] *)
Definition py_getitem (v : value) (k : string) : M value :=
  match v with
  | VDict d => match dict_get d k with
               | Some x => ret x
               | None => raise (KeyError k)
               end
  | _ => raise TypeError
  end.

(** [v.get(k, default)] *)
Definition py_get (v : value) (k : string) (default : value) : M value :=
  match v with
  | VDict d => ret (match dict_get d k with Some x => x | None => default end)
  | _ => raise AttributeError
  end.

(** [l[0]] *)
Definition py_first {A} (l : list A) : M A :=
  match l with
  | x :: _ => ret x
  | [] => raise IndexError
  end.

(** ** Collaborators *)

(** What a call into Ansible gives back: a result, or an [AnsibleError]
    (of which [AnsibleParserError] is a subclass). *)
Inductive ansible_result (A : Type) : Type :=
  | AnsibleOk (a : A)
  | AnsibleError (msg : string).
Arguments AnsibleOk {A} a.
Arguments AnsibleError {A} msg.

(** [ansible.constants.DEFAULT_ROLES_PATH] *)
Inductive roles_path : Type :=
  | RolesPathNone
  | RolesPathStr (s : string)
  | RolesPathList (l : list string).

(** A dependency edge, [{"path": ..., "type": ...}] *)
Record edge : Type := mkEdge { edge_path : string; edge_type : string }.

(** An [ansible.parsing.mod_args.ModuleArgsParser(task).parse()] result *)
Record parsed_action : Type := mkParsed {
  parsed_module : string;
  parsed_arguments : list (string * pyval);
  parsed_delegate_to : pyval
}.

Record environment : Type := mkEnv {
  (** the file system and the process, through [os.path] *)
  os_path_exists : string -> bool;
  os_path_isdir : string -> bool;
  os_path_abspath : string -> string;
  os_path_expanduser : string -> string;
  (** [DataLoader().path_dwim] after [set_basedir], on a string and on any
      other value *)
  DataLoader_path_dwim : string -> string -> string;
  DataLoader_path_dwim_other : string -> value -> outcome string;
  (** [DataLoader().load_from_file] *)
  DataLoader_load_from_file : string -> ansible_result value;
  (** [Templar(dl, variables).template(value, fail_on_undefined=False)] after
      [dl.set_basedir]; [None] when it raises [AnsibleError] or [ValueError] *)
  Templar_template : string -> value -> list (string * value) -> option value;
  (** [ansible.parsing.splitter.split_args] *)
  split_args : string -> list string;
  DEFAULT_ROLES_PATH : roles_path;
  (** [str(v)] for a sequence or a mapping *)
  str_of_container : value -> string;
  (** [str(v)] for a sequence or a mapping in the store *)
  str_of_object : list pyobj -> nat -> string;
  (** [ModuleArgsParser(task).parse()], given the store, [BUILTIN_TASKS] and
      the entries of [task] *)
  ModuleArgsParser_parse :
    list pyobj -> list string -> list (string * pyval) -> ansible_result parsed_action
}.

(** ** The dependency resolver *)

Section Resolver.
Variable E : environment.

(** [str(v)], as an f-string formats [v] *)
Definition py_str (v : value) : string :=
  match v with
  | VNone => "None"
  | VBool true => "True"
  | VBool false => "False"
  | VInt n => PyStr.of_Z n
  | VStr s => s
  | _ => str_of_container E v
  end.

Definition path_dwim (basedir : string) (given : value) : M string :=
  match given with
  | VStr s => ret (DataLoader_path_dwim E basedir s)
  | _ => lift (DataLoader_path_dwim_other E basedir given)
  end.

Definition template (basedir : string) (v : value)
    (variables : list (string * value)) : value :=
  match Templar_template E (os_path_abspath E basedir) v variables with
  | Some r => r
  | None => VNone
  end.

(** The loop of [tokenize] over [tokens[1:]] *)
Fixpoint tokenize_args (tokens : list string) (nonkvfound : bool)
    (args : list string) (kwargs : list (string * string))
    : M (list string * list (string * string)) :=
  match tokens with
  | [] => ret (args, kwargs)
  | arg :: tokens' =>
      if PyStr.contains "=" arg && negb nonkvfound then
        let kv := PyStr.split_once "=" arg in
        match kv with
        | kv0 :: kv1 :: _ => tokenize_args tokens' nonkvfound args (dict_set kwargs kv0 kv1)
        | _ => raise IndexError
        end
      else tokenize_args tokens' true (args ++ [arg]) kwargs
  end.

Definition tokenize (line : string)
    : M (string * list string * list (string * string)) :=
  let tokens := PyStr.split " " (PyStr.lstrip line) in
  t0 <- py_first tokens ;;
  let tokens := if String.eqb t0 "-" then tl tokens else tokens in
  t0 <- py_first tokens ;;
  let tokens :=
    if String.eqb t0 "action:" || String.eqb t0 "local_action:"
    then tl tokens else tokens in
  t0 <- py_first tokens ;;
  let command := PyStr.remove_char ":" t0 in
  r <- tokenize_args (tl tokens) false [] [] ;;
  ret (command, fst r, snd r).

Definition _playbook_items (pb_data : value) : M (list (string * value)) :=
  match pb_data with
  | VDict d => ret d
  | _ =>
      if negb (py_truthy pb_data) then ret []
      else
        plays <- py_iter pb_data ;;
        concat_mapM (fun play =>
          match play with
          | VDict d => ret d
          | _ => raise AttributeError
          end) plays
  end.

Definition _load_library_if_exists (path : string) : M unit :=
  if os_path_exists E path
  then fun w => (Ok tt, mkWorld (heap w) (module_dirs w ++ [path]) (BUILTIN_TASKS w))
  else ret tt.

Definition roles_search_locations : list string :=
  match DEFAULT_ROLES_PATH E with
  | RolesPathNone => []
  | RolesPathStr s => if String.eqb s "" then [] else PyStr.split ":" s
  | RolesPathList l => l
  end.

Definition _rolepath (basedir : string) (role : value) : M (option string) :=
  match role with
  | VStr r =>
      let possible_paths :=
        [ DataLoader_path_dwim E basedir (OsPath.join "roles" r);
          DataLoader_path_dwim E basedir r;
          DataLoader_path_dwim E basedir (OsPath.join_all ".." [".."; ".."; "roles"; r]);
          DataLoader_path_dwim E basedir (OsPath.join_all ".." [".."; r]) ]
        ++ map (fun loc => DataLoader_path_dwim E (os_path_expanduser E loc) r)
               roles_search_locations in
      let role_path := List.find (os_path_isdir E) possible_paths in
      match role_path with
      | Some p =>
          (if negb (String.eqb p "")
           then _load_library_if_exists (OsPath.join p "library")
           else ret tt) ;;
          ret role_path
      | None => ret None
      end
  | _ => raise TypeError
  end.

(** The inner loop of [_look_for_role_files]: the first extension under
    which [th/main] exists. *)
Definition role_file (role_path th main : string) : list edge :=
  match List.find (fun ext => os_path_exists E (OsPath.join_all role_path [th; main +:+ ext]))
                  [".yml"; ".yaml"] with
  | Some ext => [mkEdge (OsPath.join_all role_path [th; main +:+ ext]) th]
  | None => []
  end.

Definition _look_for_role_files (basedir : string) (role main : value)
    : M (list edge) :=
  role_path <- _rolepath basedir role ;;
  match role_path with
  | None => ret []
  | Some rp =>
      if String.eqb rp "" then ret []
      else
        concat_mapM (fun th =>
          match main with
          | VStr m => ret (role_file rp th m)
          | _ => raise TypeError
          end) ["tasks"; "handlers"; "meta"]
  end.

(** The body of the loop of [_roles_children] for one role reference. *)
Definition role_children (basedir : string) (main role : value) : M (list edge) :=
  match role with
  | VDict d =>
      if dict_has d "role" || dict_has d "name" then
        wanted <-
          (if negb (dict_has d "tags") then ret true
           else
             tags <- py_getitem role "tags" ;;
             skip <- py_in "skip_ansible_later" tags ;;
             ret (negb skip)) ;;
        if (wanted : bool) then
          name <- py_get role "name" VNone ;;
          r <- py_get role "role" name ;;
          _look_for_role_files basedir r main
        else ret []
      else
        raise (SystemExit ("role dict " +:+ py_str role
                           +:+ " does not contain a 'role' or 'name' key"))
  | _ => _look_for_role_files basedir role main
  end.

Definition _roles_children (basedir k : string) (v : value)
    (parent_type : string) (main : value) : M (list edge) :=
  roles <- py_iter v ;;
  concat_mapM (role_children basedir main) roles.

Definition append_children (taskhandler : value) (basedir k parent_type : string)
    (results : list edge) : M (list edge) :=
  let playbook_section :=
    if String.eqb parent_type "playbook" then k else parent_type in
  p <- path_dwim basedir taskhandler ;;
  ret (results ++ [mkEdge p playbook_section]).

Definition _include_children (basedir k : string) (v : value)
    (parent_type : string) : M (list edge) :=
  t <- tokenize (k +:+ ": " +:+ py_str v) ;;
  let args := snd (fst t) in
  a0 <- py_first args ;;
  result <- path_dwim basedir (VStr a0) ;;
  result <-
    (if negb (os_path_exists E result) && negb (PyStr.endswith "tasks" basedir)
     then path_dwim (OsPath.join_all basedir [".."; "tasks"]) v
     else ret result) ;;
  ret [mkEdge result parent_type].

(** One iteration of the loop of [_taskshandlers_children] over the entry
    [th].  [recurse key] stands for
    [_taskshandlers_children(basedir, k, th[key], parent_type)]. *)
Definition taskshandler_entry (basedir k parent_type : string) (th : value)
    (recurse : string -> M (list edge)) (results : list edge) : M (list edge) :=
  let include_of (key : string) : M (list edge) :=
    x <- py_getitem th key ;;
    append_children x basedir k parent_type results in
  let role_of (key : string) : M (list edge) :=
    r <- py_getitem th key ;;
    name <- py_get r "name" VNone ;;
    main <- py_get r "tasks_from" (VStr "main") ;;
    rs <- _roles_children basedir k (VList [name]) parent_type main ;;
    ret (results ++ rs) in
  b <- py_in "include" th ;;
  if (b : bool) then include_of "include" else
  b <- py_in "include_tasks" th ;;
  if (b : bool) then include_of "include_tasks" else
  b <- py_in "import_playbook" th ;;
  if (b : bool) then include_of "import_playbook" else
  b <- py_in "import_tasks" th ;;
  if (b : bool) then include_of "import_tasks" else
  b <- py_in "import_role" th ;;
  if (b : bool) then role_of "import_role" else
  b <- py_in "include_role" th ;;
  if (b : bool) then role_of "include_role" else
  b <- py_in "block" th ;;
  if (b : bool) then
    r1 <- recurse "block" ;;
    b2 <- py_in "rescue" th ;;
    r2 <- (if (b2 : bool) then recurse "rescue" else ret []) ;;
    b3 <- py_in "always" th ;;
    r3 <- (if (b3 : bool) then recurse "always" else ret []) ;;
    ret (((results ++ r1) ++ r2) ++ r3)
  else ret results.

(** The recursion descends into the lists under [block], [rescue] and
    [always] of an entry; [_taskshandlers_children_unfold] below states it
    with [th[key]] as the source writes it. *)
Fixpoint _taskshandlers_children (basedir k : string) (v : value)
    (parent_type : string) {struct v} : M (list edge) :=
  match v with
  | VList l =>
      foldM (fun results th =>
               taskshandler_entry basedir k parent_type th
                 (fun key =>
                    match th with
                    | VDict d =>
                        match dict_get_with
                                (fun x => _taskshandlers_children basedir k x parent_type)
                                d key with
                        | Some children => children
                        | None => raise (KeyError key)
                        end
                    | _ => raise TypeError
                    end)
                 results) l []
  | _ =>
      ths <- py_iter v ;;
      foldM (fun results th =>
               taskshandler_entry basedir k parent_type th
                 (fun _ => raise TypeError) results) ths []
  end.

Definition delegate_map
    : list (string * (string -> string -> value -> string -> M (list edge))) :=
  [ ("tasks", _taskshandlers_children);
    ("pre_tasks", _taskshandlers_children);
    ("post_tasks", _taskshandlers_children);
    ("block", _taskshandlers_children);
    ("include", _include_children);
    ("import_playbook", _include_children);
    ("roles", fun basedir k v parent_type =>
                _roles_children basedir k v parent_type (VStr "main"));
    ("dependencies", fun basedir k v parent_type =>
                _roles_children basedir k v parent_type (VStr "main"));
    ("handlers", _taskshandlers_children) ].

Definition play_children (basedir : string) (item : string * value)
    (parent_type : string) : M (list edge) :=
  let (k, v) := item in
  let play_library := OsPath.join (os_path_abspath E basedir) "library" in
  _load_library_if_exists play_library ;;
  match dict_get delegate_map k with
  | Some children_of =>
      if py_truthy v then
        let v := template (os_path_abspath E basedir) v
                   [("playbook_dir", VStr (os_path_abspath E basedir))] in
        children_of basedir k v parent_type
      else ret []
  | None => ret []
  end.

(** The body of the inner loop of [find_children] for one child. *)
Definition resolved_child (basedir : string) (child : edge) : list edge :=
  if PyStr.contains "$" (edge_path child) || PyStr.contains "{{" (edge_path child)
  then []
  else
    let valid_tokens :=
      (fix upto (tokens : list string) : list string :=
         match tokens with
         | [] => []
         | token :: tokens' =>
             if PyStr.contains "=" token then [] else token :: upto tokens'
         end) (split_args E (edge_path child)) in
    let path := PyStr.join " " valid_tokens in
    [mkEdge (DataLoader_path_dwim E basedir path) (edge_type child)].

(** [play_children] declares three parameters, [(basedir, item,
    parent_type)]; the call in [find_children] passes four arguments,
    [(basedir, item, playbook[1], playbook_dir)]. *)
Definition find_children (playbook : string * string) (playbook_dir : string)
    : M (list edge) :=
  if negb (os_path_exists E (fst playbook)) then ret []
  else
    playbook_ds <-
      (if String.eqb (snd playbook) "role"
       then ret (VDict [("roles", VList [VDict [("role", VStr (fst playbook))]])])
       else match DataLoader_load_from_file E (fst playbook) with
            | AnsibleOk ds => ret ds
            | AnsibleError msg => raise (SystemExit msg)
            end) ;;
    let basedir := OsPath.dirname (fst playbook) in
    items <- _playbook_items playbook_ds ;;
    concat_mapM (fun item =>
      children <- py_call 3 4 (play_children basedir item (snd playbook)) ;;
      ret (concat (map (resolved_child basedir) children))) items.
End Resolver.

(** ** The object store *)

(** The object at a location *)
Definition load (l : nat) : M pyobj :=
  fun w => match heap w !! l with
           | Some o => (Ok o, w)
           | None => (Raise InvalidReference, w)
           end.

(** The world with [h] for its store *)
Definition set_heap (w : world) (h : list pyobj) : world :=
  mkWorld h (module_dirs w) (BUILTIN_TASKS w).

(** Replace the object at a location *)
Definition store (l : nat) (o : pyobj) : M unit :=
  fun w => (Ok tt, set_heap w (<[l := o]> (heap w))).

(** A new object, at the next free location.  An object that is local to a
    call is built as a Rocq value and enters the store where the call hands it
    out. *)
Definition alloc (o : pyobj) : M nat :=
  fun w => (Ok (length (heap w)), set_heap w (heap w ++ [o])).

(** The entries of [v] when [v] is a mapping: [isinstance(v, dict)] *)
Definition obj_dict (v : pyval) : M (option (list (string * pyval))) :=
  match v with
  | PRef l => o <- load l ;;
              ret (match o with ODict d => Some d | OList _ => None end)
  | _ => ret None
  end.

(** The items of [v] when [v] is a sequence: [isinstance(v, list)] *)
Definition obj_list (v : pyval) : M (option (list pyval)) :=
  match v with
  | PRef l => o <- load l ;;
              ret (match o with OList items => Some items | ODict _ => None end)
  | _ => ret None
  end.

(** [bool(v)] *)
Definition obj_truthy (v : pyval) : M bool :=
  match v with
  | PNone => ret false
  | PBool b => ret b
  | PInt n => ret (negb (Z.eqb n 0))
  | PStr s => ret (negb (String.eqb s ""))
  | PRef l =>
      o <- load l ;;
      ret (match o with
           | ODict [] | OList [] => false
           | _ => true
           end)
  end.

(** [for x in v] *)
Definition obj_iter (v : pyval) : M (list pyval) :=
  match v with
  | PRef l =>
      o <- load l ;;
      ret (match o with
           | OList items => items
           | ODict d => map PStr (dict_keys d)
           end)
  | PStr s => ret (map PStr (PyStr.chars s))
  | _ => raise TypeError
  end.

(** [x == k] for a string [k] *)
Definition obj_eq_str (x : pyval) (k : string) : bool :=
  match x with
  | PStr s => String.eqb s k
  | _ => false
  end.

(** [k in v] for a string [k] *)
Definition obj_in (k : string) (v : pyval) : M bool :=
  match v with
  | PRef l =>
      o <- load l ;;
      ret (match o with
           | ODict d => dict_has d k
           | OList items => existsb (fun x => obj_eq_str x k) items
           end)
  | PStr s => ret (PyStr.contains k s)
  | _ => raise TypeError
  end.

(** [v[k]] for a string [k] *)
Definition obj_getitem (v : pyval) (k : string) : M pyval :=
  match v with
  | PRef l =>
      o <- load l ;;
      match o with
      | ODict d => match dict_get d k with
                   | Some x => ret x
                   | None => raise (KeyError k)
                   end
      | OList _ => raise TypeError
      end
  | _ => raise TypeError
  end.

(** [v[k] = x] for a string [k] *)
Definition obj_setitem (v : pyval) (k : string) (x : pyval) : M unit :=
  match v with
  | PRef l =>
      o <- load l ;;
      match o with
      | ODict d => store l (ODict (dict_set d k x))
      | OList _ => raise TypeError
      end
  | _ => raise TypeError
  end.

(** The entries of [v] for a method that only a mapping has ([get], [pop],
    [update], [keys], [items]) *)
Definition obj_entries (v : pyval) : M (list (string * pyval)) :=
  d <- obj_dict v ;;
  match d with
  | Some d => ret d
  | None => raise AttributeError
  end.

(** [v.get(k, default)] *)
Definition obj_get (v : pyval) (k : string) (default : pyval) : M pyval :=
  d <- obj_entries v ;;
  ret (match dict_get d k with Some x => x | None => default end).

(** [v.keys()] *)
Definition obj_keys (v : pyval) : M (list string) :=
  d <- obj_entries v ;;
  ret (dict_keys d).

(** The mapping at [v] with its entries replaced: what [del v[k]],
    [v.pop(k, default)] and [v.update(...)] do to a mapping [v]. *)
Definition obj_replace (v : pyval) (d : list (string * pyval)) : M unit :=
  match v with
  | PRef l => store l (ODict d)
  | _ => raise AttributeError
  end.

(** [v.pop(k, default)]: [None] stands for the default. *)
Definition obj_pop (v : pyval) (k : string) : M (option pyval) :=
  d <- obj_entries v ;;
  obj_replace v (dict_remove d k) ;;
  ret (dict_get d k).

(** [v.update(k=x)] *)
Definition obj_update1 (v : pyval) (k : string) (x : pyval) : M unit :=
  d <- obj_entries v ;;
  obj_replace v (dict_set d k x).

(** ** The task extractor *)

Definition BLOCK_NAME_TO_ACTION_TYPE_MAP : list (string * string) :=
  [ ("tasks", "task");
    ("handlers", "handler");
    ("pre_tasks", "task");
    ("post_tasks", "task");
    ("block", "meta");
    ("rescue", "meta");
    ("always", "meta") ].

Section Runtime.
Variable E : environment.

(** [str(v)] in the store [h] *)
Definition str_of_pyval (h : list pyobj) (v : pyval) : string :=
  match v with
  | PNone => "None"
  | PBool true => "True"
  | PBool false => "False"
  | PInt n => PyStr.of_Z n
  | PStr s => s
  | PRef l => str_of_object E h l
  end.

Definition obj_str (v : pyval) : M string :=
  fun w => (Ok (str_of_pyval (heap w) v), w).

(** [action_meta] is [None] when the caller leaves it out. *)
Definition add_action_type (actions : pyval) (action_type : string)
    (action_meta : pyval) : M (list pyval) :=
  items <- obj_iter actions ;;
  foldM (fun results action =>
    ty <- match dict_get BLOCK_NAME_TO_ACTION_TYPE_MAP action_type with
          | Some ty => ret ty
          | None => raise (KeyError action_type)
          end ;;
    obj_setitem action "__ansible_action_type__" (PStr ty) ;;
    has_meta <- obj_truthy action_meta ;;
    (if (has_meta : bool)
     then obj_setitem action "__ansible_action_meta__" action_meta
     else ret tt) ;;
    ret (results ++ [action])) items [].

(** The body of the loops of [extract_from_list] for one block and one
    candidate key. *)
Definition extract_candidate (block : pyval) (results : list pyval)
    (candidate : string) : M (list pyval) :=
  let delete_meta_keys :=
    [candidate; "__line__"; "__file__"; "__ansible_action_type__"] in
  entries <- obj_dict block ;;
  match entries with
  | Some d =>
      match dict_get d candidate with
      | Some x =>
          items <- obj_list x ;;
          match items with
          | Some _ =>
              meta_data <- alloc (ODict (fold_left dict_remove delete_meta_keys d)) ;;
              rs <- add_action_type x candidate (PRef meta_data) ;;
              ret (results ++ rs)
          | None =>
              match x with
              | PNone => ret results
              | _ =>
                  s <- obj_str x ;;
                  raise (RuntimeError ("Key '" +:+ candidate
                                       +:+ "' defined, but bad value: '" +:+ s +:+ "'"))
              end
          end
      | None => ret results
      end
  | None => ret results
  end.

(** [blocks] are the items the loop [for block in blocks] runs over. *)
Definition extract_from_list (blocks : list pyval) (candidates : list string)
    : M (list pyval) :=
  foldM (fun results block =>
           foldM (extract_candidate block) candidates results) blocks [].

Definition action_tasks (yaml : pyval) (file : list (string * pyval))
    : M (list pyval) :=
  filetype <- match dict_get file "filetype" with
              | Some ft => ret ft
              | None => raise (KeyError "filetype")
              end ;;
  tasks <-
    match filetype with
    | PStr ft =>
        if str_in ft ["tasks"; "handlers"]
        then add_action_type yaml ft PNone
        else blocks <- obj_iter yaml ;;
             extract_from_list blocks ["tasks"; "handlers"; "pre_tasks"; "post_tasks"]
    | _ => blocks <- obj_iter yaml ;;
           extract_from_list blocks ["tasks"; "handlers"; "pre_tasks"; "post_tasks"]
    end ;;
  (* Add sub-elements of block/rescue/always to tasks list *)
  nested <- extract_from_list tasks ["block"; "rescue"; "always"] ;;
  let tasks := tasks ++ nested in
  (* Remove block/rescue/always elements from tasks list *)
  let block_rescue_always := ["block"; "rescue"; "always"] in
  tasks <- filterM (fun task =>
             allM (fun k => b <- obj_in k task ;; ret (negb b))
                  block_rescue_always) tasks ;;
  let allowed := ["include"; "include_tasks"; "import_playbook"; "import_tasks"] in
  filterM (fun task =>
    keys <- obj_keys task ;;
    ret (forallb (fun a => negb (str_in a keys)) allowed)) tasks.

(** ** The task normalizer *)

(** [list(set(builtin + custom_modules))]: each name once *)
Definition merge_names (builtin custom_modules : list string) : list string :=
  remove_dups (builtin ++ custom_modules).

Definition set_BUILTIN_TASKS (names : list string) : M unit :=
  fun w => (Ok tt, mkWorld (heap w) (module_dirs w) names).

Definition get_BUILTIN_TASKS : M (list string) :=
  fun w => (Ok (BUILTIN_TASKS w), w).

Definition parse_task (entries : list (string * pyval)) : M parsed_action :=
  fun w => match ModuleArgsParser_parse E (heap w) (BUILTIN_TASKS w) entries with
           | AnsibleOk p => (Ok p, w)
           | AnsibleError msg => (Raise (LaterAnsibleError msg), w)
           end.

(** What [normalize_task] sets aside: the action type, and the popped
    metadata, where [None] stands for the default of [pop] ([None] for
    [__line__] and [__file__], [{}] for [__ansible_action_meta__]). *)
Record task_meta : Type := mkMeta {
  ansible_action_type : pyval;
  meta_line : option pyval;
  meta_file : option pyval;
  meta_action_meta : option pyval
}.

(** [normalize_task], lines 375 to 387: the action type and the metadata
    leave the task. *)
Definition take_metadata (task : pyval) : M task_meta :=
  action_type <- obj_get task "__ansible_action_type__" (PStr "task") ;;
  has_type <- obj_in "__ansible_action_type__" task ;;
  (if (has_type : bool)
   then d <- obj_entries task ;;
        obj_replace task (dict_remove d "__ansible_action_type__")
   else ret tt) ;;
  (* temp. extract metadata *)
  line <- obj_pop task "__line__" ;;
  file <- obj_pop task "__file__" ;;
  meta <- obj_pop task "__ansible_action_meta__" ;;
  ret (mkMeta action_type line file meta).

(** [normalize_task], lines 391 to 393 *)
Definition register_custom_modules (custom_modules : list string) : M unit :=
  builtin <- get_BUILTIN_TASKS ;;
  set_BUILTIN_TASKS (merge_names builtin custom_modules).

(** The last loop of [normalize_task]: a popped value goes back when it is
    true; a default is not. *)
Definition restore_meta (normalized : list (string * pyval)) (k : string)
    (v : option pyval) : M (list (string * pyval)) :=
  match v with
  | Some x =>
      b <- obj_truthy x ;;
      ret (if (b : bool) then dict_set normalized k x else normalized)
  | None => ret normalized
  end.

(** The module name after the shell conversion is undone *)
Definition resolved_module (parsed : parsed_action) : string :=
  if dict_has (parsed_arguments parsed) "_uses_shell"
  then "shell" else parsed_module parsed.

(** The fields of the task that go over to the normalized record as they
    are: the loop of lines 406 to 412. *)
Definition pass_through (action : string) (items normalized : list (string * pyval))
    : list (string * pyval) :=
  fold_left (fun normalized kv =>
               if str_in (fst kv) ["action"; "local_action"; "args"; "delegate_to"]
                  || String.eqb (fst kv) action
               then normalized
               else dict_set normalized (fst kv) (snd kv))
            items normalized.

(** [normalize_task], lines 401 to 431: the record built from what the
    grammar returned and from the fields left in the task. *)
Definition normalized_record (task filename : pyval) (meta : task_meta)
    (parsed : parsed_action) : M pyval :=
  let normalized := [("delegate_to", parsed_delegate_to parsed)] in
  let arguments := parsed_arguments parsed in
  (* denormalize shell -> command conversion *)
  let action := resolved_module parsed in
  let arguments :=
    if dict_has arguments "_uses_shell"
    then dict_remove arguments "_uses_shell" else arguments in
  items <- obj_entries task ;;
  let normalized := pass_through action items normalized in
  raw <- match dict_get arguments "_raw_params" with
         | Some (PStr s) => ret (map PStr (PyStr.split_ws s))
         | Some _ => raise AttributeError
         | None => ret []
         end ;;
  let arguments := dict_remove arguments "_raw_params" in
  raw_list <- alloc (OList raw) ;;
  action_dict <- alloc (ODict (dict_update
                                 [("__ansible_module__", PStr action);
                                  ("__ansible_arguments__", PRef raw_list)]
                                 arguments)) ;;
  let normalized := dict_set normalized "action" (PRef action_dict) in
  let normalized := dict_set normalized "__file__" filename in
  let normalized :=
    dict_set normalized "__ansible_action_type__" (ansible_action_type meta) in
  (* add back extracted metadata *)
  normalized <- restore_meta normalized "__line__" (meta_line meta) ;;
  normalized <- restore_meta normalized "__file__" (meta_file meta) ;;
  normalized <- restore_meta normalized "__ansible_action_meta__" (meta_action_meta meta) ;;
  result <- alloc (ODict normalized) ;;
  ret (PRef result).

Definition normalize_task (task filename : pyval)
    (custom_modules : option (list string)) : M pyval :=
  let custom_modules :=
    match custom_modules with Some l => l | None => [] end in
  meta <- take_metadata task ;;
  register_custom_modules custom_modules ;;
  entries <- obj_entries task ;;
  parsed <- parse_task entries ;;
  normalized_record task filename meta parsed.
End Runtime.

(** ** [Standard] *)

Module Standard.

Record t : Type := mk {
  id : pyval;
  name : pyval;
  version : pyval;
  check : pyval;
  types : pyval
}.

Section Init.
Variable E : environment.

Definition __init__ (standard_dict : pyval) : M t :=
  has_id <- obj_in "id" standard_dict ;;
  (if negb has_id
   then obj_update1 standard_dict "id" (PStr "")
   else old <- obj_get standard_dict "id" PNone ;;
        s <- obj_str E old ;;
        obj_update1 standard_dict "id" (PStr ("[" +:+ s +:+ "] "))) ;;
  self_id <- obj_get standard_dict "id" PNone ;;
  self_name <- obj_get standard_dict "name" PNone ;;
  self_version <- obj_get standard_dict "version" PNone ;;
  self_check <- obj_get standard_dict "check" PNone ;;
  self_types <- obj_get standard_dict "types" PNone ;;
  ret (mk self_id self_name self_version self_check self_types).
End Init.

End Standard.

(** ** A sample environment

    A small file system and stand-ins for the collaborators, to run the
    definitions on concrete inputs. *)

Module Sample.

Definition dirs : list string :=
  [ "/pb"; "/pb/roles"; "/pb/roles/web"; "/pb/roles/web/tasks";
    "/pb/roles/web/handlers"; "/pb/roles/web/library" ].

Definition files : list string :=
  [ "/pb/site.yml";
    "/pb/roles/web/tasks/main.yml";
    "/pb/roles/web/handlers/main.yml";
    "/pb/roles/web/handlers/../tasks/sub.yml" ].

(** The play of [/pb/site.yml] *)
Definition site : value :=
  VList [ VDict [ ("hosts", VStr "all");
                  ("roles", VList [ VDict [ ("role", VStr "myrole");
                                            ("tags", VList [VStr "skip_ansible_later"]) ] ]) ] ].

(** A tasks file: a block with a rescue section, an include, a plain task *)
Definition tasks_file : value :=
  VList [ VDict [ ("block", VList [VDict [("debug", VStr "msg=a")]]);
                  ("rescue", VList [VDict [("debug", VStr "msg=b")]]) ];
          VDict [ ("include_tasks", VStr "more.yml") ];
          VDict [ ("command", VStr "uptime") ] ].

Definition directives : list string :=
  [ "name"; "when"; "tags"; "register"; "notify"; "delegate_to"; "args";
    "become"; "ignore_errors" ].

(** [k=v] words become arguments, the other words the raw parameters. *)
Fixpoint kv_words (words : list string) (args : list (string * pyval))
    (raw : list string) : list (string * pyval) :=
  match words with
  | [] => match raw with
          | [] => args
          | _ :: _ => dict_set args "_raw_params" (PStr (PyStr.join " " raw))
          end
  | word :: words' =>
      match PyStr.split_once "=" word with
      | k :: v :: _ => kv_words words' (dict_set args k (PStr v)) raw
      | _ => kv_words words' args (raw ++ [word])
      end
  end.

(** A stand-in for the argument grammar: the first key that is not a
    directive names the module, its value is a string of words, a mapping of
    arguments or nothing; [shell] is the [command] module with
    [_uses_shell]. *)
Definition parse (h : list pyobj) (builtin : list string)
    (entries : list (string * pyval)) : ansible_result parsed_action :=
  let delegate_to :=
    match dict_get entries "delegate_to" with Some d => d | None => PNone end in
  match List.find (fun kv => negb (str_in (fst kv) directives)) entries with
  | Some (module, x) =>
      let arguments :=
        match x with
        | PStr s => Some (kv_words (PyStr.split_ws s) [] [])
        | PNone => Some []
        | PRef l => match h !! l with
                    | Some (ODict d) => Some d
                    | _ => None
                    end
        | _ => None
        end in
      match arguments with
      | Some arguments =>
          if String.eqb module "shell"
          then AnsibleOk (mkParsed "command"
                            (dict_set arguments "_uses_shell" (PBool true)) delegate_to)
          else AnsibleOk (mkParsed module arguments delegate_to)
      | None => AnsibleError "unexpected parameter type in action"
      end
  | None => AnsibleError "no module/action detected in task"
  end.

Definition env : environment := {|
  os_path_exists p := str_in p (dirs ++ files);
  os_path_isdir p := str_in p dirs;
  os_path_abspath p := p;
  os_path_expanduser p := p;
  DataLoader_path_dwim basedir given := OsPath.join basedir given;
  DataLoader_path_dwim_other _ _ := Raise TypeError;
  DataLoader_load_from_file p :=
    if String.eqb p "/pb/site.yml" then AnsibleOk site
    else AnsibleError "file not found";
  Templar_template _ v _ := Some v;
  split_args s := PyStr.split_ws s;
  DEFAULT_ROLES_PATH := RolesPathNone;
  str_of_container _ := "<container>";
  str_of_object _ _ := "<object>";
  ModuleArgsParser_parse := parse
|}.

(** A parsed document placed in the store, one new object per mapping and
    sequence, as a load of a document without aliases builds it. *)
Fixpoint build (v : value) : M pyval :=
  match v with
  | VNone => ret PNone
  | VBool b => ret (PBool b)
  | VInt n => ret (PInt n)
  | VStr s => ret (PStr s)
  | VList l =>
      items <- foldM (fun acc x => r <- build x ;; ret (acc ++ [r])) l [] ;;
      loc <- alloc (OList items) ;;
      ret (PRef loc)
  | VDict d =>
      entries <- foldM (fun acc kv =>
                          r <- build (snd kv) ;; ret (acc ++ [(fst kv, r)])) d [] ;;
      loc <- alloc (ODict entries) ;;
      ret (PRef loc)
  end.

Definition empty : world := mkWorld [] [] [].

(** The world after [v] has been built in the empty one, and the reference
    to it. *)
Definition built (v : value) : pyval * world :=
  match build v empty with
  | (Ok r, w) => (r, w)
  | (Raise _, w) => (PNone, w)
  end.

End Sample.

(** ** Predicates of the statements *)

(** [k in tags] holds, for the values on which Python defines it *)
Definition contains_tag (k : string) (tags : value) : bool :=
  match tags with
  | VList l => existsb (fun x => py_eq_str x k) l
  | VStr s => PyStr.contains k s
  | VDict d => dict_has d k
  | _ => false
  end.

(** A role reference that is a mapping with a [role] or [name] key and whose
    [tags] contain [skip_ansible_later] *)
Definition skip_tagged (role : value) : bool :=
  match role with
  | VDict d =>
      (dict_has d "role" || dict_has d "name")
      && match dict_get d "tags" with
         | Some tags => contains_tag "skip_ansible_later" tags
         | None => false
         end
  | _ => false
  end.

(** A computation that leaves the process state as it finds it *)
Definition pure {A} (m : M A) : Prop := forall w, snd (m w) = w.

(** A computation that leaves the object at every location as it finds it;
    it may add objects at new locations. *)
Definition framed {A} (m : M A) : Prop :=
  forall w l o, heap w !! l = Some o -> heap (snd (m w)) !! l = Some o.

(** The keys that [normalize_task] takes out of the task it is given *)
Definition bookkeeping_keys : list string :=
  ["__ansible_action_type__"; "__line__"; "__file__"; "__ansible_action_meta__"].

(** The keys that mark a structural entry, which [action_tasks] does not
    return *)
Definition structural_keys : list string :=
  ["block"; "rescue"; "always";
   "include"; "include_tasks"; "import_playbook"; "import_tasks"].

(** [x] is neither a list nor [None], in the store [h] *)
Definition bad_value (h : list pyobj) (x : pyval) : bool :=
  match x with
  | PNone => false
  | PRef l => match h !! l with
              | Some (ODict _) => true
              | _ => false
              end
  | _ => true
  end.

(** The mapping at [l] holds a value that is neither a list nor [None] under
    the key [c]. *)
Definition holds_bad_value (l : nat) (c : string) (h : list pyobj) : Prop :=
  exists d x, h !! l = Some (ODict d) /\ dict_get d c = Some x /\ bad_value h x = true.

(** A computation that keeps a property of the store *)
Definition keeps (I : list pyobj -> Prop) {A} (m : M A) : Prop :=
  forall w, I (heap w) -> I (heap (snd (m w))).

(** ** More of [yamlhelper.py] *)

(** Python's [find] and slices, with the indices the source computes *)
Module PyText.

(** [s.find(sub)]: the index of the first occurrence, [-1] when there is
    none.  [i] is the index of the first character of [s]. *)
Fixpoint find_from (sub s : string) (i : Z) : Z :=
  if String.prefix sub s then i
  else match s with
       | EmptyString => (-1)%Z
       | String _ s' => find_from sub s' (i + 1)%Z
       end.

Definition find (sub s : string) : Z := find_from sub s 0%Z.

(** A slice bound as Python reads it: a negative bound counts from the end,
    and the result is clipped to the string. *)
Definition bound (s : string) (i : Z) : nat :=
  let n := Z.of_nat (String.length s) in
  Z.to_nat (Z.min n (Z.max 0 (if (i <? 0)%Z then n + i else i)%Z)).

(** [s[i:]] *)
Definition slice_from (s : string) (i : Z) : string :=
  let b := bound s i in
  String.substring b (String.length s - b) s.

(** [s[:j]] *)
Definition slice_to (s : string) (j : Z) : string :=
  String.substring 0 (bound s j) s.

(** [s.rstrip()] *)
Definition rstrip (s : string) : string :=
  string_of_list_ascii
    (rev ((fix go (rs : list ascii) : list ascii :=
             match rs with
             | c :: rs' => if PyStr.is_space c then go rs' else rs
             | [] => []
             end) (rev (list_ascii_of_string s)))).

(** [s.strip()] *)
Definition strip (s : string) : string := rstrip (PyStr.lstrip s).

End PyText.

(** [rolename], lines 356 to 361 *)
Definition rolename (filepath : string) : string :=
  let idx := PyText.find "roles/" filepath in
  if (idx <? 0)%Z then ""
  else
    let role := PyText.slice_from filepath (idx + 6)%Z in
    PyText.slice_to role (PyText.find "/" role).

(** [_kv_to_dict], lines 364 to 366.  [dict(a=..., b=..., **kwargs)] raises
    [TypeError] when [kwargs] has one of the keys [a], [b]. *)
Definition _kv_to_dict (v : string) : M value :=
  t <- tokenize v ;;
  let command := fst (fst t) in
  let args := snd (fst t) in
  let kwargs := snd t in
  if dict_has kwargs "__ansible_module__" || dict_has kwargs "__ansible_arguments__"
  then raise TypeError
  else ret (VDict ([ ("__ansible_module__", VStr command);
                     ("__ansible_arguments__", VList (map VStr args)) ]
                   ++ map (fun kv => (fst kv, VStr (snd kv))) kwargs)).

(** [lines.remove(x)]: the list without its first element equal to [x];
    [None] stands for the [ValueError] of a list that has no such element. *)
Fixpoint list_remove (x : nat * string) (lines : list (nat * string))
    : option (list (nat * string)) :=
  match lines with
  | [] => None
  | y :: lines' =>
      if Nat.eqb (fst y) (fst x) && String.eqb (snd y) (snd x) then Some lines'
      else option_map (cons y) (list_remove x lines')
  end.

(** [list(enumerate(l, start=i))] *)
Fixpoint enumerate_from (i : nat) (l : list string) : list (nat * string) :=
  match l with
  | [] => []
  | x :: l' => (i, x) :: enumerate_from (S i) l'
  end.

(** The first loop of [normalized_yaml], lines 550 to 558: the lines to
    remove, in the order they are appended. *)
Definition yaml_removes (options : list (string * value))
    (lines : list (nat * string)) : list (nat * string) :=
  let opt k := match dict_get options k with
               | Some v => py_truthy v
               | None => false
               end in
  flat_map (fun il =>
    let stripped := PyText.strip (snd il) in
    (if PyStr.startswith "#" stripped then [il] else [])
    ++ (if opt "remove_markers" && String.eqb stripped "---" then [il] else [])
    ++ (if opt "remove_empty" && String.eqb stripped "" then [il] else [])) lines.

(** [normalized_yaml], lines 542 to 564, on the lines that [f.readlines()]
    returns for the file.  [None] stands for the [ValueError] of
    [lines.remove]. *)
Definition normalized_yaml (content : list string) (options : list (string * value))
    : option (list (nat * string)) :=
  let lines := enumerate_from 1 content in
  let removes := yaml_removes options lines in
  fold_left (fun acc line =>
               match acc with
               | Some ls => list_remove line ls
               | None => None
               end) removes (Some lines).

(** [task_to_str], lines 452 to 465 *)
Definition task_to_str (E : environment) (task : pyval) : M pyval :=
  name <- obj_get task "name" PNone ;;
  named <- obj_truthy name ;;
  if (named : bool) then ret name
  else
    action <- obj_get task "action" PNone ;;
    items <- obj_entries action ;;
    pairs <- foldM (fun acc kv =>
                      if str_in (fst kv) ["__ansible_module__"; "__ansible_arguments__"]
                      then ret acc
                      else s <- obj_str E (snd kv) ;;
                           ret (acc ++ [fst kv +:+ "=" +:+ s])) items [] ;;
    arguments <- obj_get action "__ansible_arguments__" PNone ;;
    words <- obj_list arguments ;;
    match words with
    | None => raise TypeError
    | Some words =>
        strs <- foldM (fun acc x =>
                         match x with
                         | PStr s => ret (acc ++ [s])
                         | _ => raise TypeError
                         end) words pairs ;;
        module <- obj_getitem action "__ansible_module__" ;;
        m <- obj_str E module ;;
        ret (PStr (m +:+ " " +:+ PyStr.join " " strs))
    end.

(** The candidate directories of [_rolepath], lines 312 to 327, in the order
    they are tried *)
Definition role_candidates (E : environment) (basedir r : string) : list string :=
  [ DataLoader_path_dwim E basedir (OsPath.join "roles" r);
    DataLoader_path_dwim E basedir r;
    DataLoader_path_dwim E basedir (OsPath.join_all ".." [".."; ".."; "roles"; r]);
    DataLoader_path_dwim E basedir (OsPath.join_all ".." [".."; r]) ]
  ++ map (fun loc => DataLoader_path_dwim E (os_path_expanduser E loc) r)
         (roles_search_locations E).

(** The world after [_load_library_if_exists path] *)
Definition with_library (E : environment) (path : string) (w : world) : world :=
  if os_path_exists E path
  then mkWorld (heap w) (module_dirs w ++ [path]) (BUILTIN_TASKS w)
  else w.

(** [bool(x)] in the store [h], for a value whose reference, if it is one,
    is in [h] *)
Definition truthy_in (h : list pyobj) (x : pyval) : bool :=
  match x with
  | PNone => false
  | PBool b => b
  | PInt n => negb (Z.eqb n 0)
  | PStr s => negb (String.eqb s "")
  | PRef l => match h !! l with
              | Some (ODict []) | Some (OList []) | None => false
              | _ => true
              end
  end.

(** A computation that changes nothing but the store *)
Definition heap_only {A} (m : M A) : Prop :=
  forall w, exists h, snd (m w) = set_heap w h.

(** The mapping at [l] carries the action type [ty]. *)
Definition tagged (ty : string) (l : nat) (h : list pyobj) : Prop :=
  exists d, h !! l = Some (ODict d)
            /\ dict_get d "__ansible_action_type__" = Some (PStr ty).

(** Nothing to extract from [block] under the key [c]: [block] is not a
    mapping, or it has no such key, or the key holds [None]. *)
Definition nothing_under (h : list pyobj) (block : pyval) (c : string) : bool :=
  match block with
  | PRef l => match h !! l with
              | Some (ODict d) => match dict_get d c with
                                  | None | Some PNone => true
                                  | Some _ => false
                                  end
              | Some (OList _) => true
              | None => false
              end
  | _ => true
  end.

(** The structural error of [extract_from_list], lines 480 to 482, for one
    of the keys [candidates] *)
Definition structural_error (candidates : list string) (e : exn) : Prop :=
  exists c s,
    In c candidates
    /\ e = RuntimeError ("Key '" +:+ c +:+ "' defined, but bad value: '" +:+ s +:+ "'").

(** [a] is a mapping of the store [h] *)
Definition is_mapping (h : list pyobj) (a : pyval) : bool :=
  match a with
  | PRef l => match h !! l with
              | Some (ODict _) => true
              | _ => false
              end
  | _ => false
  end.

(** [x] is a scalar or an object of the store [h] *)
Definition in_store (h : list pyobj) (x : pyval) : bool :=
  match x with
  | PRef l => match h !! l with
              | Some _ => true
              | None => false
              end
  | _ => true
  end.

(** If [x] is a list of the store [h], its items are mappings. *)
Definition list_of_mappings (h : list pyobj) (x : pyval) : bool :=
  match x with
  | PRef l => match h !! l with
              | Some (OList items) => forallb (is_mapping h) items
              | _ => true
              end
  | _ => true
  end.

(** A field of a mapping in a store of tasks: its value is in the store,
    and under one of the keys [candidates] a list holds mappings only. *)
Definition entry_ok (candidates : list string) (h : list pyobj)
    (kv : string * pyval) : bool :=
  in_store h (snd kv)
  && (negb (str_in (fst kv) candidates) || list_of_mappings h (snd kv)).

Definition object_ok (candidates : list string) (h : list pyobj) (o : pyobj) : bool :=
  match o with
  | ODict d => forallb (entry_ok candidates h) d
  | OList _ => true
  end.

(** A store of tasks, as a parsed file of tasks gives it: the tasks listed
    under the keys [candidates] are mappings.  Lists under other keys
    ([tags], [with_items], ...) hold what they like. *)
Definition task_lists (candidates : list string) (h : list pyobj) : bool :=
  forallb (object_ok candidates h) h.

(** What a computation may do to the store of tasks: lists stay as they
    are, mappings stay mappings. *)
Definition grows (h h' : list pyobj) : Prop :=
  forall l o, h !! l = Some o ->
    match o with
    | OList items => h' !! l = Some (OList items)
    | ODict _ => exists d', h' !! l = Some (ODict d')
    end.

(** * Properties *)

(** ** Computations *)

Lemma bind_ok {A B} (m : M A) (k : A -> M B) w a w' :
  m w = (Ok a, w') -> bind m k w = k a w'.
Proof. intros H. unfold bind. now rewrite H. Qed.

Lemma bind_raise {A B} (m : M A) (k : A -> M B) w e w' :
  m w = (Raise e, w') -> bind m k w = (Raise e, w').
Proof. intros H. unfold bind. now rewrite H. Qed.

Lemma bind_ok_inv {A B} (m : M A) (k : A -> M B) w b w' :
  bind m k w = (Ok b, w') ->
  exists a w1, m w = (Ok a, w1) /\ k a w1 = (Ok b, w').
Proof.
  unfold bind. destruct (m w) as [[a|e] w1]; intros H.
  - eauto.
  - discriminate.
Qed.

Lemma pure_ret {A} (a : A) : pure (ret a).
Proof. intros w. reflexivity. Qed.

Lemma pure_raise {A} (e : exn) : pure (raise (A:=A) e).
Proof. intros w. reflexivity. Qed.

Lemma pure_bind {A B} (m : M A) (k : A -> M B) :
  pure m -> (forall a, pure (k a)) -> pure (bind m k).
Proof.
  intros Hm Hk w. specialize (Hm w). cbn [bind].
  destruct (m w) as [[a|e] w']; cbn [snd] in Hm; subst; [apply Hk | reflexivity].
Qed.

Lemma pure_run {A} (m : M A) (w : world) : pure m -> m w = (fst (m w), w).
Proof. intros H. specialize (H w). destruct (m w); cbn in *. now subst. Qed.

Lemma pure_py_first {A} (l : list A) : pure (py_first l).
Proof. destruct l; [apply pure_raise | apply pure_ret]. Qed.

(** ** The resolver: a missing entry *)

(** C7: an entry whose path does not exist has no children; nothing is raised
    and the process state is left as it was. *)
Theorem find_children_missing_entry (E : environment) (playbook : string * string)
    (playbook_dir : string) (w : world) :
  os_path_exists E (fst playbook) = false ->
  find_children E playbook playbook_dir w = (Ok [], w).
Proof.
  intros Hmissing. unfold find_children. now rewrite Hmissing.
Qed.

Lemma find_children_missing_entry_witness :
  os_path_exists Sample.env (fst ("/pb/nope.yml", "playbook")) = false
  /\ find_children Sample.env ("/pb/nope.yml", "playbook") "/pb" Sample.empty
     = (Ok [], Sample.empty).
Proof.
  split; [reflexivity | apply find_children_missing_entry; reflexivity].
Defined.

(** ** The resolver: the files of a role *)

Lemma role_file_missing (E : environment) (rp th main : string) :
  os_path_exists E (OsPath.join_all rp [th; main +:+ ".yml"]) = false ->
  os_path_exists E (OsPath.join_all rp [th; main +:+ ".yaml"]) = false ->
  role_file E rp th main = [].
Proof.
  intros Hyml Hyaml. unfold role_file. cbn [List.find]. now rewrite Hyml, Hyaml.
Qed.

(** The edge of one kind: the file is the [.yml] one when that exists, the
    [.yaml] one otherwise, and it exists. *)
Lemma role_file_existing (E : environment) (rp th main : string) :
  os_path_exists E (OsPath.join_all rp [th; main +:+ ".yml"])
  || os_path_exists E (OsPath.join_all rp [th; main +:+ ".yaml"]) = true ->
  let file :=
    OsPath.join_all rp
      [th; main +:+ (if os_path_exists E (OsPath.join_all rp [th; main +:+ ".yml"])
                     then ".yml" else ".yaml")] in
  role_file E rp th main = [mkEdge file th] /\ os_path_exists E file = true.
Proof.
  intros H. unfold role_file. cbn [List.find].
  destruct (os_path_exists E (OsPath.join_all rp [th; main +:+ ".yml"])) eqn:Hyml.
  - split; [reflexivity | exact Hyml].
  - cbn [orb] in H. rewrite H. split; reflexivity.
Qed.

(** C1, as the code has it: for a role that resolves to the directory [rp],
    with a main file under [tasks] and under [handlers] and none under [meta],
    [_look_for_role_files] returns exactly two edges, in this order, whose
    kinds are the directory names [tasks] and [handlers].  The path of each
    edge is the main file of its kind that exists: the [.yml] file when there
    is one, the [.yaml] file otherwise. *)
Theorem look_for_role_files_tasks_handlers (E : environment)
    (basedir : string) (role : value) (main rp : string) (w w' : world) :
  _rolepath E basedir role w = (Ok (Some rp), w') ->
  rp <> "" ->
  os_path_exists E (OsPath.join_all rp ["tasks"; main +:+ ".yml"])
  || os_path_exists E (OsPath.join_all rp ["tasks"; main +:+ ".yaml"]) = true ->
  os_path_exists E (OsPath.join_all rp ["handlers"; main +:+ ".yml"])
  || os_path_exists E (OsPath.join_all rp ["handlers"; main +:+ ".yaml"]) = true ->
  os_path_exists E (OsPath.join_all rp ["meta"; main +:+ ".yml"]) = false ->
  os_path_exists E (OsPath.join_all rp ["meta"; main +:+ ".yaml"]) = false ->
  let file th :=
    OsPath.join_all rp
      [th; main +:+ (if os_path_exists E (OsPath.join_all rp [th; main +:+ ".yml"])
                     then ".yml" else ".yaml")] in
  _look_for_role_files E basedir role (VStr main) w
  = (Ok [mkEdge (file "tasks") "tasks"; mkEdge (file "handlers") "handlers"], w')
  /\ os_path_exists E (file "tasks") = true
  /\ os_path_exists E (file "handlers") = true.
Proof.
  intros Hrole Hrp Htasks Hhandlers Hmeta1 Hmeta2 file.
  destruct (role_file_existing E rp "tasks" main Htasks) as [Ht Het].
  destruct (role_file_existing E rp "handlers" main Hhandlers) as [Hh Heh].
  pose proof (role_file_missing E rp "meta" main Hmeta1 Hmeta2) as Hm.
  split; [|split; [exact Het | exact Heh]].
  unfold _look_for_role_files.
  rewrite (bind_ok _ _ _ _ _ Hrole).
  destruct (String.eqb rp "") eqn:Heq.
  - apply String.eqb_eq in Heq. contradiction.
  - unfold concat_mapM, bind, ret. now rewrite Ht, Hh, Hm.
Qed.

Lemma look_for_role_files_tasks_handlers_witness :
  _look_for_role_files Sample.env "/pb" (VStr "web") (VStr "main") Sample.empty
  = (Ok [ mkEdge "/pb/roles/web/tasks/main.yml" "tasks";
          mkEdge "/pb/roles/web/handlers/main.yml" "handlers" ],
     mkWorld [] ["/pb/roles/web/library"] [])
  /\ os_path_exists Sample.env "/pb/roles/web/tasks/main.yml" = true
  /\ os_path_exists Sample.env "/pb/roles/web/handlers/main.yml" = true.
Proof.
  apply (look_for_role_files_tasks_handlers Sample.env "/pb" (VStr "web") "main"
           "/pb/roles/web" Sample.empty (mkWorld [] ["/pb/roles/web/library"] []));
    [reflexivity | discriminate | reflexivity | reflexivity | reflexivity | reflexivity].
Defined.

(** C1 as stated fails: on a role directory with [tasks/main.yml] and
    [handlers/main.yml] and no [meta/main.yml], the two edges carry the kinds
    [tasks] and [handlers], not [task] and [handler]. *)
Lemma look_for_role_files_kinds_counterexample :
  os_path_exists Sample.env "/pb/roles/web/tasks/main.yml" = true
  /\ os_path_exists Sample.env "/pb/roles/web/handlers/main.yml" = true
  /\ os_path_exists Sample.env "/pb/roles/web/meta/main.yml" = false
  /\ os_path_exists Sample.env "/pb/roles/web/meta/main.yaml" = false
  /\ exists edges w',
       _look_for_role_files Sample.env "/pb" (VStr "web") (VStr "main") Sample.empty
       = (Ok edges, w')
       /\ map edge_type edges = ["tasks"; "handlers"]
       /\ map edge_type edges <> ["task"; "handler"].
Proof.
  repeat (split; [reflexivity |]).
  eexists _, _. split; [reflexivity |]. split; [reflexivity | discriminate].
Qed.

(** ** The resolver: roles tagged [skip_ansible_later] *)

Lemma py_in_contains_tag (k : string) (tags : value) (w : world) :
  contains_tag k tags = true -> py_in k tags w = (Ok true, w).
Proof.
  destruct tags; cbn; intros H; try discriminate; unfold ret; now rewrite H.
Qed.

Lemma roles_entry_skip_tagged (role : value) :
  skip_tagged role = true ->
  exists d tags, role = VDict d
    /\ dict_has d "role" || dict_has d "name" = true
    /\ dict_get d "tags" = Some tags
    /\ contains_tag "skip_ansible_later" tags = true.
Proof.
  destruct role as [| | | | |d]; cbn; try discriminate.
  intros H. apply andb_prop in H as [Hkey Htags].
  destruct (dict_get d "tags") as [tags|] eqn:Hget; [|discriminate].
  exists d, tags. auto.
Qed.

Lemma concat_mapM_all_empty {A B} (f : A -> M (list B)) (l : list A) (w : world) :
  (forall x, In x l -> f x w = (Ok [], w)) ->
  concat_mapM f l w = (Ok [], w).
Proof.
  induction l as [|x l IH]; intros Hf; [reflexivity |].
  cbn [concat_mapM]. rewrite (bind_ok _ _ _ _ _ (Hf x (or_introl eq_refl))).
  rewrite (bind_ok _ _ w [] w); [reflexivity |].
  apply IH. intros y Hy. apply Hf. now right.
Qed.

(** A role reference tagged [skip_ansible_later] contributes no edge and
    leaves the process state as it was. *)
Lemma role_children_skip_tagged (E : environment) (basedir : string)
    (main role : value) (w : world) :
  skip_tagged role = true ->
  role_children E basedir main role w = (Ok [], w).
Proof.
  intros Hrole.
  destruct (roles_entry_skip_tagged role Hrole) as (d & tags & -> & Hkey & Hget & Htag).
  unfold role_children. rewrite Hkey.
  unfold dict_has at 1. rewrite Hget. cbn [negb].
  unfold py_getitem. rewrite Hget.
  cbn [bind ret]. rewrite (py_in_contains_tag _ _ _ Htag). reflexivity.
Qed.

Lemma roles_children_skip_tagged (E : environment) (basedir k parent_type : string)
    (main : value) (roles : list value) (w : world) :
  forallb skip_tagged roles = true ->
  _roles_children E basedir k (VList roles) parent_type main w = (Ok [], w).
Proof.
  intros Hall. unfold _roles_children, py_iter. cbn [bind ret].
  apply concat_mapM_all_empty. intros role Hin.
  apply role_children_skip_tagged.
  rewrite forallb_forall in Hall. now apply Hall.
Qed.

(** C2, at the playbook of the claim: [find_children] does not return an edge
    list.  The entry exists and parses to a play with the tagged role, the
    first item of the play is handed to [play_children] with four arguments,
    and the call raises [TypeError].  The role reference itself contributes
    no edge to [_roles_children]. *)
Theorem find_children_skip_tagged_playbook :
  os_path_exists Sample.env "/pb/site.yml" = true
  /\ DataLoader_load_from_file Sample.env "/pb/site.yml"
     = AnsibleOk
         (VList [ VDict [ ("hosts", VStr "all");
                          ("roles", VList [ VDict [ ("role", VStr "myrole");
                                                    ("tags", VList [VStr "skip_ansible_later"]) ] ]) ] ])
  /\ find_children Sample.env ("/pb/site.yml", "playbook") "/pb" Sample.empty
     = (Raise TypeError, Sample.empty)
  /\ _roles_children Sample.env "/pb" "roles"
       (VList [ VDict [ ("role", VStr "myrole");
                        ("tags", VList [VStr "skip_ansible_later"]) ] ])
       "playbook" (VStr "main") Sample.empty
     = (Ok [], Sample.empty).
Proof. repeat split. Qed.

(** Whenever the entry exists and its content has an item, [find_children]
    raises [TypeError] at the call of [play_children]. *)
Lemma find_children_existing_entry (E : environment) (path kind playbook_dir : string)
    (ds : value) (item : string * value) (items : list (string * value)) (w : world) :
  os_path_exists E path = true ->
  kind <> "role" ->
  DataLoader_load_from_file E path = AnsibleOk ds ->
  _playbook_items ds w = (Ok (item :: items), w) ->
  find_children E (path, kind) playbook_dir w = (Raise TypeError, w).
Proof.
  intros Hexists Hkind Hload Hitems. unfold find_children. cbn [fst snd].
  rewrite Hexists. cbn [negb].
  apply String.eqb_neq in Hkind. rewrite Hkind, Hload.
  unfold bind at 1. unfold ret at 1. rewrite (bind_ok _ _ _ _ _ Hitems).
  reflexivity.
Qed.

(** An existing role entry: the synthesized [roles] item meets the same call. *)
Lemma find_children_existing_role (E : environment) (path playbook_dir : string)
    (w : world) :
  os_path_exists E path = true ->
  find_children E (path, "role") playbook_dir w = (Raise TypeError, w).
Proof.
  intros Hexists. unfold find_children. cbn [fst snd]. now rewrite Hexists.
Qed.

(** ** The resolver: includes *)

Lemma pure_tokenize_args (tokens : list string) (nonkvfound : bool)
    (args : list string) (kwargs : list (string * string)) :
  pure (tokenize_args tokens nonkvfound args kwargs).
Proof.
  revert nonkvfound args kwargs.
  induction tokens as [|arg tokens IH]; intros nonkvfound args kwargs;
    [apply pure_ret |].
  cbn [tokenize_args].
  destruct (PyStr.contains "=" arg && negb nonkvfound); [|apply IH].
  destruct (PyStr.split_once "=" arg) as [|kv0 [|kv1 kv]];
    [apply pure_raise | apply pure_raise | apply IH].
Qed.

Lemma pure_tokenize (line : string) : pure (tokenize line).
Proof.
  unfold tokenize.
  repeat (apply pure_bind; [apply pure_py_first | intros ?]).
  apply pure_bind; [apply pure_tokenize_args | intros ?; apply pure_ret].
Qed.

(** ** Dictionaries *)

Lemma dict_get_set_eq {A} (d : list (string * A)) (k : string) (v : A) :
  dict_get (dict_set d k v) k = Some v.
Proof.
  induction d as [|[k' v'] d IH]; cbn.
  - now rewrite String.eqb_refl.
  - destruct (String.eqb k' k) eqn:Hk; cbn; now rewrite Hk.
Qed.

Lemma dict_get_set_ne {A} (d : list (string * A)) (k k' : string) (v : A) :
  k <> k' -> dict_get (dict_set d k v) k' = dict_get d k'.
Proof.
  intros Hne. induction d as [|[k0 v0] d IH]; cbn.
  - apply String.eqb_neq in Hne. now rewrite Hne.
  - destruct (String.eqb k0 k) eqn:Hk; cbn.
    + apply String.eqb_eq in Hk. subst k0.
      apply String.eqb_neq in Hne. now rewrite Hne.
    + now rewrite IH.
Qed.

Lemma dict_get_remove_eq {A} (d : list (string * A)) (k : string) :
  dict_get (dict_remove d k) k = None.
Proof.
  unfold dict_remove.
  induction d as [|[k' v'] d IH]; cbn [List.filter fst]; [reflexivity |].
  destruct (String.eqb k' k) eqn:Hk; cbn [negb dict_get]; [exact IH | now rewrite Hk].
Qed.

Lemma dict_get_remove_ne {A} (d : list (string * A)) (k k' : string) :
  k <> k' -> dict_get (dict_remove d k) k' = dict_get d k'.
Proof.
  intros Hne. unfold dict_remove.
  induction d as [|[k0 v0] d IH]; cbn [List.filter fst]; [reflexivity |].
  destruct (String.eqb k0 k) eqn:Hk; cbn [negb dict_get].
  - apply String.eqb_eq in Hk. subst k0.
    apply String.eqb_neq in Hne. now rewrite Hne.
  - now rewrite IH.
Qed.

Lemma dict_remove_absent {A} (d : list (string * A)) (k : string) :
  dict_get d k = None -> dict_remove d k = d.
Proof.
  unfold dict_remove.
  induction d as [|[k' v'] d IH]; cbn [List.filter fst dict_get]; [reflexivity |].
  destruct (String.eqb k' k) eqn:Hk; [discriminate |].
  intros H. cbn [negb]. now rewrite (IH H).
Qed.

Lemma dict_has_get {A} (d : list (string * A)) (k : string) :
  dict_has d k = true <-> exists v, dict_get d k = Some v.
Proof.
  unfold dict_has. destruct (dict_get d k); split; intros H; eauto; try discriminate.
  now destruct H.
Qed.

Lemma dict_has_keys {A} (d : list (string * A)) (k : string) :
  dict_has d k = str_in k (dict_keys d).
Proof.
  unfold dict_has, str_in, dict_keys.
  induction d as [|[k' v'] d IH]; cbn; [reflexivity |].
  rewrite (String.eqb_sym k k').
  destruct (String.eqb k' k); [reflexivity | exact IH].
Qed.

(** ** The object store *)

Lemma load_ok (l : nat) (o : pyobj) (w : world) :
  heap w !! l = Some o -> load l w = (Ok o, w).
Proof. intros H. unfold load. now rewrite H. Qed.

Lemma obj_entries_ok (l : nat) (d : list (string * pyval)) (w : world) :
  heap w !! l = Some (ODict d) -> obj_entries (PRef l) w = (Ok d, w).
Proof.
  intros H. unfold obj_entries, obj_dict. cbn [bind]. now rewrite (load_ok _ _ _ H).
Qed.

Lemma obj_in_dict (k : string) (l : nat) (d : list (string * pyval)) (w : world) :
  heap w !! l = Some (ODict d) -> obj_in k (PRef l) w = (Ok (dict_has d k), w).
Proof. intros H. unfold obj_in. cbn [bind]. now rewrite (load_ok _ _ _ H). Qed.

Lemma obj_get_dict (k : string) (default : pyval) (l : nat)
    (d : list (string * pyval)) (w : world) :
  heap w !! l = Some (ODict d) ->
  obj_get (PRef l) k default w
  = (Ok (match dict_get d k with Some x => x | None => default end), w).
Proof.
  intros H. unfold obj_get. cbn [bind]. now rewrite (obj_entries_ok _ _ _ H).
Qed.

Lemma heap_set_heap (w : world) (h : list pyobj) : heap (set_heap w h) = h.
Proof. reflexivity. Qed.

Lemma set_heap_set_heap (w : world) (h h' : list pyobj) :
  set_heap (set_heap w h) h' = set_heap w h'.
Proof. reflexivity. Qed.

Lemma set_heap_same (w : world) : set_heap w (heap w) = w.
Proof. now destruct w. Qed.

Lemma lookup_replaced (h : list pyobj) (l : nat) (o o' : pyobj) :
  h !! l = Some o -> <[l := o']> h !! l = Some o'.
Proof. intros H. apply list_lookup_insert_eq. now apply lookup_lt_Some in H. Qed.

Lemma obj_update1_dict (k : string) (x : pyval) (l : nat)
    (d : list (string * pyval)) (w : world) :
  heap w !! l = Some (ODict d) ->
  obj_update1 (PRef l) k x w
  = (Ok tt, set_heap w (<[l := ODict (dict_set d k x)]> (heap w))).
Proof.
  intros H. unfold obj_update1. cbn [bind]. now rewrite (obj_entries_ok _ _ _ H).
Qed.

Lemma obj_pop_dict (k : string) (l : nat) (d : list (string * pyval)) (w : world) :
  heap w !! l = Some (ODict d) ->
  obj_pop (PRef l) k w
  = (Ok (dict_get d k), set_heap w (<[l := ODict (dict_remove d k)]> (heap w))).
Proof.
  intros H. unfold obj_pop. cbn [bind]. now rewrite (obj_entries_ok _ _ _ H).
Qed.

(** ** [Standard.__init__] *)

(** C10: on a dictionary with an [id], the object's id is that id, as [str]
    prints it, between square brackets and followed by one space; on a
    dictionary without, it is the empty string.  Either way the caller's
    dictionary afterwards holds that string under [id], and the other
    attributes are read from it. *)
Theorem Standard_init_id (E : environment) (l : nat)
    (d : list (string * pyval)) (w : world) :
  heap w !! l = Some (ODict d) ->
  let formatted :=
    match dict_get d "id" with
    | Some old => "[" +:+ str_of_pyval E (heap w) old +:+ "] "
    | None => ""
    end in
  let field k := match dict_get d k with Some x => x | None => PNone end in
  Standard.__init__ E (PRef l) w
  = (Ok (Standard.mk (PStr formatted) (field "name") (field "version")
           (field "check") (field "types")),
     set_heap w (<[l := ODict (dict_set d "id" (PStr formatted))]> (heap w))).
Proof.
  intros Hl formatted field.
  assert (forall x, obj_update1 (PRef l) "id" x w
                    = (Ok tt, set_heap w (<[l := ODict (dict_set d "id" x)]> (heap w))))
    as Hupd by (intros x; now apply obj_update1_dict).
  assert (forall x, heap (set_heap w (<[l := ODict (dict_set d "id" x)]> (heap w))) !! l
                    = Some (ODict (dict_set d "id" x)))
    as Hl' by (intros x; rewrite heap_set_heap; now apply (lookup_replaced _ _ _ _ Hl)).
  assert (forall x w', heap w' !! l = Some (ODict (dict_set d "id" (PStr x))) ->
            (self_id <- obj_get (PRef l) "id" PNone ;;
             self_name <- obj_get (PRef l) "name" PNone ;;
             self_version <- obj_get (PRef l) "version" PNone ;;
             self_check <- obj_get (PRef l) "check" PNone ;;
             self_types <- obj_get (PRef l) "types" PNone ;;
             ret (Standard.mk self_id self_name self_version self_check self_types)) w'
            = (Ok (Standard.mk (PStr x) (field "name") (field "version")
                     (field "check") (field "types")), w')) as Hread.
  { intros x w' Hw'. cbn [bind]. rewrite !(obj_get_dict _ _ _ _ _ Hw').
    rewrite dict_get_set_eq. rewrite !dict_get_set_ne by discriminate. reflexivity. }
  unfold Standard.__init__.
  rewrite (bind_ok _ _ _ _ _ (obj_in_dict "id" _ _ _ Hl)).
  unfold dict_has, formatted. destruct (dict_get d "id") as [old|] eqn:Hid; cbn [negb].
  - rewrite (bind_ok _ _ w tt
               (set_heap w (<[l := ODict (dict_set d "id"
                  (PStr ("[" +:+ str_of_pyval E (heap w) old +:+ "] ")))]> (heap w)))).
    + apply Hread, Hl'.
    + rewrite (bind_ok _ _ _ _ _ (obj_get_dict "id" PNone _ _ _ Hl)). rewrite Hid.
      unfold obj_str. cbn [bind]. apply Hupd.
  - rewrite (bind_ok _ _ _ _ _ (Hupd (PStr ""))). apply Hread, Hl'.
Qed.

Lemma Standard_init_id_witness :
  Standard.__init__ Sample.env (PRef 0)
    (mkWorld [ODict [("name", PStr "yaml"); ("id", PInt 7)]] [] [])
  = (Ok (Standard.mk (PStr "[7] ") (PStr "yaml") PNone PNone PNone),
     mkWorld [ODict [("name", PStr "yaml"); ("id", PStr "[7] ")]] [] [])
  /\ Standard.__init__ Sample.env (PRef 0) (mkWorld [ODict [("name", PStr "yaml")]] [] [])
     = (Ok (Standard.mk (PStr "") (PStr "yaml") PNone PNone PNone),
        mkWorld [ODict [("name", PStr "yaml"); ("id", PStr "")]] [] []).
Proof.
  split.
  - apply (Standard_init_id Sample.env 0 [("name", PStr "yaml"); ("id", PInt 7)]
             (mkWorld [ODict [("name", PStr "yaml"); ("id", PInt 7)]] [] [])).
    reflexivity.
  - apply (Standard_init_id Sample.env 0 [("name", PStr "yaml")]
             (mkWorld [ODict [("name", PStr "yaml")]] [] [])).
    reflexivity.
Defined.

(** ** Computations that only add objects *)

Lemma framed_pure {A} (m : M A) : pure m -> framed m.
Proof. intros H w l o Hl. now rewrite H. Qed.

Lemma framed_ret {A} (a : A) : framed (ret a).
Proof. apply framed_pure, pure_ret. Qed.

Lemma framed_raise {A} (e : exn) : framed (raise (A:=A) e).
Proof. apply framed_pure, pure_raise. Qed.

Lemma framed_bind {A B} (m : M A) (k : A -> M B) :
  framed m -> (forall a, framed (k a)) -> framed (bind m k).
Proof.
  intros Hm Hk w l o Hl. specialize (Hm w l o Hl). cbn [bind].
  destruct (m w) as [[a|e] w']; cbn [snd] in *; [now apply Hk | exact Hm].
Qed.

Lemma framed_alloc (o : pyobj) : framed (alloc o).
Proof.
  intros w l o' Hl. cbn. rewrite lookup_app_l; [exact Hl |].
  now apply lookup_lt_Some in Hl.
Qed.

Lemma pure_load (l : nat) : pure (load l).
Proof. intros w. unfold load. now destruct (heap w !! l). Qed.

Lemma pure_obj_dict (v : pyval) : pure (obj_dict v).
Proof.
  destruct v; try apply pure_ret.
  apply pure_bind; [apply pure_load | intros; apply pure_ret].
Qed.

Lemma pure_obj_list (v : pyval) : pure (obj_list v).
Proof.
  destruct v; try apply pure_ret.
  apply pure_bind; [apply pure_load | intros; apply pure_ret].
Qed.

Lemma pure_obj_entries (v : pyval) : pure (obj_entries v).
Proof.
  apply pure_bind; [apply pure_obj_dict |].
  intros [d|]; [apply pure_ret | apply pure_raise].
Qed.

Lemma pure_obj_truthy (v : pyval) : pure (obj_truthy v).
Proof.
  destruct v; try apply pure_ret.
  apply pure_bind; [apply pure_load | intros; apply pure_ret].
Qed.

Lemma pure_obj_in (k : string) (v : pyval) : pure (obj_in k v).
Proof.
  destruct v; try apply pure_ret; try apply pure_raise.
  apply pure_bind; [apply pure_load | intros; apply pure_ret].
Qed.

Lemma pure_obj_keys (v : pyval) : pure (obj_keys v).
Proof. apply pure_bind; [apply pure_obj_entries | intros; apply pure_ret]. Qed.

Lemma pure_obj_iter (v : pyval) : pure (obj_iter v).
Proof.
  destruct v; try apply pure_ret; try apply pure_raise.
  apply pure_bind; [apply pure_load | intros; apply pure_ret].
Qed.

Lemma pure_obj_str (E : environment) (v : pyval) : pure (obj_str E v).
Proof. intros w. reflexivity. Qed.

Lemma pure_restore_meta (normalized : list (string * pyval)) (k : string)
    (v : option pyval) : pure (restore_meta normalized k v).
Proof.
  destruct v; [|apply pure_ret].
  apply pure_bind; [apply pure_obj_truthy | intros; apply pure_ret].
Qed.

Lemma framed_parse_task (E : environment) (entries : list (string * pyval)) :
  framed (parse_task E entries).
Proof.
  intros w l o Hl. unfold parse_task.
  now destruct (ModuleArgsParser_parse E (heap w) (BUILTIN_TASKS w) entries).
Qed.

(** ** The normalizer and the task it is given *)

Lemma bookkeeping_keys_removed (d : list (string * pyval)) :
  Forall (fun k => dict_has (fold_left dict_remove bookkeeping_keys d) k = false)
         bookkeeping_keys.
Proof.
  unfold dict_has, bookkeeping_keys. cbn [fold_left].
  repeat constructor;
    repeat first [ rewrite dict_get_remove_eq; reflexivity
                 | rewrite dict_get_remove_ne by discriminate ].
Qed.

Lemma framed_normalized_record (E : environment) (task filename : pyval)
    (meta : task_meta) (parsed : parsed_action) :
  framed (normalized_record task filename meta parsed).
Proof.
  unfold normalized_record.
  apply framed_bind; [apply framed_pure, pure_obj_entries | intros items].
  apply framed_bind.
  { destruct (dict_get _ "_raw_params") as [[]|];
      first [apply framed_ret | apply framed_raise]. }
  intros raw.
  apply framed_bind; [apply framed_alloc | intros raw_list].
  apply framed_bind; [apply framed_alloc | intros action_dict].
  do 3 (apply framed_bind; [apply framed_pure, pure_restore_meta | intros ?]).
  apply framed_bind; [apply framed_alloc | intros; apply framed_ret].
Qed.

(** The metadata leave the task: afterwards the task is [d] without the
    bookkeeping keys, and nothing else in the world has changed. *)
Lemma take_metadata_dict (l : nat) (d : list (string * pyval)) (w : world) :
  heap w !! l = Some (ODict d) ->
  take_metadata (PRef l) w
  = (Ok (mkMeta (match dict_get d "__ansible_action_type__" with
                 | Some x => x
                 | None => PStr "task"
                 end)
                (dict_get d "__line__") (dict_get d "__file__")
                (dict_get d "__ansible_action_meta__")),
     set_heap w (<[l := ODict (fold_left dict_remove bookkeeping_keys d)]> (heap w))).
Proof.
  intros Hl. unfold take_metadata.
  rewrite (bind_ok _ _ _ _ _ (obj_get_dict "__ansible_action_type__" (PStr "task") _ _ _ Hl)).
  rewrite (bind_ok _ _ _ _ _ (obj_in_dict "__ansible_action_type__" _ _ _ Hl)).
  set (d1 := dict_remove d "__ansible_action_type__").
  assert (exists w', (if dict_has d "__ansible_action_type__"
                      then d0 <- obj_entries (PRef l) ;;
                           obj_replace (PRef l) (dict_remove d0 "__ansible_action_type__")
                      else ret tt) w = (Ok tt, w')
                     /\ heap w' !! l = Some (ODict d1)
                     /\ forall o, set_heap w' (<[l := o]> (heap w'))
                                  = set_heap w (<[l := o]> (heap w)))
    as (w' & Hstep & Hl1 & Hw').
  { destruct (dict_has d "__ansible_action_type__") eqn:Hhas.
    - eexists. split; [|split].
      + rewrite (bind_ok _ _ _ _ _ (obj_entries_ok _ _ _ Hl)). reflexivity.
      + cbn. now apply (lookup_replaced _ _ _ _ Hl).
      + intros o. unfold set_heap. cbn. now rewrite list_insert_insert_eq.
    - exists w. split; [reflexivity |]. split; [|reflexivity].
      subst d1. rewrite dict_remove_absent; [exact Hl |].
      unfold dict_has in Hhas. now destruct (dict_get d "__ansible_action_type__"). }
  rewrite (bind_ok _ _ _ _ _ Hstep).
  rewrite (bind_ok _ _ _ _ _ (obj_pop_dict "__line__" _ _ _ Hl1)).
  rewrite Hw'.
  assert (forall x, heap (set_heap w (<[l := x]> (heap w))) !! l = Some x) as Hnew
    by (intros x; cbn; now apply (lookup_replaced _ _ _ _ Hl)).
  rewrite (bind_ok _ _ _ _ _ (obj_pop_dict "__file__" _ _ _ (Hnew _))).
  rewrite set_heap_set_heap, heap_set_heap, list_insert_insert_eq.
  rewrite (bind_ok _ _ _ _ _ (obj_pop_dict "__ansible_action_meta__" _ _ _ (Hnew _))).
  rewrite set_heap_set_heap, heap_set_heap, list_insert_insert_eq.
  subst d1. unfold bookkeeping_keys. cbn [fold_left ret].
  rewrite !dict_get_remove_ne by discriminate. reflexivity.
Qed.

Lemma register_custom_modules_run (custom_modules : list string) (w : world) :
  register_custom_modules custom_modules w
  = (Ok tt, mkWorld (heap w) (module_dirs w)
              (merge_names (BUILTIN_TASKS w) custom_modules)).
Proof. reflexivity. Qed.

(** C9: [normalize_task] changes the mapping it is given.  After any call on
    a task that is a mapping, whether the call returns or raises, the task at
    its location is the task without [__ansible_action_type__], [__line__],
    [__file__] and [__ansible_action_meta__].  In particular, when the grammar
    rejects the task the call raises, and the world it leaves has the keys
    gone from the task (and the custom modules in [BUILTIN_TASKS]): the
    operation is not atomic. *)
Theorem normalize_task_strips_its_input (E : environment) (l : nat)
    (d : list (string * pyval)) (filename : pyval)
    (custom_modules : option (list string)) (w : world) :
  heap w !! l = Some (ODict d) ->
  let stripped := fold_left dict_remove bookkeeping_keys d in
  let w1 := mkWorld (<[l := ODict stripped]> (heap w)) (module_dirs w)
              (merge_names (BUILTIN_TASKS w)
                 (match custom_modules with Some c => c | None => [] end)) in
  heap (snd (normalize_task E (PRef l) filename custom_modules w)) !! l
  = Some (ODict stripped)
  /\ Forall (fun k => dict_has stripped k = false) bookkeeping_keys
  /\ forall msg,
       ModuleArgsParser_parse E (heap w1) (BUILTIN_TASKS w1) stripped = AnsibleError msg ->
       normalize_task E (PRef l) filename custom_modules w
       = (Raise (LaterAnsibleError msg), w1).
Proof.
  intros Hl stripped w1.
  assert (heap w1 !! l = Some (ODict stripped)) as Hl1
    by (cbn; now apply (lookup_replaced _ _ _ _ Hl)).
  assert (exists rest : parsed_action -> M pyval,
            (forall p, framed (rest p))
            /\ normalize_task E (PRef l) filename custom_modules w
               = bind (parse_task E stripped) rest w1)
    as (rest & Hrest & Hrun).
  { eexists. split; [intros p; apply framed_normalized_record; exact E |].
    unfold normalize_task.
    rewrite (bind_ok _ _ _ _ _ (take_metadata_dict _ _ _ Hl)).
    rewrite (bind_ok _ _ _ _ _ (register_custom_modules_run _ _)).
    rewrite (bind_ok _ _ _ _ _ (obj_entries_ok _ _ _ Hl1)).
    reflexivity. }
  rewrite Hrun. split; [|split].
  - apply (framed_bind _ _ (framed_parse_task E stripped) Hrest), Hl1.
  - apply bookkeeping_keys_removed.
  - intros msg Hparse. cbn [bind]. unfold parse_task. now rewrite Hparse.
Qed.

Lemma normalize_task_strips_its_input_witness :
  let d := [("name", PStr "x"); ("__line__", PInt 3); ("__file__", PStr "x.yml");
            ("__ansible_action_type__", PStr "task")] in
  let w := mkWorld [ODict d] [] [] in
  heap (snd (normalize_task Sample.env (PRef 0) (PStr "x.yml") None w)) !! 0
  = Some (ODict [("name", PStr "x")])
  /\ Forall (fun k => dict_has [("name", PStr "x")] k = false) bookkeeping_keys
  /\ forall msg,
       ModuleArgsParser_parse Sample.env [ODict [("name", PStr "x")]] []
         [("name", PStr "x")] = AnsibleError msg ->
       normalize_task Sample.env (PRef 0) (PStr "x.yml") None w
       = (Raise (LaterAnsibleError msg), mkWorld [ODict [("name", PStr "x")]] [] []).
Proof.
  apply (normalize_task_strips_its_input Sample.env 0
           [("name", PStr "x"); ("__line__", PInt 3); ("__file__", PStr "x.yml");
            ("__ansible_action_type__", PStr "task")]
           (PStr "x.yml") None
           (mkWorld [ODict [("name", PStr "x"); ("__line__", PInt 3);
                            ("__file__", PStr "x.yml");
                            ("__ansible_action_type__", PStr "task")]] [] [])).
  reflexivity.
Defined.

(** ** The normalized record *)

Lemma dict_keys_set {A} (d : list (string * A)) (k : string) (v : A) :
  dict_keys (dict_set d k v)
  = if dict_has d k then dict_keys d else dict_keys d ++ [k].
Proof.
  unfold dict_has, dict_keys.
  induction d as [|[k' v'] d IH]; cbn [dict_set dict_get map fst]; [reflexivity |].
  destruct (String.eqb k' k) eqn:Hk; cbn [map fst]; [reflexivity |].
  rewrite IH. now destruct (dict_get d k).
Qed.

Lemma dict_get_None_keys {A} (d : list (string * A)) (k : string) :
  dict_get d k = None <-> ~ In k (dict_keys d).
Proof.
  unfold dict_keys. induction d as [|[k' v'] d IH]; cbn; [tauto |].
  destruct (String.eqb k' k) eqn:Hk.
  - apply String.eqb_eq in Hk. split; [discriminate | tauto].
  - apply String.eqb_neq in Hk. rewrite IH. tauto.
Qed.

Lemma dict_set_NoDup {A} (d : list (string * A)) (k : string) (v : A) :
  NoDup (dict_keys d) -> NoDup (dict_keys (dict_set d k v)).
Proof.
  intros Hd. rewrite dict_keys_set. unfold dict_has.
  destruct (dict_get d k) eqn:Hget; [exact Hd |].
  apply dict_get_None_keys in Hget.
  apply NoDup_app. split; [exact Hd |]. split; [|apply NoDup_singleton].
  intros x Hx Hk. apply list_elem_of_singleton in Hk. subst x.
  apply list_elem_of_In in Hx. tauto.
Qed.

Lemma dict_update_NoDup {A} (d e : list (string * A)) :
  NoDup (dict_keys d) -> NoDup (dict_keys (dict_update d e)).
Proof.
  unfold dict_update. revert d.
  induction e as [|[k v] e IH]; intros d Hd; cbn [fold_left fst snd]; [exact Hd |].
  apply IH. now apply dict_set_NoDup.
Qed.

Lemma dict_get_update_absent {A} (d e : list (string * A)) (k : string) :
  dict_get e k = None -> dict_get (dict_update d e) k = dict_get d k.
Proof.
  unfold dict_update. revert d.
  induction e as [|[k' v'] e IH]; intros d; cbn [fold_left fst snd dict_get];
    [reflexivity |].
  destruct (String.eqb k' k) eqn:Hk; [discriminate |].
  intros He. rewrite (IH _ He). apply dict_get_set_ne.
  now apply String.eqb_neq.
Qed.

Lemma dict_has_update {A} (d e : list (string * A)) (k : string) :
  dict_has d k = true -> dict_has (dict_update d e) k = true.
Proof.
  unfold dict_update. revert d.
  induction e as [|[k' v'] e IH]; intros d Hd; cbn [fold_left fst snd]; [exact Hd |].
  apply IH. unfold dict_has in *.
  destruct (String.eqb_spec k' k) as [->|Hne].
  - now rewrite dict_get_set_eq.
  - now rewrite dict_get_set_ne.
Qed.

(** A reserved key, and the key named after the module, keep in the record
    what they had before the fields of the task were merged. *)
Lemma pass_through_reserved (action : string) (items normalized : list (string * pyval))
    (k : string) :
  str_in k ["action"; "local_action"; "args"; "delegate_to"] || String.eqb k action = true ->
  dict_get (pass_through action items normalized) k = dict_get normalized k.
Proof.
  intros Hk. unfold pass_through. revert normalized.
  induction items as [|[k' v'] items IH]; intros normalized; cbn [fold_left fst snd];
    [reflexivity |].
  destruct (str_in k' ["action"; "local_action"; "args"; "delegate_to"]
            || String.eqb k' action) eqn:Hk'; rewrite IH; [reflexivity |].
  apply dict_get_set_ne. intros ->. congruence.
Qed.

Lemma restore_meta_inv (normalized normalized' : list (string * pyval)) (k : string)
    (v : option pyval) (w w' : world) :
  restore_meta normalized k v w = (Ok normalized', w') ->
  w' = w /\ (normalized' = normalized \/ exists x, normalized' = dict_set normalized k x).
Proof.
  intros H. pose proof (pure_restore_meta normalized k v w) as Hpure.
  rewrite H in Hpure. cbn [snd] in Hpure. split; [exact Hpure |].
  destruct v as [x|]; cbn in H.
  - destruct (obj_truthy x w) as [[[]|] w1]; inversion H; eauto.
  - inversion H. now left.
Qed.

Lemma restore_meta_get (normalized normalized' : list (string * pyval)) (k k' : string)
    (v : option pyval) (w w' : world) :
  restore_meta normalized k v w = (Ok normalized', w') ->
  k <> k' ->
  dict_get normalized' k' = dict_get normalized k'.
Proof.
  intros H Hne. destruct (restore_meta_inv _ _ _ _ _ _ H) as [_ [->|[x ->]]];
    [reflexivity | now apply dict_get_set_ne].
Qed.

(** The record that [normalized_record] hands out, when it returns: its
    [action] is a new mapping whose keys are distinct and include
    [__ansible_module__], which holds the resolved module name unless the
    arguments of the grammar have a key of that name; its [delegate_to] is the
    one the grammar returned; [local_action] and [args] are not among its
    keys. *)
Lemma normalized_record_ok (l : nat) (filename : pyval) (meta : task_meta)
    (parsed : parsed_action) (w w' : world) (r : pyval) :
  normalized_record (PRef l) filename meta parsed w = (Ok r, w') ->
  exists n N a A,
    r = PRef n /\ heap w' !! n = Some (ODict N)
    /\ dict_get N "action" = Some (PRef a) /\ heap w' !! a = Some (ODict A)
    /\ NoDup (dict_keys A)
    /\ dict_has A "__ansible_module__" = true
    /\ (dict_has (parsed_arguments parsed) "__ansible_module__" = false ->
        dict_get A "__ansible_module__" = Some (PStr (resolved_module parsed)))
    /\ dict_get N "delegate_to" = Some (parsed_delegate_to parsed)
    /\ dict_has N "local_action" = false
    /\ dict_has N "args" = false.
Proof.
  unfold normalized_record. intros H.
  apply bind_ok_inv in H as (items & w1 & Hitems & H).
  pose proof (pure_obj_entries (PRef l) w) as Hp. rewrite Hitems in Hp.
  cbn [snd] in Hp. subst w1.
  apply bind_ok_inv in H as (raw & w1 & Hraw & H).
  assert (w1 = w) as ->.
  { destruct (dict_get _ "_raw_params") as [[]|]; now inversion Hraw. }
  clear Hraw.
  apply bind_ok_inv in H as (raw_list & w1 & Halloc1 & H).
  inversion Halloc1; subst raw_list w1; clear Halloc1.
  apply bind_ok_inv in H as (action_dict & w2 & Halloc2 & H).
  inversion Halloc2; subst action_dict w2; clear Halloc2.
  apply bind_ok_inv in H as (N1 & w3 & Hr1 & H).
  apply bind_ok_inv in H as (N2 & w4 & Hr2 & H).
  apply bind_ok_inv in H as (N3 & w5 & Hr3 & H).
  apply bind_ok_inv in H as (result & w6 & Halloc3 & H).
  destruct (restore_meta_inv _ _ _ _ _ _ Hr1) as [-> _].
  destruct (restore_meta_inv _ _ _ _ _ _ Hr2) as [-> _].
  destruct (restore_meta_inv _ _ _ _ _ _ Hr3) as [-> _].
  inversion Halloc3; subst result w6; clear Halloc3.
  inversion H; subst r w'; clear H.
  set (h := heap w) in *.
  set (args1 := if dict_has (parsed_arguments parsed) "_uses_shell"
                then dict_remove (parsed_arguments parsed) "_uses_shell"
                else parsed_arguments parsed) in *.
  set (A := dict_update [("__ansible_module__", PStr (resolved_module parsed));
                         ("__ansible_arguments__", PRef (length h))]
              (dict_remove args1 "_raw_params")) in *.
  assert (forall k, k <> "__line__" -> k <> "__file__" -> k <> "__ansible_action_meta__" ->
            k <> "action" -> k <> "__ansible_action_type__" ->
            dict_get N3 k
            = dict_get (pass_through (resolved_module parsed) items
                          [("delegate_to", parsed_delegate_to parsed)]) k) as Hget.
  { intros k H1 H2 H3 H4 H5.
    rewrite (restore_meta_get _ _ _ _ _ _ _ Hr3), (restore_meta_get _ _ _ _ _ _ _ Hr2),
      (restore_meta_get _ _ _ _ _ _ _ Hr1) by congruence.
    rewrite !dict_get_set_ne by congruence. reflexivity. }
  exists (length (heap (set_heap (set_heap w (h ++ [OList raw]))
                          (heap (set_heap w (h ++ [OList raw])) ++ [ODict A])))),
         N3, (length (heap (set_heap w (h ++ [OList raw])))), A.
  cbn [heap set_heap].
  split; [reflexivity |].
  split; [now rewrite lookup_app_r, Nat.sub_diag by lia |].
  split.
  { rewrite (restore_meta_get _ _ _ _ _ _ _ Hr3), (restore_meta_get _ _ _ _ _ _ _ Hr2),
      (restore_meta_get _ _ _ _ _ _ _ Hr1) by discriminate.
    rewrite !dict_get_set_ne by discriminate. apply dict_get_set_eq. }
  split.
  { rewrite lookup_app_l by (rewrite !length_app; cbn; lia).
    now rewrite lookup_app_r, Nat.sub_diag by lia. }
  split.
  { subst A. apply dict_update_NoDup. cbn [dict_keys map fst].
    apply NoDup_cons. split; [|apply NoDup_singleton].
    rewrite list_elem_of_singleton. discriminate. }
  split.
  { subst A. now apply dict_has_update. }
  split.
  { intros Hno. subst A. rewrite dict_get_update_absent; [reflexivity |].
    rewrite dict_get_remove_ne by discriminate.
    unfold dict_has in Hno.
    subst args1. destruct (dict_has (parsed_arguments parsed) "_uses_shell");
      [rewrite dict_get_remove_ne by discriminate |];
      now destruct (dict_get (parsed_arguments parsed) "__ansible_module__"). }
  unfold dict_has. rewrite !Hget by discriminate.
  rewrite !pass_through_reserved by reflexivity. repeat split.
Qed.

(** C6, as the code has it.  When [normalize_task] returns on a task that is
    a mapping, the record it returns has an [action] mapping with distinct
    keys, one of which is [__ansible_module__]; that field holds the module
    name the grammar resolved (with [shell] put back) provided the arguments
    the grammar returned have no key [__ansible_module__] themselves.  None of
    [action], [local_action], [args], [delegate_to] is carried over from the
    task: the record's [action] is the new mapping, its [delegate_to] is the
    one the grammar returned, and [local_action] and [args] are not among its
    keys. *)
Theorem normalize_task_module_and_reserved_keys (E : environment) (l : nat)
    (d : list (string * pyval)) (filename : pyval)
    (custom_modules : option (list string)) (w w' : world) (r : pyval) :
  heap w !! l = Some (ODict d) ->
  normalize_task E (PRef l) filename custom_modules w = (Ok r, w') ->
  let stripped := fold_left dict_remove bookkeeping_keys d in
  exists parsed n N a A,
    ModuleArgsParser_parse E (<[l := ODict stripped]> (heap w))
      (merge_names (BUILTIN_TASKS w)
         (match custom_modules with Some c => c | None => [] end))
      stripped = AnsibleOk parsed
    /\ r = PRef n /\ heap w' !! n = Some (ODict N)
    /\ dict_get N "action" = Some (PRef a) /\ heap w' !! a = Some (ODict A)
    /\ NoDup (dict_keys A)
    /\ dict_has A "__ansible_module__" = true
    /\ (dict_has (parsed_arguments parsed) "__ansible_module__" = false ->
        dict_get A "__ansible_module__" = Some (PStr (resolved_module parsed)))
    /\ dict_get N "delegate_to" = Some (parsed_delegate_to parsed)
    /\ dict_has N "local_action" = false
    /\ dict_has N "args" = false.
Proof.
  intros Hl Hrun stripped.
  unfold normalize_task in Hrun.
  rewrite (bind_ok _ _ _ _ _ (take_metadata_dict _ _ _ Hl)) in Hrun.
  rewrite (bind_ok _ _ _ _ _ (register_custom_modules_run _ _)) in Hrun.
  cbn [heap set_heap module_dirs BUILTIN_TASKS] in Hrun.
  fold stripped in Hrun.
  match type of Hrun with
  | bind _ _ ?w1 = _ =>
      assert (heap w1 !! l = Some (ODict stripped)) as Hl1
        by (cbn; now apply (lookup_replaced _ _ _ _ Hl))
  end.
  rewrite (bind_ok _ _ _ _ _ (obj_entries_ok _ _ _ Hl1)) in Hrun.
  apply bind_ok_inv in Hrun as (parsed & w2 & Hparse & Hrecord).
  unfold parse_task in Hparse. cbn [heap BUILTIN_TASKS] in Hparse.
  destruct (ModuleArgsParser_parse E _ _ stripped) as [p|msg] eqn:Hgrammar;
    inversion Hparse; subst p w2; clear Hparse.
  destruct (normalized_record_ok _ _ _ _ _ _ _ Hrecord)
    as (n & N & a & A & Hr & Hn & Haction & Ha & Hnodup & Hhas & Hmodule & Hdelegate
        & Hlocal & Hargs).
  exists parsed, n, N, a, A. repeat split; assumption.
Qed.

Lemma normalize_task_module_and_reserved_keys_witness :
  let d := [("name", PStr "say"); ("shell", PStr "echo hi"); ("args", PNone);
            ("delegate_to", PStr "h1"); ("__line__", PInt 3)] in
  let stripped := [("name", PStr "say"); ("shell", PStr "echo hi"); ("args", PNone);
                   ("delegate_to", PStr "h1")] in
  let w := mkWorld [ODict d] [] [] in
  let w' := mkWorld
              [ ODict stripped;
                OList [PStr "echo"; PStr "hi"];
                ODict [("__ansible_module__", PStr "shell");
                       ("__ansible_arguments__", PRef 1)];
                ODict [("delegate_to", PStr "h1"); ("name", PStr "say");
                       ("action", PRef 2); ("__file__", PStr "x.yml");
                       ("__ansible_action_type__", PStr "task"); ("__line__", PInt 3)] ]
              [] [] in
  exists parsed n N a A,
    ModuleArgsParser_parse Sample.env [ODict stripped] [] stripped = AnsibleOk parsed
    /\ PRef 3 = PRef n /\ heap w' !! n = Some (ODict N)
    /\ dict_get N "action" = Some (PRef a) /\ heap w' !! a = Some (ODict A)
    /\ NoDup (dict_keys A)
    /\ dict_has A "__ansible_module__" = true
    /\ (dict_has (parsed_arguments parsed) "__ansible_module__" = false ->
        dict_get A "__ansible_module__" = Some (PStr (resolved_module parsed)))
    /\ dict_get N "delegate_to" = Some (parsed_delegate_to parsed)
    /\ dict_has N "local_action" = false
    /\ dict_has N "args" = false.
Proof.
  apply (normalize_task_module_and_reserved_keys Sample.env 0
           [("name", PStr "say"); ("shell", PStr "echo hi"); ("args", PNone);
            ("delegate_to", PStr "h1"); ("__line__", PInt 3)]
           (PStr "x.yml") None
           (mkWorld [ODict [("name", PStr "say"); ("shell", PStr "echo hi");
                            ("args", PNone); ("delegate_to", PStr "h1");
                            ("__line__", PInt 3)]] [] [])).
  - reflexivity.
  - reflexivity.
Defined.

(** C6 as stated fails.  For the task [debug: __ansible_module__=x] the
    grammar resolves the module [debug] with the argument
    [__ansible_module__ = x]; [normalize_task] returns, and the action mapping
    of its record holds [x], not the resolved module name, under
    [__ansible_module__]: the arguments are merged over the field. *)
Lemma normalize_task_module_counterexample :
  let task := [("debug", PStr "__ansible_module__=x")] in
  let action := [("__ansible_module__", PStr "x"); ("__ansible_arguments__", PRef 1)] in
  let record := [("delegate_to", PNone); ("action", PRef 2); ("__file__", PStr "x.yml");
                 ("__ansible_action_type__", PStr "task")] in
  ModuleArgsParser_parse Sample.env [ODict task] [] task
  = AnsibleOk (mkParsed "debug" [("__ansible_module__", PStr "x")] PNone)
  /\ normalize_task Sample.env (PRef 0) (PStr "x.yml") None (mkWorld [ODict task] [] [])
     = (Ok (PRef 3), mkWorld [ODict task; OList []; ODict action; ODict record] [] [])
  /\ dict_get record "action" = Some (PRef 2)
  /\ dict_get action "__ansible_module__" = Some (PStr "x")
  /\ dict_get action "__ansible_module__" <> Some (PStr "debug").
Proof.
  cbv zeta. repeat (split; [reflexivity |]). discriminate.
Qed.

(** ** The extractor: what [action_tasks] returns *)

Lemma filterM_ok {A} (p : A -> M bool) (l r : list A) (w w' : world) :
  (forall x, pure (p x)) ->
  filterM p l w = (Ok r, w') ->
  w' = w /\ Forall (fun x => In x l /\ p x w = (Ok true, w)) r.
Proof.
  intros Hp. revert r w'.
  induction l as [|x l IH]; intros r w' H; cbn [filterM] in H.
  - inversion H. split; [reflexivity | constructor].
  - apply bind_ok_inv in H as (b & w1 & Hb & H).
    pose proof (Hp x w) as Hw. rewrite Hb in Hw. cbn [snd] in Hw. subst w1.
    apply bind_ok_inv in H as (rs & w1 & Hrs & H).
    destruct (IH _ _ Hrs) as [Hw1 Hall]. subst w1.
    cbn in H. injection H as Hr Hw'. subst r w'.
    split; [reflexivity |].
    assert (Forall (fun y => In y (x :: l) /\ p y w = (Ok true, w)) rs) as Hall'.
    { eapply Forall_impl; [exact Hall |]. cbn. intros y [Hy Hpy]. auto. }
    destruct b; [constructor; [split; [now left | exact Hb] | exact Hall'] | exact Hall'].
Qed.

Lemma allM_ok {A} (p : A -> M bool) (l : list A) (w w' : world) :
  (forall x, pure (p x)) ->
  allM p l w = (Ok true, w') ->
  forall x, In x l -> p x w = (Ok true, w).
Proof.
  intros Hp. revert w'. induction l as [|y l IH]; intros w' H x Hx; [destruct Hx |].
  cbn [allM] in H. apply bind_ok_inv in H as (b & w1 & Hb & H).
  pose proof (Hp y w) as Hw. rewrite Hb in Hw. cbn [snd] in Hw. subst w1.
  destruct b; [|inversion H].
  destruct Hx as [<-|Hx]; [exact Hb | now apply (IH _ H)].
Qed.

Lemma pure_allM {A} (p : A -> M bool) (l : list A) :
  (forall x, pure (p x)) -> pure (allM p l).
Proof.
  intros Hp. induction l as [|x l IH]; [apply pure_ret |].
  cbn [allM]. apply pure_bind; [apply Hp |].
  intros [|]; [exact IH | apply pure_ret].
Qed.

Lemma obj_keys_ok_inv (v : pyval) (keys : list string) (w w' : world) :
  obj_keys v w = (Ok keys, w') ->
  exists l d, v = PRef l /\ heap w !! l = Some (ODict d) /\ keys = dict_keys d.
Proof.
  unfold obj_keys, obj_entries, obj_dict. intros H.
  destruct v as [| | | |l]; try discriminate.
  unfold load in H. cbn [bind] in H.
  destruct (heap w !! l) as [[d|items]|] eqn:Hl; cbn in H; try discriminate.
  injection H as Hkeys Hw. exists l, d. auto.
Qed.

(** C4: no entry that [action_tasks] returns has one of the keys [block],
    [rescue], [always], [include], [include_tasks], [import_playbook],
    [import_tasks].  Every returned entry is a mapping of the store the call
    leaves, and none of the seven keys is among its keys. *)
Theorem action_tasks_no_structural_keys (E : environment) (yaml : pyval)
    (file : list (string * pyval)) (w w' : world) (tasks : list pyval) :
  action_tasks E yaml file w = (Ok tasks, w') ->
  Forall (fun task =>
            exists l d, task = PRef l /\ heap w' !! l = Some (ODict d)
              /\ forall k, In k structural_keys -> dict_has d k = false) tasks.
Proof.
  unfold action_tasks. intros H.
  apply bind_ok_inv in H as (filetype & w1 & _ & H).
  apply bind_ok_inv in H as (tasks1 & w2 & _ & H).
  apply bind_ok_inv in H as (nested & w3 & _ & H).
  apply bind_ok_inv in H as (tasks2 & w4 & Hfilter1 & Hfilter2).
  assert (forall task : pyval,
            pure (allM (fun k => b <- obj_in k task ;; ret (negb b))
                       ["block"; "rescue"; "always"])) as Hpure1.
  { intros task. apply pure_allM. intros k.
    apply pure_bind; [apply pure_obj_in | intros; apply pure_ret]. }
  apply filterM_ok in Hfilter1 as [-> Hkept1]; [|exact Hpure1].
  apply filterM_ok in Hfilter2 as [-> Hkept2];
    [|intros task; apply pure_bind; [apply pure_obj_keys | intros; apply pure_ret]].
  rewrite Forall_forall in Hkept1. rewrite Forall_forall in Hkept2.
  apply Forall_forall. intros task Htask. apply list_elem_of_In in Htask.
  destruct (Hkept2 task) as [Hin2 Hallowed]; [now apply list_elem_of_In |].
  destruct (Hkept1 task) as [_ Hblock]; [now apply list_elem_of_In |].
  apply bind_ok_inv in Hallowed as (keys & w5 & Hkeys & Hallowed).
  destruct (obj_keys_ok_inv _ _ _ _ Hkeys) as (l & d & -> & Hl & ->).
  injection Hallowed as Hdisjoint Hw5.
  exists l, d. split; [reflexivity |]. split; [exact Hl |].
  intros k Hk.
  assert (In k ["block"; "rescue"; "always"]
          \/ In k ["include"; "include_tasks"; "import_playbook"; "import_tasks"])
    as [Hb|Ha] by (unfold structural_keys in Hk; cbn in Hk |- *; tauto).
  - pose proof (allM_ok _ _ _ _ (fun k => pure_bind _ _ (pure_obj_in k (PRef l))
                                            (fun b => pure_ret (negb b)))
                  Hblock k Hb) as Hk'.
    cbv beta in Hk'. rewrite (bind_ok _ _ _ _ _ (obj_in_dict k _ _ _ Hl)) in Hk'.
    injection Hk' as Hneg. now destruct (dict_has d k).
  - change (forallb (fun a => negb (str_in a (dict_keys d)))
                    ["include"; "include_tasks"; "import_playbook"; "import_tasks"]
            = true) in Hdisjoint.
    rewrite forallb_forall in Hdisjoint. specialize (Hdisjoint k Ha).
    rewrite dict_has_keys. now destruct (str_in k (dict_keys d)).
Qed.

Lemma action_tasks_no_structural_keys_witness :
  let yaml := fst (Sample.built Sample.tasks_file) in
  let w := snd (Sample.built Sample.tasks_file) in
  let w' := snd (action_tasks Sample.env yaml [("filetype", PStr "tasks")] w) in
  yaml = PRef 7
  /\ action_tasks Sample.env yaml [("filetype", PStr "tasks")] w
     = (Ok [PRef 6; PRef 0; PRef 2], w')
  /\ Forall (fun task =>
               exists l d, task = PRef l /\ heap w' !! l = Some (ODict d)
                 /\ forall k, In k structural_keys -> dict_has d k = false)
            [PRef 6; PRef 0; PRef 2].
Proof.
  cbv zeta. split; [reflexivity |]. split; [reflexivity |].
  apply (action_tasks_no_structural_keys Sample.env (fst (Sample.built Sample.tasks_file))
           [("filetype", PStr "tasks")] (snd (Sample.built Sample.tasks_file))).
  reflexivity.
Defined.

(** ** The extractor: a value that is neither a list nor [None] *)

Lemma keeps_pure (I : list pyobj -> Prop) {A} (m : M A) : pure m -> keeps I m.
Proof. intros H w Hw. now rewrite H. Qed.

Lemma keeps_bind (I : list pyobj -> Prop) {A B} (m : M A) (k : A -> M B) :
  keeps I m -> (forall a, keeps I (k a)) -> keeps I (bind m k).
Proof.
  intros Hm Hk w Hw. specialize (Hm w Hw). cbn [bind].
  destruct (m w) as [[a|e] w']; cbn [snd] in *; [now apply Hk | exact Hm].
Qed.

Lemma keeps_foldM (I : list pyobj -> Prop) {A S} (f : S -> A -> M S)
    (l : list A) (acc : S) :
  (forall acc x, keeps I (f acc x)) -> keeps I (foldM f l acc).
Proof.
  intros Hf. revert acc. induction l as [|x l IH]; intros acc; cbn [foldM].
  - apply keeps_pure, pure_ret.
  - apply keeps_bind; [apply Hf | intros acc'; apply IH].
Qed.

(** A loop raises when one of its iterations raises wherever [I] holds, and
    the iterations before it keep [I]. *)
Lemma foldM_raises (I : list pyobj -> Prop) {A S} (f : S -> A -> M S)
    (l : list A) (x0 : A) :
  In x0 l ->
  (forall acc x, keeps I (f acc x)) ->
  (forall acc w, I (heap w) -> exists e w', f acc x0 w = (Raise e, w')) ->
  forall acc w, I (heap w) -> exists e w', foldM f l acc w = (Raise e, w').
Proof.
  intros Hin Hkeep Hraise.
  induction l as [|x l IH]; intros acc w Hw; [destruct Hin |].
  cbn [foldM bind].
  destruct (f acc x w) as [[acc'|e] w1] eqn:Hstep; [|eauto].
  destruct Hin as [->|Hin].
  - destruct (Hraise acc w Hw) as (e & w' & He). congruence.
  - apply (IH Hin). pose proof (Hkeep acc x w Hw) as H1. now rewrite Hstep in H1.
Qed.

Lemma bad_value_app (h : list pyobj) (o : pyobj) (x : pyval) :
  bad_value h x = true -> bad_value (h ++ [o]) x = true.
Proof.
  destruct x as [| | | |l]; cbn; try easy.
  destruct (h !! l) as [[d|items]|] eqn:Hl; try discriminate.
  now rewrite (lookup_app_l_Some _ _ _ _ Hl).
Qed.

Lemma bad_value_store (h : list pyobj) (a : nat) (da da' : list (string * pyval))
    (x : pyval) :
  h !! a = Some (ODict da) ->
  bad_value h x = true -> bad_value (<[a := ODict da']> h) x = true.
Proof.
  intros Ha. destruct x as [| | | |l]; cbn; try easy.
  destruct (decide (a = l)) as [->|Hne].
  - now rewrite (lookup_replaced _ _ _ _ Ha).
  - now rewrite list_lookup_insert_ne.
Qed.

Lemma holds_bad_value_app (l : nat) (c : string) (h : list pyobj) (o : pyobj) :
  holds_bad_value l c h -> holds_bad_value l c (h ++ [o]).
Proof.
  intros (d & x & Hl & Hc & Hbad). exists d, x.
  split; [now apply lookup_app_l_Some |]. split; [exact Hc |].
  now apply bad_value_app.
Qed.

(** Writing a value that is neither a list nor [None] into a mapping keeps
    the bad value where it is, or puts another one in its place. *)
Lemma holds_bad_value_store (l : nat) (c : string) (h : list pyobj) (a : nat)
    (da : list (string * pyval)) (k : string) (v : pyval) :
  h !! a = Some (ODict da) ->
  bad_value h v = true ->
  holds_bad_value l c h ->
  holds_bad_value l c (<[a := ODict (dict_set da k v)]> h).
Proof.
  intros Ha Hv (d & x & Hl & Hc & Hbad).
  destruct (decide (a = l)) as [->|Hne].
  - rewrite Hl in Ha. injection Ha as <-.
    destruct (String.eqb_spec k c) as [->|Hk].
    + exists (dict_set d c v), v.
      split; [now apply (lookup_replaced _ _ _ _ Hl) |].
      split; [apply dict_get_set_eq | now apply (bad_value_store _ _ _ _ _ Hl)].
    + exists (dict_set d k v), x.
      split; [now apply (lookup_replaced _ _ _ _ Hl) |].
      split; [now rewrite dict_get_set_ne | now apply (bad_value_store _ _ _ _ _ Hl)].
  - exists d, x. split; [now rewrite list_lookup_insert_ne |].
    split; [exact Hc | now apply (bad_value_store _ _ _ _ _ Ha)].
Qed.

Lemma keeps_alloc (l : nat) (c : string) (o : pyobj) :
  keeps (holds_bad_value l c) (alloc o).
Proof. intros w Hw. cbn. now apply holds_bad_value_app. Qed.

(** The invariant of the loop of [add_action_type]: the bad value stays, and
    so does the metadata handed to every action. *)
Lemma keeps_obj_setitem (I : list pyobj -> Prop) (action : pyval) (k : string)
    (v : pyval) :
  (forall h a da, I h -> h !! a = Some (ODict da) ->
                  I (<[a := ODict (dict_set da k v)]> h)) ->
  keeps I (obj_setitem action k v).
Proof.
  intros Hstore w Hw. unfold obj_setitem.
  destruct action as [| | | |a]; try exact Hw.
  unfold load. cbn [bind].
  destruct (heap w !! a) as [[da|items]|] eqn:Ha; cbn; try exact Hw.
  now apply Hstore.
Qed.

Lemma keeps_add_action_type (l : nat) (c : string) (actions : pyval)
    (action_type : string) (action_meta : pyval) :
  keeps (fun h => holds_bad_value l c h /\ bad_value h action_meta = true)
        (add_action_type actions action_type action_meta).
Proof.
  unfold add_action_type.
  apply keeps_bind; [apply keeps_pure, pure_obj_iter | intros items].
  apply keeps_foldM. intros results action.
  apply keeps_bind.
  { destruct (dict_get BLOCK_NAME_TO_ACTION_TYPE_MAP action_type);
      apply keeps_pure; [apply pure_ret | apply pure_raise]. }
  intros ty. apply keeps_bind.
  { apply keeps_obj_setitem. intros h a da [Hbad Hmeta] Ha. split.
    - now apply holds_bad_value_store.
    - now apply (bad_value_store _ _ _ _ _ Ha). }
  intros _. apply keeps_bind; [apply keeps_pure, pure_obj_truthy | intros has_meta].
  apply keeps_bind; [|intros; apply keeps_pure, pure_ret].
  destruct has_meta; [|apply keeps_pure, pure_ret].
  apply keeps_obj_setitem. intros h a da [Hbad Hmeta] Ha. split.
  - now apply holds_bad_value_store.
  - now apply (bad_value_store _ _ _ _ _ Ha).
Qed.

Lemma keeps_extract_candidate (E : environment) (l : nat) (c : string)
    (block : pyval) (results : list pyval) (candidate : string) :
  keeps (holds_bad_value l c) (extract_candidate E block results candidate).
Proof.
  unfold extract_candidate.
  apply keeps_bind; [apply keeps_pure, pure_obj_dict | intros [d|]];
    [|apply keeps_pure, pure_ret].
  destruct (dict_get d candidate) as [x|]; [|apply keeps_pure, pure_ret].
  apply keeps_bind; [apply keeps_pure, pure_obj_list | intros [items|]].
  - intros w Hw. cbn [bind alloc].
    pose proof (keeps_add_action_type l c x candidate (PRef (length (heap w)))
                  (set_heap w (heap w ++ [ODict (fold_left dict_remove
                     [candidate; "__line__"; "__file__"; "__ansible_action_type__"] d)])))
      as Hkeep.
    cbn [heap set_heap] in Hkeep.
    destruct (add_action_type x candidate (PRef (length (heap w))) _) as [[rs|e] w1];
      cbn [snd heap] in *; apply Hkeep; (split; [now apply holds_bad_value_app |]);
      cbn; now rewrite lookup_app_r, Nat.sub_diag by lia.
  - destruct x; try apply keeps_pure, pure_ret;
      (apply keeps_bind; [apply keeps_pure, pure_obj_str | intros; apply keeps_pure, pure_raise]).
Qed.

(** At the entry and the key with the bad value, the step raises the
    structural error. *)
Lemma extract_candidate_bad_value (E : environment) (l : nat) (c : string)
    (d : list (string * pyval)) (x : pyval) (results : list pyval) (w : world) :
  heap w !! l = Some (ODict d) ->
  dict_get d c = Some x ->
  bad_value (heap w) x = true ->
  extract_candidate E (PRef l) results c w
  = (Raise (RuntimeError ("Key '" +:+ c +:+ "' defined, but bad value: '"
                          +:+ str_of_pyval E (heap w) x +:+ "'")), w).
Proof.
  intros Hl Hc Hbad. unfold extract_candidate, obj_dict.
  cbn [bind]. rewrite (load_ok _ _ _ Hl). cbn [ret]. rewrite Hc.
  destruct x as [| | | |l']; cbn in Hbad; try discriminate; try reflexivity.
  unfold obj_list, load. cbn [bind].
  destruct (heap w !! l') as [[d'|items]|]; try discriminate. reflexivity.
Qed.

(** An entry whose [block] is a list of one task and whose [rescue] is a
    string: the error that [extract_from_list] raises is the structural one,
    after the items under [block] have been tagged. *)
Example extract_from_list_bad_value_run :
  extract_from_list Sample.env [PRef 2] ["block"; "rescue"; "always"]
    (mkWorld [ ODict [("debug", PStr "msg=a")];
               OList [PRef 0];
               ODict [("block", PRef 1); ("rescue", PStr "oops")] ] [] [])
  = (Raise (RuntimeError "Key 'rescue' defined, but bad value: 'oops'"),
     mkWorld [ ODict [("debug", PStr "msg=a");
                      ("__ansible_action_type__", PStr "meta");
                      ("__ansible_action_meta__", PRef 3)];
               OList [PRef 0];
               ODict [("block", PRef 1); ("rescue", PStr "oops")];
               ODict [("rescue", PStr "oops")] ] [] []).
Proof. reflexivity. Qed.

(** ** The resolver: the recursion of [_taskshandlers_children] *)

Lemma bind_ext {A B} (m1 m2 : M A) (k1 k2 : A -> M B) (w : world) :
  m1 w = m2 w -> (forall a w', k1 a w' = k2 a w') -> bind m1 k1 w = bind m2 k2 w.
Proof.
  intros Hm Hk. cbn [bind]. rewrite Hm.
  destruct (m2 w) as [[a|e] w']; [apply Hk | reflexivity].
Qed.

Lemma foldM_ext {A S} (f g : S -> A -> M S) (l : list A) (acc : S) (w : world) :
  (forall acc x w', In x l -> f acc x w' = g acc x w') ->
  foldM f l acc w = foldM g l acc w.
Proof.
  revert acc w. induction l as [|x l IH]; intros acc w Hfg; [reflexivity |].
  cbn [foldM]. apply bind_ext; [apply Hfg; now left |].
  intros acc' w'. apply IH. intros acc1 y w1 Hy. apply Hfg. now right.
Qed.

Lemma taskshandler_entry_ext (E : environment) (basedir k parent_type : string)
    (th : value) (r1 r2 : string -> M (list edge)) (results : list edge) (w : world) :
  (forall key w', r1 key w' = r2 key w') ->
  taskshandler_entry E basedir k parent_type th r1 results w
  = taskshandler_entry E basedir k parent_type th r2 results w.
Proof.
  intros Hr. unfold taskshandler_entry.
  do 6 (apply bind_ext; [reflexivity | intros [|] ?; [reflexivity |]]).
  apply bind_ext; [reflexivity | intros [|] ?; [|reflexivity]].
  apply bind_ext; [apply Hr | intros r ?].
  apply bind_ext; [reflexivity | intros b2 ?].
  apply bind_ext; [destruct b2; [apply Hr | reflexivity] | intros ? ?].
  apply bind_ext; [reflexivity | intros b3 ?].
  apply bind_ext; [destruct b3; [apply Hr | reflexivity] | reflexivity].
Qed.

Lemma dict_get_with_get {A B} (f : A -> B) (d : list (string * A)) (k : string) :
  dict_get_with f d k = option_map f (dict_get d k).
Proof.
  induction d as [|[k' v] d IH]; cbn; [reflexivity |].
  now destruct (String.eqb k' k).
Qed.

(** [_taskshandlers_children] as the source writes it: each entry [th] of [v]
    is handled with [th[key]] as the argument of the recursive call. *)
Lemma _taskshandlers_children_unfold (E : environment) (basedir k : string)
    (v : value) (parent_type : string) (w : world) :
  _taskshandlers_children E basedir k v parent_type w
  = (ths <- py_iter v ;;
     foldM (fun results th =>
              taskshandler_entry E basedir k parent_type th
                (fun key => x <- py_getitem th key ;;
                            _taskshandlers_children E basedir k x parent_type)
                results) ths []) w.
Proof.
  assert (forall items : list string, forall w0,
            foldM (fun results th =>
                     taskshandler_entry E basedir k parent_type th
                       (fun _ => raise TypeError) results) (map VStr items) [] w0
            = foldM (fun results th =>
                       taskshandler_entry E basedir k parent_type th
                         (fun key => x <- py_getitem th key ;;
                                     _taskshandlers_children E basedir k x parent_type)
                         results) (map VStr items) [] w0) as Hstrings.
  { intros items w0. apply foldM_ext. intros acc th w1 Hth.
    apply in_map_iff in Hth as (s & <- & _).
    now apply taskshandler_entry_ext. }
  destruct v as [| | | s | l | d]; try reflexivity.
  - cbn [_taskshandlers_children py_iter bind ret]. apply Hstrings.
  - cbn [_taskshandlers_children py_iter bind ret]. apply foldM_ext.
    intros acc th w1 _. apply taskshandler_entry_ext. intros key w2.
    destruct th as [| | | | |d]; try reflexivity.
    rewrite dict_get_with_get. cbn [py_getitem bind].
    now destruct (dict_get d key).
  - cbn [_taskshandlers_children py_iter bind ret]. apply Hstrings.
Qed.

(** ** Runs on the sample environment *)

Example PyStr_run :
  PyStr.split " " "include: a.yml  x=1" = ["include:"; "a.yml"; ""; "x=1"]
  /\ PyStr.split_once "=" "a=b=c" = ["a"; "b=c"]
  /\ PyStr.split_ws "  echo   hi " = ["echo"; "hi"]
  /\ PyStr.of_Z (-12) = "-12"
  /\ PyStr.contains "{{" "a/{{ x }}" = true
  /\ PyStr.endswith "tasks" "/pb/roles/web/tasks" = true.
Proof. repeat split; reflexivity. Qed.

Example OsPath_run :
  OsPath.join_all "/r" [".."; "tasks"] = "/r/../tasks"
  /\ OsPath.join "/r/" "x" = "/r/x"
  /\ OsPath.join "/r" "/x" = "/x"
  /\ OsPath.dirname "/a/b/c.yml" = "/a/b"
  /\ OsPath.dirname "c.yml" = ""
  /\ OsPath.dirname "/c.yml" = "/"
  /\ OsPath.dirname "//c.yml" = "//"
  /\ OsPath.dirname "a//c.yml" = "a".
Proof. repeat split; reflexivity. Qed.

Example tokenize_run :
  tokenize "include: sub.yml tags=x" Sample.empty
  = (Ok ("include", ["sub.yml"; "tags=x"], []), Sample.empty)
  /\ tokenize "- action: copy src=a dest=b" Sample.empty
     = (Ok ("copy", [], [("src", "a"); ("dest", "b")]), Sample.empty)
  /\ tokenize "-" Sample.empty = (Raise IndexError, Sample.empty).
Proof. repeat split; reflexivity. Qed.

(** A block with a rescue section: the two nested tasks come out, both tagged
    [meta], each with the other section of its block as metadata; the block,
    and the include, do not. *)
Example action_tasks_run :
  action_tasks Sample.env (fst (Sample.built Sample.tasks_file))
    [("filetype", PStr "tasks")] (snd (Sample.built Sample.tasks_file))
  = (Ok [PRef 6; PRef 0; PRef 2],
     mkWorld
       [ ODict [("debug", PStr "msg=a"); ("__ansible_action_type__", PStr "meta");
                ("__ansible_action_meta__", PRef 8)];
         OList [PRef 0];
         ODict [("debug", PStr "msg=b"); ("__ansible_action_type__", PStr "meta");
                ("__ansible_action_meta__", PRef 9)];
         OList [PRef 2];
         ODict [("block", PRef 1); ("rescue", PRef 3);
                ("__ansible_action_type__", PStr "task")];
         ODict [("include_tasks", PStr "more.yml");
                ("__ansible_action_type__", PStr "task")];
         ODict [("command", PStr "uptime"); ("__ansible_action_type__", PStr "task")];
         OList [PRef 4; PRef 5; PRef 6];
         ODict [("rescue", PRef 3)];
         ODict [("block", PRef 1)] ] [] []).
Proof. reflexivity. Qed.

(** [debug: msg=hello] under the stand-in grammar *)
Example normalize_task_run :
  normalize_task Sample.env (PRef 0) (PStr "x.yml") (Some ["mymodule"])
    (mkWorld [ODict [("debug", PStr "msg=hello"); ("__line__", PInt 3);
                     ("__file__", PStr "x.yml")]] [] [])
  = (Ok (PRef 3),
     mkWorld
       [ ODict [("debug", PStr "msg=hello")];
         OList [];
         ODict [("__ansible_module__", PStr "debug"); ("__ansible_arguments__", PRef 1);
                ("msg", PStr "hello")];
         ODict [("delegate_to", PNone); ("action", PRef 2); ("__file__", PStr "x.yml");
                ("__ansible_action_type__", PStr "task"); ("__line__", PInt 3)] ]
       [] ["mymodule"]).
Proof. reflexivity. Qed.

(** A role found under [roles/]: its library directory is registered, and
    [play_children] returns its task and handler files. *)
Example play_children_run :
  play_children Sample.env "/pb" ("roles", VList [VDict [("role", VStr "web")]])
    "playbook" Sample.empty
  = (Ok [ mkEdge "/pb/roles/web/tasks/main.yml" "tasks";
          mkEdge "/pb/roles/web/handlers/main.yml" "handlers" ],
     mkWorld [] ["/pb/roles/web/library"] []).
Proof. reflexivity. Qed.

(** * More properties of the code *)

(** ** [tokenize] *)

Lemma prefix_eq_char (c : ascii) (s : string) :
  String.prefix "=" (String c s) = Ascii.eqb c "=".
Proof.
  change (String.prefix "=" (String c s))
    with (if ascii_dec "=" c then String.prefix "" s else false).
  destruct (ascii_dec "=" c) as [<-|Hne];
    [rewrite Ascii.eqb_refl; now destruct s |].
  symmetry. apply Ascii.eqb_neq. congruence.
Qed.

Lemma contains_eq_cons (c : ascii) (s : string) :
  PyStr.contains "=" (String c s) = Ascii.eqb c "=" || PyStr.contains "=" s.
Proof.
  cbn [PyStr.contains]. rewrite prefix_eq_char. now destruct (Ascii.eqb c "=").
Qed.

(** A word with an equals sign splits in two at the first one. *)
Lemma split_once_eq (arg : string) :
  PyStr.contains "=" arg = true ->
  exists k v, PyStr.split_once "=" arg = [k; v]
    /\ arg = k +:+ "=" +:+ v /\ PyStr.contains "=" k = false.
Proof.
  induction arg as [|c arg IH]; [discriminate |].
  rewrite contains_eq_cons. cbn [PyStr.split_once].
  destruct (Ascii.eqb c "=") eqn:Hc.
  - intros _. apply Ascii.eqb_eq in Hc. subst c. now exists "", arg.
  - cbn [orb]. intros H. destruct (IH H) as (k & v & Hsplit & -> & Hk).
    exists (String c k), v. rewrite Hsplit. split; [reflexivity |].
    split; [reflexivity |]. rewrite contains_eq_cons, Hc. exact Hk.
Qed.

Lemma split_once_joined (k v : string) :
  PyStr.contains "=" k = false ->
  PyStr.contains "=" (k +:+ "=" +:+ v) = true
  /\ PyStr.split_once "=" (k +:+ "=" +:+ v) = [k; v].
Proof.
  induction k as [|c k IH].
  { intros _. change ("" +:+ "=" +:+ v) with (String "=" v).
    rewrite contains_eq_cons. split; reflexivity. }
  rewrite contains_eq_cons. intros H. apply orb_false_elim in H as [Hc Hk].
  destruct (IH Hk) as [Hcontains Hsplit].
  change (String c k +:+ "=" +:+ v) with (String c (k +:+ "=" +:+ v)).
  rewrite contains_eq_cons, Hcontains, orb_true_r. split; [reflexivity |].
  cbn [PyStr.split_once]. now rewrite Hc, Hsplit.
Qed.

(** The loop of [tokenize] always ends normally: [kv[1]] exists whenever the
    word has an equals sign. *)
Lemma tokenize_args_returns (tokens : list string) (nonkvfound : bool)
    (args : list string) (kwargs : list (string * string)) (w : world) :
  exists r, tokenize_args tokens nonkvfound args kwargs w = (Ok r, w).
Proof.
  revert nonkvfound args kwargs.
  induction tokens as [|arg tokens IH]; intros nonkvfound args kwargs;
    [now eexists |].
  cbn [tokenize_args].
  destruct (PyStr.contains "=" arg) eqn:Harg; cbn [andb]; [|apply IH].
  destruct nonkvfound; cbn [negb]; [apply IH |].
  destruct (split_once_eq arg Harg) as (k & v & -> & _ & _). apply IH.
Qed.

(** X1: [tokenize] raises nothing but [IndexError]: on every line it either
    returns or raises [IndexError] (no word is left after a leading [-] or
    [action:]), and it leaves the process state alone. *)
Theorem tokenize_returns_or_IndexError (line : string) (w : world) :
  (exists r, tokenize line w = (Ok r, w))
  \/ tokenize line w = (Raise IndexError, w).
Proof.
  unfold tokenize.
  set (tokens := PyStr.split " " (PyStr.lstrip line)).
  destruct tokens as [|t0 tokens0]; [now right |].
  cbn [py_first bind ret].
  set (tokens1 := if String.eqb t0 "-" then tl (t0 :: tokens0) else t0 :: tokens0).
  destruct tokens1 as [|t1 tokens1']; [now right |].
  cbn [py_first bind ret].
  set (tokens2 := if String.eqb t1 "action:" || String.eqb t1 "local_action:"
                  then tl (t1 :: tokens1') else t1 :: tokens1').
  destruct tokens2 as [|t2 tokens2']; [now right |].
  cbn [py_first bind ret tl].
  destruct (tokenize_args_returns tokens2' false [] [] w) as (r & Hr).
  left. rewrite Hr. now eexists.
Qed.

Lemma tokenize_args_positional (tokens : list string)
    (args : list string) (kwargs : list (string * string)) (w : world) :
  tokenize_args tokens true args kwargs w = (Ok (args ++ tokens, kwargs), w).
Proof.
  revert args. induction tokens as [|arg tokens IH]; intros args.
  - cbn. now rewrite app_nil_r.
  - cbn [tokenize_args]. rewrite andb_false_r, IH. now rewrite <- app_assoc.
Qed.

(** X2: once a word without an equals sign has been seen, every later word
    is a positional argument, with or without an equals sign, and the keyword
    arguments stay as they are. *)
Theorem tokenize_args_after_plain_word (tokens : list string)
    (args : list string) (kwargs : list (string * string)) (w : world) :
  tokenize_args tokens true args kwargs w = (Ok (args ++ tokens, kwargs), w).
Proof.
  revert args. induction tokens as [|arg tokens IH]; intros args.
  - cbn. now rewrite app_nil_r.
  - cbn [tokenize_args]. rewrite andb_false_r, IH. now rewrite <- app_assoc.
Qed.

(** X3: the words [k=v] in front of the first plain word become the keyword
    arguments, split at their first equals sign and stored in order (a later
    word wins over an earlier one with the same key); the plain word and all
    that follows are the positional arguments. *)
Theorem tokenize_args_keywords_then_words (pairs : list (string * string))
    (words : list (string)) (kwargs : list (string * string)) (w : world) :
  Forall (fun kv => PyStr.contains "=" (fst kv) = false) pairs ->
  match words with
  | [] => True
  | word :: _ => PyStr.contains "=" word = false
  end ->
  tokenize_args (map (fun kv => fst kv +:+ "=" +:+ snd kv) pairs ++ words)
    false [] kwargs w
  = (Ok (words, dict_update kwargs pairs), w).
Proof.
  intros Hpairs Hword. revert kwargs.
  induction Hpairs as [|[k v] pairs Hk _ IH]; intros kwargs.
  - cbn [map app dict_update fold_left]. destruct words as [|word words].
    + reflexivity.
    + cbn [tokenize_args]. rewrite Hword. cbn [andb].
      now rewrite tokenize_args_positional.
  - cbn [map app fst snd tokenize_args].
    destruct (split_once_joined k v Hk) as [-> ->]. cbn [andb negb].
    rewrite IH. reflexivity.
Qed.

Lemma tokenize_args_keywords_then_words_witness :
  tokenize_args (map (fun kv => fst kv +:+ "=" +:+ snd kv)
                   [("src", "a=b"); ("dest", "c"); ("src", "d")] ++ ["x"; "y=1"])
    false [] [] Sample.empty
  = (Ok (["x"; "y=1"], dict_update [] [("src", "a=b"); ("dest", "c"); ("src", "d")]),
     Sample.empty).
Proof.
  apply (tokenize_args_keywords_then_words
           [("src", "a=b"); ("dest", "c"); ("src", "d")] ["x"; "y=1"] [] Sample.empty).
  - repeat constructor.
  - reflexivity.
Defined.

(** ** [find_children] and [_playbook_items] *)

Lemma concat_mapM_raises_first {A B} (f : A -> M (list B)) (x : A) (l : list A)
    (e : exn) (w : world) :
  f x w = (Raise e, w) -> concat_mapM f (x :: l) w = (Raise e, w).
Proof. intros H. cbn [concat_mapM bind]. now rewrite H. Qed.

(** X4: [find_children] never returns an edge.  Whenever it returns, the
    list is empty: the entry does not exist, or its content has no item;
    with an item the call of [play_children] raises. *)
Theorem find_children_never_returns_an_edge (E : environment)
    (playbook : string * string) (playbook_dir : string) (w w' : world)
    (edges : list edge) :
  find_children E playbook playbook_dir w = (Ok edges, w') -> edges = [].
Proof.
  unfold find_children.
  destruct (os_path_exists E (fst playbook)); cbn [negb].
  - intros H. apply bind_ok_inv in H as (ds & w1 & _ & H).
    apply bind_ok_inv in H as ([|item items] & w2 & _ & H).
    + cbn in H. now injection H as <- _.
    + rewrite (concat_mapM_raises_first _ item items TypeError w2) in H;
        [discriminate | reflexivity].
  - intros H. now injection H as <- _.
Qed.

Lemma find_children_never_returns_an_edge_witness :
  find_children Sample.env ("/pb/nope.yml", "playbook") "/pb" Sample.empty
  = (Ok [], Sample.empty) /\ @nil edge = [].
Proof.
  split; [reflexivity |].
  apply (find_children_never_returns_an_edge Sample.env ("/pb/nope.yml", "playbook")
           "/pb" Sample.empty Sample.empty []).
  reflexivity.
Defined.

Lemma concat_mapM_pure_map {A B} (f : A -> list B) (g : A -> M (list B))
    (l : list A) (w : world) :
  (forall x, In x l -> g x w = (Ok (f x), w)) ->
  concat_mapM g l w = (Ok (concat (map f l)), w).
Proof.
  induction l as [|x l IH]; intros Hg; [reflexivity |].
  cbn [concat_mapM map concat].
  rewrite (bind_ok _ _ _ _ _ (Hg x (or_introl eq_refl))).
  rewrite (bind_ok _ _ _ _ _ (IH (fun y Hy => Hg y (or_intror Hy)))).
  reflexivity.
Qed.

(** X5: the items of a playbook that is a list of plays are the items of
    its plays, play after play, each in the order of its keys. *)
Theorem playbook_items_of_plays (plays : list (list (string * value))) (w : world) :
  _playbook_items (VList (map VDict plays)) w = (Ok (concat plays), w).
Proof.
  unfold _playbook_items. destruct plays as [|play plays]; [reflexivity |].
  cbn [py_truthy map negb py_iter bind ret].
  change (VDict play :: map VDict plays) with (map VDict (play :: plays)).
  set (all := play :: plays).
  rewrite (concat_mapM_pure_map
             (fun v => match v with VDict d => d | _ => [] end) _ (map VDict all) w).
  - f_equal. f_equal. rewrite map_map. cbn. now rewrite map_id.
  - intros x Hx. apply in_map_iff in Hx as (d & <- & _). reflexivity.
Qed.

(** X6: a play that is not a mapping makes [_playbook_items] raise
    [AttributeError], whatever comes after it; the plays before it must be
    mappings for the call to get there. *)
Theorem playbook_items_bad_play (before : list (list (string * value)))
    (play : value) (after : list value) (w : world) :
  (forall d, play <> VDict d) ->
  _playbook_items (VList (map VDict before ++ play :: after)) w
  = (Raise AttributeError, w).
Proof.
  intros Hplay. unfold _playbook_items.
  assert (py_truthy (VList (map VDict before ++ play :: after)) = true) as ->
    by now destruct before.
  cbn [negb py_iter bind ret].
  induction before as [|d before IH]; cbn [map app concat_mapM bind ret].
  - destruct play; try reflexivity. now destruct (Hplay d).
  - now rewrite IH.
Qed.

Lemma playbook_items_bad_play_witness :
  _playbook_items (VList (map VDict [[("hosts", VStr "all")]] ++ VStr "oops" :: []))
    Sample.empty
  = (Raise AttributeError, Sample.empty).
Proof.
  apply (playbook_items_bad_play [[("hosts", VStr "all")]] (VStr "oops") [] Sample.empty).
  discriminate.
Defined.

(** ** [play_children] *)

Lemma load_library_run (E : environment) (path : string) (w : world) :
  _load_library_if_exists E path w = (Ok tt, with_library E path w).
Proof.
  unfold _load_library_if_exists, with_library.
  now destruct (os_path_exists E path).
Qed.

(** X7: [play_children] on a key it has no strategy for, or on a value that
    is false (empty list, empty string, [None], ...), returns no child; the
    library directory beside the playbook is registered all the same when it
    exists. *)
Theorem play_children_ignores (E : environment) (basedir k : string) (v : value)
    (parent_type : string) (w : world) :
  dict_has (delegate_map E) k = false \/ py_truthy v = false ->
  play_children E basedir (k, v) parent_type w
  = (Ok [], with_library E (OsPath.join (os_path_abspath E basedir) "library") w).
Proof.
  intros H. unfold play_children.
  rewrite (bind_ok _ _ _ _ _ (load_library_run E _ w)).
  unfold dict_has in H.
  destruct (dict_get (delegate_map E) k) as [f|]; [|reflexivity].
  destruct H as [H|H]; [discriminate | now rewrite H].
Qed.

Lemma play_children_ignores_witness :
  play_children Sample.env "/pb" ("vars", VDict [("a", VInt 1)]) "playbook" Sample.empty
  = (Ok [], Sample.empty)
  /\ play_children Sample.env "/pb" ("tasks", VList []) "playbook" Sample.empty
     = (Ok [], Sample.empty).
Proof.
  split.
  - apply (play_children_ignores Sample.env "/pb" "vars" (VDict [("a", VInt 1)])
             "playbook" Sample.empty). now left.
  - apply (play_children_ignores Sample.env "/pb" "tasks" (VList [])
             "playbook" Sample.empty). now right.
Defined.

(** X8: when the templating of the value fails ([AnsibleError] or
    [ValueError], which [template] suppresses), the value becomes [None], and
    for a task-list key or a roles key [play_children] raises [TypeError]:
    the entry is not skipped. *)
Theorem play_children_template_failure (E : environment) (basedir k : string)
    (v : value) (parent_type : string) (w : world) :
  In k ["tasks"; "pre_tasks"; "post_tasks"; "block"; "handlers"; "roles"; "dependencies"] ->
  py_truthy v = true ->
  Templar_template E (os_path_abspath E (os_path_abspath E basedir)) v
    [("playbook_dir", VStr (os_path_abspath E basedir))] = None ->
  play_children E basedir (k, v) parent_type w
  = (Raise TypeError,
     with_library E (OsPath.join (os_path_abspath E basedir) "library") w).
Proof.
  intros Hk Hv Htemplate. unfold play_children.
  rewrite (bind_ok _ _ _ _ _ (load_library_run E _ w)).
  rewrite Hv. unfold template. rewrite Htemplate.
  cbn in Hk. destruct Hk as [<-|[<-|[<-|[<-|[<-|[<-|[<-|[]]]]]]]]; reflexivity.
Qed.

Lemma play_children_template_failure_witness :
  let E := mkEnv (os_path_exists Sample.env) (os_path_isdir Sample.env)
             (os_path_abspath Sample.env) (os_path_expanduser Sample.env)
             (DataLoader_path_dwim Sample.env) (DataLoader_path_dwim_other Sample.env)
             (DataLoader_load_from_file Sample.env) (fun _ _ _ => None)
             (split_args Sample.env) (DEFAULT_ROLES_PATH Sample.env)
             (str_of_container Sample.env) (str_of_object Sample.env)
             (ModuleArgsParser_parse Sample.env) in
  play_children E "/pb" ("tasks", VList [VDict [("include_tasks", VStr "{{ x }}.yml")]])
    "playbook" Sample.empty
  = (Raise TypeError, Sample.empty).
Proof.
  cbv zeta.
  apply (play_children_template_failure
           (mkEnv (os_path_exists Sample.env) (os_path_isdir Sample.env)
              (os_path_abspath Sample.env) (os_path_expanduser Sample.env)
              (DataLoader_path_dwim Sample.env) (DataLoader_path_dwim_other Sample.env)
              (DataLoader_load_from_file Sample.env) (fun _ _ _ => None)
              (split_args Sample.env) (DEFAULT_ROLES_PATH Sample.env)
              (str_of_container Sample.env) (str_of_object Sample.env)
              (ModuleArgsParser_parse Sample.env))
           "/pb" "tasks" (VList [VDict [("include_tasks", VStr "{{ x }}.yml")]])
           "playbook" Sample.empty).
  - now left.
  - reflexivity.
  - reflexivity.
Defined.

(** ** Roles *)

Lemma rolepath_run (E : environment) (basedir r : string) (w : world) :
  _rolepath E basedir (VStr r) w
  = match List.find (os_path_isdir E) (role_candidates E basedir r) with
    | Some p =>
        (Ok (Some p),
         if String.eqb p "" then w else with_library E (OsPath.join p "library") w)
    | None => (Ok None, w)
    end.
Proof.
  unfold _rolepath. fold (role_candidates E basedir r).
  destruct (List.find (os_path_isdir E) (role_candidates E basedir r)) as [p|];
    [|reflexivity].
  destruct (String.eqb p ""); cbn [negb]; [reflexivity |].
  now rewrite (bind_ok _ _ _ _ _ (load_library_run E _ w)).
Qed.

(** X9: a role none of whose candidate directories exists has no children;
    nothing is raised and nothing is registered. *)
Theorem look_for_role_files_unknown_role (E : environment) (basedir r : string)
    (main : value) (w : world) :
  Forall (fun p => os_path_isdir E p = false) (role_candidates E basedir r) ->
  _look_for_role_files E basedir (VStr r) main w = (Ok [], w).
Proof.
  intros Hnone. unfold _look_for_role_files.
  assert (List.find (os_path_isdir E) (role_candidates E basedir r) = None) as Hfind.
  { induction Hnone as [|p ps Hp _ IH]; [reflexivity |]. cbn. now rewrite Hp. }
  rewrite (bind_ok _ _ w None w); [reflexivity |].
  now rewrite rolepath_run, Hfind.
Qed.

Lemma look_for_role_files_unknown_role_witness :
  _look_for_role_files Sample.env "/pb" (VStr "db") (VStr "main") Sample.empty
  = (Ok [], Sample.empty).
Proof.
  apply (look_for_role_files_unknown_role Sample.env "/pb" "db" (VStr "main") Sample.empty).
  repeat constructor.
Defined.

(** X10: the role directory is the first candidate that is a directory, in
    the order [<basedir>/roles/<role>], [<basedir>/<role>], the two
    ancestor-relative locations, then the configured roles path; its
    [library] directory is registered when it exists. *)
Theorem rolepath_first_candidate (E : environment) (basedir r : string)
    (before after : list string) (p : string) (w : world) :
  role_candidates E basedir r = before ++ p :: after ->
  Forall (fun q => os_path_isdir E q = false) before ->
  os_path_isdir E p = true ->
  p <> "" ->
  _rolepath E basedir (VStr r) w
  = (Ok (Some p), with_library E (OsPath.join p "library") w).
Proof.
  intros Hcandidates Hbefore Hp Hne.
  rewrite rolepath_run, Hcandidates.
  assert (List.find (os_path_isdir E) (before ++ p :: after) = Some p) as ->.
  { clear Hcandidates.
    induction Hbefore as [|q qs Hq _ IH]; cbn [app List.find];
      [now rewrite Hp | now rewrite Hq]. }
  apply String.eqb_neq in Hne. now rewrite Hne.
Qed.

Lemma rolepath_first_candidate_witness :
  _rolepath Sample.env "/pb/roles" (VStr "web") Sample.empty
  = (Ok (Some "/pb/roles/web"), mkWorld [] ["/pb/roles/web/library"] []).
Proof.
  apply (rolepath_first_candidate Sample.env "/pb/roles" "web"
           ["/pb/roles/roles/web"] ["/pb/roles/../../../roles/web"; "/pb/roles/../../web"]
           "/pb/roles/web" Sample.empty).
  - reflexivity.
  - repeat constructor.
  - reflexivity.
  - discriminate.
Defined.

Lemma role_file_cases (E : environment) (rp th main : string) :
  role_file E rp th main = []
  \/ exists ext, role_file E rp th main
                 = [mkEdge (OsPath.join_all rp [th; main +:+ ext]) th]
       /\ os_path_exists E (OsPath.join_all rp [th; main +:+ ext]) = true.
Proof.
  unfold role_file. cbn [List.find].
  destruct (os_path_exists E (OsPath.join_all rp [th; main +:+ ".yml"])) eqn:Hyml;
    [right; now exists ".yml" |].
  destruct (os_path_exists E (OsPath.join_all rp [th; main +:+ ".yaml"])) eqn:Hyaml;
    [right; now exists ".yaml" | now left].
Qed.

(** X11: whatever the file system holds, [_look_for_role_files] returns at
    most one edge per kind, in the order [tasks], [handlers], [meta], and
    every path it returns exists. *)
Theorem look_for_role_files_edges (E : environment) (basedir : string)
    (role main : value) (w w' : world) (edges : list edge) :
  _look_for_role_files E basedir role main w = (Ok edges, w') ->
  sublist (map edge_type edges) ["tasks"; "handlers"; "meta"]
  /\ Forall (fun e => os_path_exists E (edge_path e) = true) edges.
Proof.
  unfold _look_for_role_files. intros H.
  apply bind_ok_inv in H as ([rp|] & w1 & _ & H);
    [|injection H as <- _; split; [apply sublist_nil_l | constructor]].
  destruct (String.eqb rp "");
    [injection H as <- _; split; [apply sublist_nil_l | constructor] |].
  destruct main as [| | |m| |]; try discriminate.
  cbn [concat_mapM bind ret] in H. injection H as <- _.
  rewrite app_nil_r.
  destruct (role_file_cases E rp "tasks" m) as [->|(e1 & -> & H1)];
    destruct (role_file_cases E rp "handlers" m) as [->|(e2 & -> & H2)];
    destruct (role_file_cases E rp "meta" m) as [->|(e3 & -> & H3)];
    cbn [app map edge_type edge_path];
    (split; [repeat first [apply sublist_skip | apply sublist_cons | apply sublist_nil]
            | repeat constructor; assumption ]).
Qed.

Lemma look_for_role_files_edges_witness :
  sublist (map edge_type [ mkEdge "/pb/roles/web/tasks/main.yml" "tasks";
                           mkEdge "/pb/roles/web/handlers/main.yml" "handlers" ])
          ["tasks"; "handlers"; "meta"]
  /\ Forall (fun e => os_path_exists Sample.env (edge_path e) = true)
            [ mkEdge "/pb/roles/web/tasks/main.yml" "tasks";
              mkEdge "/pb/roles/web/handlers/main.yml" "handlers" ].
Proof.
  apply (look_for_role_files_edges Sample.env "/pb" (VStr "web") (VStr "main")
           Sample.empty (mkWorld [] ["/pb/roles/web/library"] [])).
  reflexivity.
Defined.

(** X12: a role reference that is a mapping without a [role] and without a
    [name] key ends the resolution with [SystemExit], also when it carries
    the tag [skip_ansible_later], and also when the roles before it are
    skipped. *)
Theorem roles_children_malformed_role (E : environment) (basedir k parent_type : string)
    (main : value) (skipped : list value) (d : list (string * value))
    (after : list value) (w : world) :
  forallb skip_tagged skipped = true ->
  dict_has d "role" = false ->
  dict_has d "name" = false ->
  _roles_children E basedir k (VList (skipped ++ VDict d :: after)) parent_type main w
  = (Raise (SystemExit ("role dict " +:+ py_str E (VDict d)
                        +:+ " does not contain a 'role' or 'name' key")), w).
Proof.
  intros Hskipped Hrole Hname. unfold _roles_children. cbn [py_iter bind ret].
  induction skipped as [|role skipped IH]; cbn [app concat_mapM].
  - cbn [role_children bind]. now rewrite Hrole, Hname.
  - cbn [forallb] in Hskipped. apply andb_prop in Hskipped as [Hr Hs].
    rewrite (bind_ok _ _ _ _ _ (role_children_skip_tagged E basedir main role w Hr)).
    cbn [bind]. now rewrite (IH Hs).
Qed.

Lemma roles_children_malformed_role_witness :
  _roles_children Sample.env "/pb" "roles"
    (VList ([] ++ VDict [("tags", VList [VStr "skip_ansible_later"])] :: []))
    "playbook" (VStr "main") Sample.empty
  = (Raise (SystemExit "role dict <container> does not contain a 'role' or 'name' key"),
     Sample.empty).
Proof.
  apply (roles_children_malformed_role Sample.env "/pb" "roles" "playbook" (VStr "main")
           [] [("tags", VList [VStr "skip_ansible_later"])] [] Sample.empty);
    reflexivity.
Defined.

(** ** [_taskshandlers_children] *)

(** A step that only appends to the results it is given *)
Lemma bind_append {A} (m : M (list A)) (results : list A) (w : world) :
  (rs <- m ;; ret (results ++ rs)) w
  = match m w with
    | (Ok rs, w') => (Ok (results ++ rs), w')
    | (Raise e, w') => (Raise e, w')
    end.
Proof. cbn [bind ret]. now destruct (m w) as [[rs|e] w']. Qed.

Lemma bind_assoc {A B C} (m : M A) (k : A -> M B) (h : B -> M C) (w : world) :
  bind (bind m k) h w = bind m (fun a => bind (k a) h) w.
Proof. cbn [bind]. now destruct (m w) as [[a|e] w']. Qed.

Lemma branch_appends {A} (m : M bool) (X Y X0 Y0 : M (list A)) (results : list A)
    (w : world) :
  (forall w0, X w0 = (rs <- X0 ;; ret (results ++ rs)) w0) ->
  (forall w0, Y w0 = (rs <- Y0 ;; ret (results ++ rs)) w0) ->
  (b <- m ;; if (b : bool) then X else Y) w
  = (rs <- (b <- m ;; if (b : bool) then X0 else Y0) ;; ret (results ++ rs)) w.
Proof.
  intros HX HY. rewrite bind_assoc. apply bind_ext; [reflexivity |].
  intros [|] w0; [apply HX | apply HY].
Qed.

Lemma append_children_appends (E : environment) (x : value)
    (basedir k parent_type : string) (results : list edge) (w : world) :
  append_children E x basedir k parent_type results w
  = (rs <- append_children E x basedir k parent_type [] ;; ret (results ++ rs)) w.
Proof.
  unfold append_children. rewrite bind_assoc. apply bind_ext; reflexivity.
Qed.

Lemma taskshandler_entry_appends (E : environment) (basedir k parent_type : string)
    (th : value) (recurse : string -> M (list edge)) (results : list edge) (w : world) :
  taskshandler_entry E basedir k parent_type th recurse results w
  = (rs <- taskshandler_entry E basedir k parent_type th recurse [] ;;
     ret (results ++ rs)) w.
Proof.
  unfold taskshandler_entry. cbv zeta.
  assert (forall key w0,
            (x <- py_getitem th key ;; append_children E x basedir k parent_type results) w0
            = (rs <- (x <- py_getitem th key ;;
                      append_children E x basedir k parent_type []) ;;
               ret (results ++ rs)) w0) as Hinclude.
  { intros key w0. rewrite bind_assoc. apply bind_ext; [reflexivity |].
    intros x w1. apply append_children_appends. }
  assert (forall key w0,
            (r <- py_getitem th key ;;
             name <- py_get r "name" VNone ;;
             main <- py_get r "tasks_from" (VStr "main") ;;
             rs <- _roles_children E basedir k (VList [name]) parent_type main ;;
             ret (results ++ rs)) w0
            = (rs0 <- (r <- py_getitem th key ;;
                       name <- py_get r "name" VNone ;;
                       main <- py_get r "tasks_from" (VStr "main") ;;
                       rs <- _roles_children E basedir k (VList [name]) parent_type main ;;
                       ret ([] ++ rs)) ;;
               ret (results ++ rs0)) w0) as Hrole.
  { intros key w0.
    do 4 (rewrite bind_assoc; apply bind_ext; [reflexivity | intros ? ?]).
    reflexivity. }
  do 4 (apply branch_appends; [intros; apply Hinclude | intros]).
  do 2 (apply branch_appends; [intros; apply Hrole | intros]).
  apply branch_appends; [intros | intros; cbn; now rewrite app_nil_r].
  do 5 (rewrite bind_assoc; apply bind_ext; [reflexivity | intros ? ?]).
  cbn [bind ret app]. now rewrite !app_assoc.
Qed.

Lemma foldM_appends {A B} (f : list B -> A -> M (list B)) (l : list A)
    (results : list B) (w : world) :
  (forall results x w0, f results x w0 = (rs <- f [] x ;; ret (results ++ rs)) w0) ->
  foldM f l results w = (rs <- foldM f l [] ;; ret (results ++ rs)) w.
Proof.
  intros Hf. revert results w.
  induction l as [|x l IH]; intros results w.
  - cbn. now rewrite app_nil_r.
  - cbn [foldM].
    etransitivity; [apply bind_ext; [apply Hf | reflexivity] |].
    rewrite !bind_assoc. apply bind_ext; [reflexivity |]. intros r w1.
    transitivity (foldM f l (results ++ r) w1); [reflexivity |].
    rewrite (IH (results ++ r)).
    rewrite (bind_ext (foldM f l r) (rs <- foldM f l [] ;; ret (r ++ rs))
               (fun rs => ret (results ++ rs)) (fun rs => ret (results ++ rs)) w1
               (IH r w1) (fun _ _ => eq_refl)).
    rewrite bind_assoc. apply bind_ext; [reflexivity |]. intros rs w2.
    cbn [bind ret]. now rewrite app_assoc.
Qed.

Lemma foldM_app {A S} (f : S -> A -> M S) (l1 l2 : list A) (acc : S) (w : world) :
  foldM f (l1 ++ l2) acc w = (acc' <- foldM f l1 acc ;; foldM f l2 acc') w.
Proof.
  revert acc w. induction l1 as [|x l1 IH]; intros acc w; [reflexivity |].
  cbn [app foldM bind]. destruct (f acc x w) as [[acc'|e] w1]; [apply IH | reflexivity].
Qed.

(** X13: the children of a task list are the children of its entries, in
    order: for two lists put one after the other, the children of the first,
    then the children of the second, the second being processed only when
    the first did not raise. *)
Theorem taskshandlers_children_app (E : environment) (basedir k : string)
    (l1 l2 : list value) (parent_type : string) (w : world) :
  _taskshandlers_children E basedir k (VList (l1 ++ l2)) parent_type w
  = (r1 <- _taskshandlers_children E basedir k (VList l1) parent_type ;;
     r2 <- _taskshandlers_children E basedir k (VList l2) parent_type ;;
     ret (r1 ++ r2)) w.
Proof.
  cbn [_taskshandlers_children]. rewrite foldM_app. cbn [bind].
  match goal with
  | |- context [foldM ?f l1 [] w] => destruct (foldM f l1 [] w) as [[r1|e] w1]
  end; [|reflexivity].
  rewrite foldM_appends; [reflexivity |].
  intros results th w0. apply taskshandler_entry_appends.
Qed.

(** X14: an entry that is a mapping with none of the keys [include],
    [include_tasks], [import_playbook], [import_tasks], [import_role],
    [include_role], [block] has no children; in particular [rescue] and
    [always] are looked at only beside a [block]. *)
Theorem taskshandlers_children_plain_entries (E : environment) (basedir k : string)
    (entries : list (list (string * value))) (parent_type : string) (w : world) :
  Forall (fun d => forallb (fun key => negb (dict_has d key))
                     ["include"; "include_tasks"; "import_playbook"; "import_tasks";
                      "import_role"; "include_role"; "block"] = true) entries ->
  _taskshandlers_children E basedir k (VList (map VDict entries)) parent_type w
  = (Ok [], w).
Proof.
  intros Hplain. cbn [_taskshandlers_children].
  induction Hplain as [|d entries Hd _ IH]; [reflexivity |].
  cbn [map foldM]. rewrite (bind_ok _ _ w [] w); [exact IH |].
  cbn [forallb] in Hd.
  repeat (apply andb_prop in Hd as [?%negb_true_iff Hd]).
  unfold taskshandler_entry, py_in. cbn [bind ret].
  repeat match goal with H : dict_has d _ = false |- _ => rewrite H; clear H end.
  reflexivity.
Qed.

Lemma taskshandlers_children_plain_entries_witness :
  _taskshandlers_children Sample.env "/pb" "tasks"
    (VList (map VDict [ [("debug", VStr "msg=a")];
                        [("rescue", VList [VDict [("include_tasks", VStr "x.yml")]]);
                         ("always", VList [])] ]))
    "playbook" Sample.empty
  = (Ok [], Sample.empty).
Proof.
  apply (taskshandlers_children_plain_entries Sample.env "/pb" "tasks"
           [ [("debug", VStr "msg=a")];
             [("rescue", VList [VDict [("include_tasks", VStr "x.yml")]]);
              ("always", VList [])] ] "playbook" Sample.empty).
  repeat constructor.
Defined.

(** X15: an include inside a [block], [rescue] or [always] section is found
    however deep the sections nest: the children of an entry with a [block]
    are the children of its [block] list, then of its [rescue] list, then of
    its [always] list. *)
Theorem taskshandlers_children_block (E : environment) (basedir k : string)
    (d : list (string * value)) (block : value) (parent_type : string) (w : world) :
  forallb (fun key => negb (dict_has d key))
    ["include"; "include_tasks"; "import_playbook"; "import_tasks";
     "import_role"; "include_role"] = true ->
  dict_get d "block" = Some block ->
  _taskshandlers_children E basedir k (VList [VDict d]) parent_type w
  = (r1 <- _taskshandlers_children E basedir k block parent_type ;;
     r2 <- match dict_get d "rescue" with
           | Some rescue => _taskshandlers_children E basedir k rescue parent_type
           | None => ret []
           end ;;
     r3 <- match dict_get d "always" with
           | Some always => _taskshandlers_children E basedir k always parent_type
           | None => ret []
           end ;;
     ret (r1 ++ r2 ++ r3)) w.
Proof.
  intros Hd Hblock. rewrite _taskshandlers_children_unfold.
  cbn [py_iter bind ret foldM]. cbn [forallb] in Hd.
  repeat (apply andb_prop in Hd as [?%negb_true_iff Hd]).
  unfold taskshandler_entry, py_in. cbn [bind ret].
  repeat match goal with H : dict_has d _ = false |- _ => rewrite H; clear H end.
  unfold dict_has, py_getitem. rewrite Hblock. cbn [bind ret].
  destruct (_taskshandlers_children E basedir k block parent_type w) as [[r1|e] w1];
    [|reflexivity].
  destruct (dict_get d "rescue") as [rescue|]; cbn [bind ret];
    [destruct (_taskshandlers_children E basedir k rescue parent_type w1) as [[r2|e] w2];
       [|reflexivity] |];
    (destruct (dict_get d "always") as [always|]; cbn [bind ret];
     [match goal with
      | |- context [_taskshandlers_children E basedir k always parent_type ?w0] =>
          destruct (_taskshandlers_children E basedir k always parent_type w0)
            as [[r3|e] w3]; [|reflexivity]
      end |]);
    cbn [app]; rewrite <- ?app_assoc; reflexivity.
Qed.

Lemma taskshandlers_children_block_witness :
  let d := [ ("block", VList [VDict [("block", VList [VDict [("include_tasks", VStr "deep.yml")]])]]);
             ("always", VList [VDict [("import_tasks", VStr "end.yml")]]) ] in
  _taskshandlers_children Sample.env "/pb" "tasks" (VList [VDict d]) "playbook" Sample.empty
  = (Ok [mkEdge "/pb/deep.yml" "tasks"; mkEdge "/pb/end.yml" "tasks"], Sample.empty).
Proof.
  cbv zeta.
  rewrite (taskshandlers_children_block Sample.env "/pb" "tasks"
             [ ("block", VList [VDict [("block", VList [VDict [("include_tasks", VStr "deep.yml")]])]]);
               ("always", VList [VDict [("import_tasks", VStr "end.yml")]]) ]
             (VList [VDict [("block", VList [VDict [("include_tasks", VStr "deep.yml")]])]])
             "playbook" Sample.empty); reflexivity.
Defined.

(** ** Includes: the bare key and the entry of a task list *)

Lemma taskshandlers_children_split (E : environment) (basedir k : string)
    (l1 l2 : list value) (parent_type : string) (w : world) :
  _taskshandlers_children E basedir k (VList (l1 ++ l2)) parent_type w
  = (r1 <- _taskshandlers_children E basedir k (VList l1) parent_type ;;
     r2 <- _taskshandlers_children E basedir k (VList l2) parent_type ;;
     ret (r1 ++ r2)) w.
Proof.
  cbn [_taskshandlers_children]. rewrite foldM_app. cbn [bind].
  match goal with
  | |- context [foldM ?f l1 [] w] => destruct (foldM f l1 [] w) as [[r1|e] w1]
  end; [|reflexivity].
  rewrite foldM_appends; [reflexivity |].
  intros results th w0. apply taskshandler_entry_appends.
Qed.

(** An entry with [include_tasks] and without [include], alone in a list:
    one edge, the value resolved against [basedir]; nothing is looked up in
    the file system, whatever other keys the entry has. *)
Lemma taskshandlers_children_include_tasks (E : environment) (basedir k : string)
    (d : list (string * value)) (s parent_type : string) (w : world) :
  dict_has d "include" = false ->
  dict_get d "include_tasks" = Some (VStr s) ->
  _taskshandlers_children E basedir k (VList [VDict d]) parent_type w
  = (Ok [mkEdge (DataLoader_path_dwim E basedir s)
                (if String.eqb parent_type "playbook" then k else parent_type)], w).
Proof.
  intros Hinclude Hget. cbn [_taskshandlers_children foldM].
  unfold taskshandler_entry, py_in. cbn [bind ret]. rewrite Hinclude.
  unfold dict_has, py_getitem. rewrite Hget. reflexivity.
Qed.

(** C5, as the code has it.  Let the value [s] of the key tokenize to a first
    plain word [a0] whose resolution against [basedir] does not exist, and let
    [basedir] not end in [tasks].  As the value of a bare [include] or
    [import_playbook] key, [s] is resolved again, whole, against the sibling
    [tasks] directory, and that path is the edge.  As the value of the
    [include_tasks] key of an entry of a task list (any entry without an
    [include] key, with whatever other keys, anywhere in any list, under any
    section), [s] is resolved against [basedir] only: the entry gives that one
    edge, between the edges of the entries before it and of those after it,
    with no existence check and no retry. *)
Theorem include_retry_only_for_bare_include (E : environment)
    (basedir k parent_type s command a0 : string) (args : list string)
    (kwargs : list (string * string)) (w w' : world) :
  tokenize (k +:+ ": " +:+ s) w = (Ok (command, a0 :: args, kwargs), w') ->
  os_path_exists E (DataLoader_path_dwim E basedir a0) = false ->
  PyStr.endswith "tasks" basedir = false ->
  _include_children E basedir k (VStr s) parent_type w
  = (Ok [mkEdge (DataLoader_path_dwim E (OsPath.join_all basedir [".."; "tasks"]) s)
                parent_type], w)
  /\ forall (section kind : string) (before after : list value)
        (d : list (string * value)) (w0 : world),
       dict_has d "include" = false ->
       dict_get d "include_tasks" = Some (VStr s) ->
       _taskshandlers_children E basedir section (VList (before ++ VDict d :: after))
         kind w0
       = (r1 <- _taskshandlers_children E basedir section (VList before) kind ;;
          r2 <- _taskshandlers_children E basedir section (VList after) kind ;;
          ret (r1 ++ mkEdge (DataLoader_path_dwim E basedir s)
                        (if String.eqb kind "playbook" then section else kind) :: r2)) w0.
Proof.
  intros Htok Hmissing Hdir.
  assert (w' = w) as ->.
  { pose proof (pure_tokenize (k +:+ ": " +:+ s) w) as H. now rewrite Htok in H. }
  split.
  - unfold _include_children. cbn [py_str].
    rewrite (bind_ok _ _ _ _ _ Htok). cbn [fst snd py_first bind ret path_dwim].
    now rewrite Hmissing, Hdir.
  - intros section kind before after d w0 Hinclude Hget.
    rewrite taskshandlers_children_split.
    apply bind_ext; [reflexivity |]. intros r1 w1.
    change (VDict d :: after) with ([VDict d] ++ after).
    cbn [bind]. rewrite taskshandlers_children_split. cbn [bind].
    rewrite (taskshandlers_children_include_tasks E basedir section d s kind w1
               Hinclude Hget).
    now destruct (_taskshandlers_children E basedir section (VList after) kind w1)
      as [[r2|e] w2].
Qed.

Lemma include_retry_only_for_bare_include_witness :
  _include_children Sample.env "/pb/roles/web/handlers" "include" (VStr "sub.yml")
    "handlers" Sample.empty
  = (Ok [mkEdge "/pb/roles/web/handlers/../tasks/sub.yml" "handlers"], Sample.empty)
  /\ forall (section kind : string) (before after : list value)
        (d : list (string * value)) (w0 : world),
       dict_has d "include" = false ->
       dict_get d "include_tasks" = Some (VStr "sub.yml") ->
       _taskshandlers_children Sample.env "/pb/roles/web/handlers" section
         (VList (before ++ VDict d :: after)) kind w0
       = (r1 <- _taskshandlers_children Sample.env "/pb/roles/web/handlers" section
                  (VList before) kind ;;
          r2 <- _taskshandlers_children Sample.env "/pb/roles/web/handlers" section
                  (VList after) kind ;;
          ret (r1 ++ mkEdge "/pb/roles/web/handlers/sub.yml"
                        (if String.eqb kind "playbook" then section else kind) :: r2)) w0.
Proof.
  apply (include_retry_only_for_bare_include Sample.env "/pb/roles/web/handlers"
           "include" "handlers" "sub.yml" "include" "sub.yml" [] []
           Sample.empty Sample.empty); reflexivity.
Defined.

(** C5 as stated fails: the target of [include_tasks: sub.yml] does not
    exist, the current directory does not end in [tasks], the sibling
    [tasks/sub.yml] exists, and the edge still is the path under the current
    directory. *)
Lemma include_tasks_retry_counterexample :
  let basedir := "/pb/roles/web/handlers" in
  let sibling :=
    DataLoader_path_dwim Sample.env (OsPath.join_all basedir [".."; "tasks"]) "sub.yml" in
  os_path_exists Sample.env (DataLoader_path_dwim Sample.env basedir "sub.yml") = false
  /\ PyStr.endswith "tasks" basedir = false
  /\ os_path_exists Sample.env sibling = true
  /\ exists edges,
       _taskshandlers_children Sample.env basedir "handlers"
         (VList [VDict [("include_tasks", VStr "sub.yml")]]) "handlers" Sample.empty
       = (Ok edges, Sample.empty)
       /\ map edge_path edges = ["/pb/roles/web/handlers/sub.yml"]
       /\ map edge_path edges <> [sibling].
Proof.
  cbv zeta. repeat (split; [reflexivity |]).
  eexists. split; [reflexivity |]. split; [reflexivity | discriminate].
Qed.

(** ** The extractor: the structural error on a store of tasks *)

Lemma forallb_Forall_true {A} (f : A -> bool) (l : list A) :
  forallb f l = true <-> Forall (fun x => f x = true) l.
Proof.
  induction l as [|x l IH]; cbn [forallb]; [split; [constructor | reflexivity] |].
  rewrite andb_true_iff, IH, Forall_cons. reflexivity.
Qed.

Lemma grows_refl (h : list pyobj) : grows h h.
Proof. intros l [d|items] Hl; [now exists d | exact Hl]. Qed.

Lemma grows_trans (h1 h2 h3 : list pyobj) : grows h1 h2 -> grows h2 h3 -> grows h1 h3.
Proof.
  intros H12 H23 l o Hl. specialize (H12 l o Hl). destruct o as [d|items].
  - destruct H12 as [d' Hd']. apply (H23 l (ODict d') Hd').
  - apply (H23 l (OList items) H12).
Qed.

Lemma grows_app (h : list pyobj) (o : pyobj) : grows h (h ++ [o]).
Proof.
  intros l [d|items] Hl; [exists d |]; now apply lookup_app_l_Some.
Qed.

Lemma grows_store (h : list pyobj) (a : nat) (da da' : list (string * pyval)) :
  h !! a = Some (ODict da) -> grows h (<[a := ODict da']> h).
Proof.
  intros Ha l o Hl. destruct (decide (a = l)) as [->|Hne].
  - rewrite Ha in Hl. injection Hl as <-. exists da'.
    now apply (lookup_replaced _ _ _ _ Ha).
  - rewrite list_lookup_insert_ne by exact Hne. destruct o as [d|items]; [now exists d | exact Hl].
Qed.

Lemma is_mapping_grows (h h' : list pyobj) (a : pyval) :
  grows h h' -> is_mapping h a = true -> is_mapping h' a = true.
Proof.
  intros Hg. destruct a as [| | | |l]; cbn; try easy.
  destruct (h !! l) as [[d|items]|] eqn:Hl; try discriminate.
  destruct (Hg l _ Hl) as [d' ->]. reflexivity.
Qed.

Lemma in_store_grows (h h' : list pyobj) (x : pyval) :
  grows h h' -> in_store h x = true -> in_store h' x = true.
Proof.
  intros Hg. destruct x as [| | | |l]; cbn; try easy.
  destruct (h !! l) as [[d|items]|] eqn:Hl; try discriminate.
  - destruct (Hg l _ Hl) as [d' ->]. reflexivity.
  - now rewrite (Hg l _ Hl).
Qed.

Lemma is_mapping_in_store (h : list pyobj) (a : pyval) :
  is_mapping h a = true -> in_store h a = true.
Proof.
  destruct a as [| | | |l]; cbn; try easy. now destruct (h !! l) as [[]|].
Qed.

Lemma is_mapping_list_of_mappings (h : list pyobj) (a : pyval) :
  is_mapping h a = true -> list_of_mappings h a = true.
Proof.
  destruct a as [| | | |l]; cbn; try easy. now destruct (h !! l) as [[]|].
Qed.

Lemma forallb_is_mapping_grows (h h' : list pyobj) (items : list pyval) :
  grows h h' ->
  forallb (is_mapping h) items = true -> forallb (is_mapping h') items = true.
Proof.
  intros Hg. rewrite !forallb_Forall_true. intros H.
  eapply Forall_impl; [exact H |]. intros a. now apply is_mapping_grows.
Qed.

Lemma entry_ok_grows (candidates : list string) (h h' : list pyobj)
    (kv : string * pyval) :
  grows h h' -> entry_ok candidates h kv = true -> entry_ok candidates h' kv = true.
Proof.
  intros Hg. unfold entry_ok. intros [Hin Hlist]%andb_prop.
  rewrite (in_store_grows _ _ _ Hg Hin). cbn [andb].
  destruct (negb (str_in (fst kv) candidates)); [reflexivity |]. cbn [orb] in *.
  destruct (snd kv) as [| | | |l]; try reflexivity. cbn in Hin, Hlist |- *.
  destruct (h !! l) as [[d|items]|] eqn:Hl; try discriminate.
  - destruct (Hg l _ Hl) as [d' ->]. reflexivity.
  - rewrite (Hg l _ Hl). now apply (forallb_is_mapping_grows h).
Qed.

Lemma object_ok_grows (candidates : list string) (h h' : list pyobj) (o : pyobj) :
  grows h h' -> object_ok candidates h o = true -> object_ok candidates h' o = true.
Proof.
  intros Hg. destruct o as [d|items]; [|reflexivity]. cbn [object_ok].
  rewrite !forallb_Forall_true. intros H.
  eapply Forall_impl; [exact H |]. intros kv. now apply entry_ok_grows.
Qed.

Lemma task_lists_app (candidates : list string) (h : list pyobj)
    (d : list (string * pyval)) :
  task_lists candidates h = true ->
  forallb (entry_ok candidates h) d = true ->
  task_lists candidates (h ++ [ODict d]) = true.
Proof.
  unfold task_lists. rewrite !forallb_Forall_true. intros Hh Hd.
  apply Forall_app. split.
  - eapply Forall_impl; [exact Hh |]. intros o. apply object_ok_grows, grows_app.
  - constructor; [|constructor].
    apply (object_ok_grows _ h); [apply grows_app |].
    cbn [object_ok]. now apply forallb_Forall_true.
Qed.

Lemma forallb_dict_set {A} (P : string * A -> bool) (d : list (string * A))
    (k : string) (v : A) :
  forallb P d = true -> P (k, v) = true -> forallb P (dict_set d k v) = true.
Proof.
  intros Hd Hkv. induction d as [|[k' v'] d IH]; cbn [dict_set forallb].
  - now rewrite Hkv.
  - cbn [forallb] in Hd. apply andb_prop in Hd as [Hk' Hd].
    destruct (String.eqb_spec k' k) as [->|Hne]; cbn [forallb].
    + now rewrite Hkv, Hd.
    + now rewrite Hk', IH.
Qed.

Lemma forallb_dict_remove {A} (P : string * A -> bool) (d : list (string * A))
    (k : string) :
  forallb P d = true -> forallb P (dict_remove d k) = true.
Proof.
  unfold dict_remove. intros Hd.
  induction d as [|kv d IH]; cbn [List.filter]; [reflexivity |].
  cbn [forallb] in Hd. apply andb_prop in Hd as [Hkv Hd].
  destruct (negb (String.eqb (fst kv) k)); cbn [forallb]; [rewrite Hkv |]; now apply IH.
Qed.

Lemma forallb_dict_get {A} (P : string * A -> bool) (d : list (string * A))
    (k : string) (v : A) :
  forallb P d = true -> dict_get d k = Some v -> P (k, v) = true.
Proof.
  induction d as [|[k' v'] d IH]; cbn [forallb dict_get]; [discriminate |].
  intros [Hk' Hd]%andb_prop. destruct (String.eqb_spec k' k) as [->|Hne].
  - intros H. injection H as <-. exact Hk'.
  - now apply IH.
Qed.

Lemma task_lists_lookup (candidates : list string) (h : list pyobj) (l : nat)
    (o : pyobj) :
  task_lists candidates h = true -> h !! l = Some o -> object_ok candidates h o = true.
Proof.
  unfold task_lists. rewrite forallb_Forall_true, Forall_lookup. intros H. apply H.
Qed.

Lemma task_lists_store (candidates : list string) (h : list pyobj) (a : nat)
    (da : list (string * pyval)) (k : string) (v : pyval) :
  task_lists candidates h = true ->
  h !! a = Some (ODict da) ->
  entry_ok candidates h (k, v) = true ->
  task_lists candidates (<[a := ODict (dict_set da k v)]> h) = true.
Proof.
  intros Hh Ha Hkv.
  pose proof (grows_store h a da (dict_set da k v) Ha) as Hg.
  pose proof (task_lists_lookup _ _ _ _ Hh Ha) as Hda. cbn [object_ok] in Hda.
  unfold task_lists in *. rewrite forallb_Forall_true in *.
  apply Forall_insert.
  - eapply Forall_impl; [exact Hh |]. intros o. now apply object_ok_grows.
  - apply (object_ok_grows _ h); [exact Hg |]. cbn [object_ok].
    now apply forallb_dict_set.
Qed.

Lemma obj_setitem_mapping (l : nat) (d : list (string * pyval)) (k : string)
    (v : pyval) (w : world) :
  heap w !! l = Some (ODict d) ->
  obj_setitem (PRef l) k v w
  = (Ok tt, set_heap w (<[l := ODict (dict_set d k v)]> (heap w))).
Proof. intros Hl. unfold obj_setitem. cbn [bind]. now rewrite (load_ok _ _ _ Hl). Qed.

Lemma obj_truthy_in_store (x : pyval) (w : world) :
  in_store (heap w) x = true -> exists b, obj_truthy x w = (Ok b, w).
Proof.
  destruct x as [| | | |l]; cbn; try (intros _; now eexists).
  unfold load. destruct (heap w !! l) as [o|]; [|discriminate]. intros _. now eexists.
Qed.

(** On a store of tasks the loop of [add_action_type] over mappings goes
    through, and leaves a store of tasks. *)
Lemma add_action_type_loop_ok (candidates : list string) (action_type ty : string)
    (action_meta : pyval) (items results : list pyval) (w : world) :
  dict_get BLOCK_NAME_TO_ACTION_TYPE_MAP action_type = Some ty ->
  task_lists candidates (heap w) = true ->
  is_mapping (heap w) action_meta = true ->
  forallb (is_mapping (heap w)) items = true ->
  exists rs w',
    foldM (fun results action =>
             ty0 <- match dict_get BLOCK_NAME_TO_ACTION_TYPE_MAP action_type with
                    | Some ty0 => ret ty0
                    | None => raise (KeyError action_type)
                    end ;;
             obj_setitem action "__ansible_action_type__" (PStr ty0) ;;
             has_meta <- obj_truthy action_meta ;;
             (if (has_meta : bool)
              then obj_setitem action "__ansible_action_meta__" action_meta
              else ret tt) ;;
             ret (results ++ [action])) items results w = (Ok rs, w')
    /\ task_lists candidates (heap w') = true
    /\ grows (heap w) (heap w').
Proof.
  intros Hty. revert results w.
  induction items as [|action items IH]; intros results w Hw Hmeta Hitems.
  - exists results, w. split; [reflexivity |]. split; [exact Hw | apply grows_refl].
  - cbn [forallb] in Hitems. apply andb_prop in Hitems as [Haction Hitems].
    destruct action as [| | | |la]; try discriminate. cbn in Haction.
    destruct (heap w !! la) as [[da|?]|] eqn:Hla; try discriminate.
    cbn [foldM]. rewrite Hty.
    rewrite bind_assoc. rewrite (bind_ok (ret ty) _ w ty w eq_refl).
    rewrite bind_assoc.
    rewrite (bind_ok _ _ _ _ _
               (obj_setitem_mapping la da "__ansible_action_type__" (PStr ty) w Hla)).
    set (h1 := <[la := ODict (dict_set da "__ansible_action_type__" (PStr ty))]> (heap w)).
    assert (grows (heap w) h1) as Hg1 by (now apply (grows_store _ _ da)).
    assert (task_lists candidates h1 = true) as Hw1.
    { apply task_lists_store; [exact Hw | exact Hla |].
      unfold entry_ok. cbn [snd in_store list_of_mappings]. apply orb_true_r. }
    assert (h1 !! la = Some (ODict (dict_set da "__ansible_action_type__" (PStr ty))))
      as Hla1 by (now apply (lookup_replaced _ _ _ _ Hla)).
    pose proof (is_mapping_grows _ _ _ Hg1 Hmeta) as Hmeta1.
    destruct (obj_truthy_in_store action_meta (set_heap w h1)
                (is_mapping_in_store _ _ Hmeta1)) as [has_meta Htruthy].
    assert (exists w2,
              (if has_meta
               then obj_setitem (PRef la) "__ansible_action_meta__" action_meta
               else ret tt) (set_heap w h1) = (Ok tt, w2)
              /\ task_lists candidates (heap w2) = true
              /\ grows h1 (heap w2)) as (w2 & Hstep & Hw2 & Hg2).
    { destruct has_meta.
      - eexists. split;
          [apply (obj_setitem_mapping la _ "__ansible_action_meta__" action_meta
                    (set_heap w h1) Hla1) |].
        cbn [heap set_heap]. split.
        + apply task_lists_store; [exact Hw1 | exact Hla1 |].
          unfold entry_ok. cbn [snd].
          now rewrite (is_mapping_in_store _ _ Hmeta1),
            (is_mapping_list_of_mappings _ _ Hmeta1), orb_true_r.
        + now apply (grows_store _ _ _ _ Hla1).
      - exists (set_heap w h1). split; [reflexivity |].
        split; [exact Hw1 | apply grows_refl]. }
    fold h1.
    rewrite bind_assoc. rewrite (bind_ok _ _ _ _ _ Htruthy).
    rewrite bind_assoc. rewrite (bind_ok _ _ _ _ _ Hstep).
    rewrite (bind_ok (ret (results ++ [PRef la])) _ w2 _ w2 eq_refl).
    assert (grows (heap w) (heap w2)) as Hg by (now apply (grows_trans _ h1)).
    destruct (IH (results ++ [PRef la]) w2 Hw2 (is_mapping_grows _ _ _ Hg Hmeta)
                (forallb_is_mapping_grows _ _ _ Hg Hitems))
      as (rs & w' & Hrun & Hw' & Hg').
    rewrite Hty in Hrun.
    exists rs, w'. split; [exact Hrun |]. split; [exact Hw' |].
    now apply (grows_trans _ (heap w2)).
Qed.

(** One step of [extract_from_list] on a store of tasks: it goes through and
    leaves a store of tasks, or it raises the structural error. *)
Lemma extract_candidate_cases (E : environment) (candidates : list string)
    (block : pyval) (results : list pyval) (c : string) (w : world) :
  task_lists candidates (heap w) = true ->
  in_store (heap w) block = true ->
  str_in c candidates = true ->
  dict_has BLOCK_NAME_TO_ACTION_TYPE_MAP c = true ->
  (exists rs w', extract_candidate E block results c w = (Ok rs, w')
                 /\ task_lists candidates (heap w') = true
                 /\ grows (heap w) (heap w'))
  \/ (exists e w', extract_candidate E block results c w = (Raise e, w')
                   /\ structural_error candidates e).
Proof.
  intros Hw Hblock Hc Hknown.
  assert (extract_candidate E block results c w = (Ok results, w) ->
          exists rs w', extract_candidate E block results c w = (Ok rs, w')
                        /\ task_lists candidates (heap w') = true
                        /\ grows (heap w) (heap w')) as Hskip.
  { intros Hrun. exists results, w. split; [exact Hrun |].
    split; [exact Hw | apply grows_refl]. }
  unfold dict_has in Hknown.
  destruct (dict_get BLOCK_NAME_TO_ACTION_TYPE_MAP c) as [ty|] eqn:Hty; [|discriminate].
  destruct block as [| | | |lb]; try (left; apply Hskip; reflexivity).
  cbn in Hblock. destruct (heap w !! lb) as [[d|items]|] eqn:Hlb; try discriminate.
  2:{ left. apply Hskip. unfold extract_candidate, obj_dict. cbn [bind].
      now rewrite (load_ok _ _ _ Hlb). }
  assert (extract_candidate E (PRef lb) results c w
          = match dict_get d c with
            | Some x =>
                (items <- obj_list x ;;
                 match items with
                 | Some _ =>
                     meta_data <- alloc (ODict (fold_left dict_remove
                       [c; "__line__"; "__file__"; "__ansible_action_type__"] d)) ;;
                     rs <- add_action_type x c (PRef meta_data) ;;
                     ret (results ++ rs)
                 | None =>
                     match x with
                     | PNone => ret results
                     | _ =>
                         s <- obj_str E x ;;
                         raise (RuntimeError ("Key '" +:+ c
                           +:+ "' defined, but bad value: '" +:+ s +:+ "'"))
                     end
                 end) w
            | None => (Ok results, w)
            end) as Hunfold.
  { unfold extract_candidate, obj_dict. cbn [bind]. rewrite (load_ok _ _ _ Hlb).
    cbn [ret]. now destruct (dict_get d c). }
  pose proof (task_lists_lookup _ _ _ _ Hw Hlb) as Hd. cbn [object_ok] in Hd.
  destruct (dict_get d c) as [x|] eqn:Hx; [|left; now apply Hskip].
  pose proof (forallb_dict_get _ _ _ _ Hd Hx) as Hentry.
  unfold entry_ok in Hentry. cbn [fst snd] in Hentry. rewrite Hc in Hentry.
  cbn [negb orb] in Hentry. apply andb_prop in Hentry as [Hxin Hxlist].
  assert (In c candidates) as Hin.
  { unfold str_in in Hc. apply existsb_exists in Hc as (c' & Hin & Heq).
    apply String.eqb_eq in Heq. now subst c'. }
  assert (forall s, structural_error candidates
            (RuntimeError ("Key '" +:+ c +:+ "' defined, but bad value: '" +:+ s +:+ "'")))
    as Hstructural by (intros s; now exists c, s).
  destruct x as [|b|n|s|lx].
  - left. now apply Hskip.
  - right. eexists _, _. split; [rewrite Hunfold; reflexivity | apply Hstructural].
  - right. eexists _, _. split; [rewrite Hunfold; reflexivity | apply Hstructural].
  - right. eexists _, _. split; [rewrite Hunfold; reflexivity | apply Hstructural].
  - cbn in Hxin, Hxlist.
    destruct (heap w !! lx) as [[dx|xs]|] eqn:Hlx; try discriminate.
    + right. eexists _, _. split; [|apply Hstructural].
      rewrite Hunfold. unfold obj_list. cbn [bind]. rewrite (load_ok _ _ _ Hlx).
      reflexivity.
    + left.
      assert (obj_list (PRef lx) w = (Ok (Some xs), w)) as Hobjlist.
      { unfold obj_list. cbn [bind]. now rewrite (load_ok _ _ _ Hlx). }
      set (meta := fold_left dict_remove
                     [c; "__line__"; "__file__"; "__ansible_action_type__"] d) in *.
      set (h1 := heap w ++ [ODict meta]).
      assert (grows (heap w) h1) as Hg1 by apply grows_app.
      assert (task_lists candidates h1 = true) as Hw1.
      { apply task_lists_app; [exact Hw |]. subst meta. cbn [fold_left].
        now repeat apply forallb_dict_remove. }
      assert (is_mapping h1 (PRef (length (heap w))) = true) as Hmeta.
      { cbn. subst h1. now rewrite lookup_app_r, Nat.sub_diag by lia. }
      assert (h1 !! lx = Some (OList xs)) as Hlx1 by (apply (Hg1 lx _ Hlx)).
      destruct (add_action_type_loop_ok candidates c ty (PRef (length (heap w))) xs []
                  (set_heap w h1) Hty Hw1 Hmeta
                  (forallb_is_mapping_grows _ _ _ Hg1 Hxlist))
        as (rs & w' & Hrun & Hw' & Hg').
      assert (add_action_type (PRef lx) c (PRef (length (heap w))) (set_heap w h1)
              = (Ok rs, w')) as Hadd.
      { unfold add_action_type.
        assert (obj_iter (PRef lx) (set_heap w h1) = (Ok xs, set_heap w h1)) as Hiter.
        { unfold obj_iter. cbn [bind].
          now rewrite (load_ok lx (OList xs) (set_heap w h1) Hlx1). }
        now rewrite (bind_ok _ _ _ _ _ Hiter). }
      exists (results ++ rs), w'. split; [|split; [exact Hw' |]].
      * rewrite Hunfold. rewrite (bind_ok _ _ _ _ _ Hobjlist).
        rewrite (bind_ok (alloc (ODict meta)) _ w (length (heap w)) (set_heap w h1)
                   eq_refl).
        now rewrite (bind_ok _ _ _ _ _ Hadd).
      * now apply (grows_trans _ h1).
Qed.

(** A loop over steps that go through and keep [I], or raise an error of
    the kind [P] *)
Lemma foldM_cases (I : list pyobj -> Prop) (P : exn -> Prop) {A S}
    (f : S -> A -> M S) (l : list A) :
  (forall acc x w, In x l -> I (heap w) ->
     (exists acc' w', f acc x w = (Ok acc', w') /\ I (heap w'))
     \/ (exists e w', f acc x w = (Raise e, w') /\ P e)) ->
  forall acc w, I (heap w) ->
    (exists acc' w', foldM f l acc w = (Ok acc', w') /\ I (heap w'))
    \/ (exists e w', foldM f l acc w = (Raise e, w') /\ P e).
Proof.
  induction l as [|x l IH]; intros Hstep acc w Hw.
  - left. now exists acc, w.
  - cbn [foldM].
    destruct (Hstep acc x w (or_introl eq_refl) Hw)
      as [(acc' & w1 & Hrun & Hw1)|(e & w1 & Hrun & He)].
    + rewrite (bind_ok _ _ _ _ _ Hrun). apply IH; [|exact Hw1].
      intros acc0 x0 w0 Hin. apply Hstep. now right.
    + right. exists e, w1. now rewrite (bind_raise _ _ _ _ _ Hrun).
Qed.

Lemma foldM_raises_kind (I : list pyobj -> Prop) (P : exn -> Prop) {A S}
    (f : S -> A -> M S) (l : list A) (x0 : A) :
  In x0 l ->
  (forall acc x w, In x l -> I (heap w) ->
     (exists acc' w', f acc x w = (Ok acc', w') /\ I (heap w'))
     \/ (exists e w', f acc x w = (Raise e, w') /\ P e)) ->
  (forall acc w, I (heap w) -> exists e w', f acc x0 w = (Raise e, w') /\ P e) ->
  forall acc w, I (heap w) -> exists e w', foldM f l acc w = (Raise e, w') /\ P e.
Proof.
  induction l as [|x l IH]; intros Hin Hstep Hraise acc w Hw; [destruct Hin |].
  cbn [foldM].
  destruct (Hstep acc x w (or_introl eq_refl) Hw)
    as [(acc' & w1 & Hrun & Hw1)|(e & w1 & Hrun & He)].
  - rewrite (bind_ok _ _ _ _ _ Hrun). destruct Hin as [->|Hin].
    + destruct (Hraise acc w Hw) as (e & w' & He & _). congruence.
    + apply IH; [exact Hin | | exact Hraise | exact Hw1].
      intros acc0 x1 w0 Hin1. apply Hstep. now right.
  - exists e, w1. now rewrite (bind_raise _ _ _ _ _ Hrun).
Qed.

Lemma str_in_In (k : string) (l : list string) : In k l -> str_in k l = true.
Proof.
  intros H. unfold str_in. apply existsb_exists. exists k.
  split; [exact H | apply String.eqb_refl].
Qed.

(** One step of [extract_from_list] on a store of tasks that holds the bad
    value *)
Lemma extract_candidate_step (E : environment) (blocks : list pyval)
    (candidates : list string) (l : nat) (c : string) (block : pyval)
    (results : list pyval) (candidate : string) (w : world) :
  let I h := holds_bad_value l c h
             /\ task_lists candidates h = true
             /\ Forall (fun b => in_store h b = true) blocks in
  forallb (dict_has BLOCK_NAME_TO_ACTION_TYPE_MAP) candidates = true ->
  In block blocks ->
  In candidate candidates ->
  I (heap w) ->
  (exists rs w', extract_candidate E block results candidate w = (Ok rs, w')
                 /\ I (heap w'))
  \/ (exists e w', extract_candidate E block results candidate w = (Raise e, w')
                   /\ structural_error candidates e).
Proof.
  intros I Hknown Hblock Hcandidate (Hbad & Hw & Hblocks).
  pose proof (keeps_extract_candidate E l c block results candidate w Hbad) as Hkeep.
  rewrite Forall_forall in Hblocks.
  rewrite forallb_forall in Hknown.
  destruct (extract_candidate_cases E candidates block results candidate w Hw
              (Hblocks _ (proj2 (list_elem_of_In _ _) Hblock))
              (str_in_In _ _ Hcandidate) (Hknown _ Hcandidate))
    as [(rs & w' & Hrun & Hw' & Hg)|Hraise]; [left | now right].
  exists rs, w'. rewrite Hrun in Hkeep. cbn [snd] in Hkeep.
  split; [exact Hrun |]. split; [exact Hkeep |]. split; [exact Hw' |].
  apply Forall_forall. intros b Hb. apply (in_store_grows _ _ _ Hg). now apply Hblocks.
Qed.

(** C8, as the code has it.  Let an entry of [blocks] be a mapping that
    holds, under one of the candidate keys ([block], [rescue], [always] in
    [action_tasks]), a value that is neither a list nor [None].  The step of
    [extract_from_list] at that entry and key raises the [RuntimeError]
    "Key ... defined, but bad value", and [extract_from_list] never returns a
    result: it raises.  What it raises is a structural error, for this key or
    for one met before it, whenever the store is a store of tasks (the items
    of the lists under the candidate keys are mappings) and the candidate
    keys are block names; without that, tagging an item that is no mapping
    can raise first. *)
Theorem extract_from_list_bad_value (E : environment) (blocks : list pyval)
    (candidates : list string) (l : nat) (c : string)
    (d : list (string * pyval)) (x : pyval) (results : list pyval) (w : world) :
  In (PRef l) blocks ->
  In c candidates ->
  heap w !! l = Some (ODict d) ->
  dict_get d c = Some x ->
  bad_value (heap w) x = true ->
  extract_candidate E (PRef l) results c w
  = (Raise (RuntimeError ("Key '" +:+ c +:+ "' defined, but bad value: '"
                          +:+ str_of_pyval E (heap w) x +:+ "'")), w)
  /\ (exists e w', extract_from_list E blocks candidates w = (Raise e, w'))
  /\ (task_lists candidates (heap w) = true ->
      forallb (in_store (heap w)) blocks = true ->
      forallb (dict_has BLOCK_NAME_TO_ACTION_TYPE_MAP) candidates = true ->
      exists e w', extract_from_list E blocks candidates w = (Raise e, w')
                   /\ structural_error candidates e).
Proof.
  intros Hblock Hcand Hl Hc Hbad.
  split; [now apply (extract_candidate_bad_value E l c d x) |].
  split.
  - unfold extract_from_list.
    apply (foldM_raises (holds_bad_value l c) _ blocks (PRef l) Hblock).
    + intros acc block. apply keeps_foldM. intros acc' candidate.
      apply keeps_extract_candidate.
    + intros acc w0 Hw0.
      apply (foldM_raises (holds_bad_value l c) _ candidates c Hcand).
      * intros acc' candidate. apply keeps_extract_candidate.
      * intros acc' w1 (d1 & x1 & Hl1 & Hc1 & Hbad1).
        eexists _, _. now apply (extract_candidate_bad_value E l c d1 x1).
      * exact Hw0.
    + now exists d, x.
  - intros Htasks Hblocks Hknown. unfold extract_from_list.
    set (I := fun h => holds_bad_value l c h
                       /\ task_lists candidates h = true
                       /\ Forall (fun b => in_store h b = true) blocks).
    apply (foldM_raises_kind I (structural_error candidates) _ blocks (PRef l) Hblock).
    + intros acc block w0 Hin Hw0.
      apply (foldM_cases I (structural_error candidates)); [|exact Hw0].
      intros acc' candidate w1 Hin' Hw1.
      now apply (extract_candidate_step E blocks candidates l c).
    + intros acc w0 Hw0.
      apply (foldM_raises_kind I (structural_error candidates) _ candidates c Hcand); [| |exact Hw0].
      * intros acc' candidate w1 Hin' Hw1.
        now apply (extract_candidate_step E blocks candidates l c).
      * intros acc' w1 ((d1 & x1 & Hl1 & Hc1 & Hbad1) & _).
        eexists _, _. split; [now apply (extract_candidate_bad_value E l c d1 x1) |].
        eexists _, _. split; [exact Hcand | reflexivity].
    + split; [now exists d, x |]. split; [exact Htasks |].
      now apply forallb_Forall_true.
Qed.

Lemma extract_from_list_bad_value_witness :
  let w := mkWorld [ ODict [("debug", PStr "msg=a"); ("tags", PRef 3)];
                     OList [PRef 0];
                     ODict [("block", PRef 1); ("rescue", PStr "oops")];
                     OList [PStr "t1"] ] [] [] in
  extract_candidate Sample.env (PRef 2) [] "rescue" w
  = (Raise (RuntimeError "Key 'rescue' defined, but bad value: 'oops'"), w)
  /\ (exists e w',
        extract_from_list Sample.env [PRef 2] ["block"; "rescue"; "always"] w
        = (Raise e, w'))
  /\ (exists e w',
        extract_from_list Sample.env [PRef 2] ["block"; "rescue"; "always"] w
        = (Raise e, w')
        /\ structural_error ["block"; "rescue"; "always"] e).
Proof.
  destruct (extract_from_list_bad_value Sample.env [PRef 2]
              ["block"; "rescue"; "always"] 2 "rescue"
              [("block", PRef 1); ("rescue", PStr "oops")] (PStr "oops") []
              (mkWorld [ ODict [("debug", PStr "msg=a"); ("tags", PRef 3)];
                         OList [PRef 0];
                         ODict [("block", PRef 1); ("rescue", PStr "oops")];
                         OList [PStr "t1"] ] [] []))
    as (Hstep & Hraises & Hkind).
  - now left.
  - right. now left.
  - reflexivity.
  - reflexivity.
  - reflexivity.
  - split; [exact Hstep |]. split; [exact Hraises |].
    apply Hkind; reflexivity.
Defined.

(** C8 as stated fails.  The entry holds the string [oops] under [rescue],
    which is neither a list nor [None]; the list under [block], which comes
    first, has an item that is no mapping, and [extract_from_list] raises the
    [TypeError] of the item assignment in [add_action_type], not the
    structural error. *)
Lemma extract_from_list_bad_value_counterexample :
  let entry := [("block", PRef 0); ("rescue", PStr "oops")] in
  let w := mkWorld [OList [PStr "x"]; ODict entry] [] [] in
  heap w !! 1 = Some (ODict entry)
  /\ dict_get entry "rescue" = Some (PStr "oops")
  /\ bad_value (heap w) (PStr "oops") = true
  /\ extract_from_list Sample.env [PRef 1] ["block"; "rescue"; "always"] w
     = (Raise TypeError,
        mkWorld [OList [PStr "x"]; ODict entry; ODict [("rescue", PStr "oops")]] [] [])
  /\ ~ structural_error ["block"; "rescue"; "always"] TypeError.
Proof.
  cbv zeta. repeat (split; [reflexivity |]).
  intros (c & s & _ & H). discriminate.
Qed.

(** ** [Standard.__init__], again *)

Lemma Standard_init_run (E : environment) (l : nat)
    (d : list (string * pyval)) (w : world) :
  heap w !! l = Some (ODict d) ->
  let formatted :=
    match dict_get d "id" with
    | Some old => "[" +:+ str_of_pyval E (heap w) old +:+ "] "
    | None => ""
    end in
  let field k := match dict_get d k with Some x => x | None => PNone end in
  Standard.__init__ E (PRef l) w
  = (Ok (Standard.mk (PStr formatted) (field "name") (field "version")
           (field "check") (field "types")),
     set_heap w (<[l := ODict (dict_set d "id" (PStr formatted))]> (heap w))).
Proof.
  intros Hl formatted field.
  assert (forall x, obj_update1 (PRef l) "id" x w
                    = (Ok tt, set_heap w (<[l := ODict (dict_set d "id" x)]> (heap w))))
    as Hupd by (intros x; now apply obj_update1_dict).
  assert (forall x, heap (set_heap w (<[l := ODict (dict_set d "id" x)]> (heap w))) !! l
                    = Some (ODict (dict_set d "id" x)))
    as Hl' by (intros x; rewrite heap_set_heap; now apply (lookup_replaced _ _ _ _ Hl)).
  assert (forall x w', heap w' !! l = Some (ODict (dict_set d "id" (PStr x))) ->
            (self_id <- obj_get (PRef l) "id" PNone ;;
             self_name <- obj_get (PRef l) "name" PNone ;;
             self_version <- obj_get (PRef l) "version" PNone ;;
             self_check <- obj_get (PRef l) "check" PNone ;;
             self_types <- obj_get (PRef l) "types" PNone ;;
             ret (Standard.mk self_id self_name self_version self_check self_types)) w'
            = (Ok (Standard.mk (PStr x) (field "name") (field "version")
                     (field "check") (field "types")), w')) as Hread.
  { intros x w' Hw'. cbn [bind]. rewrite !(obj_get_dict _ _ _ _ _ Hw').
    rewrite dict_get_set_eq. rewrite !dict_get_set_ne by discriminate. reflexivity. }
  unfold Standard.__init__.
  rewrite (bind_ok _ _ _ _ _ (obj_in_dict "id" _ _ _ Hl)).
  unfold dict_has, formatted. destruct (dict_get d "id") as [old|] eqn:Hid; cbn [negb].
  - rewrite (bind_ok _ _ w tt
               (set_heap w (<[l := ODict (dict_set d "id"
                  (PStr ("[" +:+ str_of_pyval E (heap w) old +:+ "] ")))]> (heap w)))).
    + apply Hread, Hl'.
    + rewrite (bind_ok _ _ _ _ _ (obj_get_dict "id" PNone _ _ _ Hl)). rewrite Hid.
      unfold obj_str. cbn [bind]. apply Hupd.
  - rewrite (bind_ok _ _ _ _ _ (Hupd (PStr ""))). apply Hread, Hl'.
Qed.

Lemma dict_set_set_eq {A} (d : list (string * A)) (k : string) (a b : A) :
  dict_set (dict_set d k a) k b = dict_set d k b.
Proof.
  induction d as [|[k' v] d IH]; cbn [dict_set].
  - now rewrite String.eqb_refl.
  - destruct (String.eqb k' k) eqn:Hk; cbn [dict_set]; rewrite Hk;
      [reflexivity | now rewrite IH].
Qed.

(** X16: [Standard.__init__] is not idempotent on the dictionary it is
    given: a second object built from the same dictionary finds the id the
    first one wrote back and wraps it once more. *)
Theorem Standard_init_twice (E : environment) (l : nat)
    (d : list (string * pyval)) (w : world) :
  heap w !! l = Some (ODict d) ->
  let first :=
    match dict_get d "id" with
    | Some old => "[" +:+ str_of_pyval E (heap w) old +:+ "] "
    | None => ""
    end in
  exists a b w',
    (a <- Standard.__init__ E (PRef l) ;;
     b <- Standard.__init__ E (PRef l) ;;
     ret (a, b)) w = (Ok (a, b), w')
    /\ Standard.id a = PStr first
    /\ Standard.id b = PStr ("[" +:+ first +:+ "] ")
    /\ heap w' !! l
       = Some (ODict (dict_set d "id" (PStr ("[" +:+ first +:+ "] ")))).
Proof.
  intros Hl first.
  pose proof (Standard_init_run E l d w Hl) as H1. cbv zeta in H1. fold first in H1.
  set (w1 := set_heap w (<[l := ODict (dict_set d "id" (PStr first))]> (heap w))) in *.
  assert (heap w1 !! l = Some (ODict (dict_set d "id" (PStr first)))) as Hl1
    by (cbn; now apply (lookup_replaced _ _ _ _ Hl)).
  pose proof (Standard_init_run E l _ w1 Hl1) as H2. cbv zeta in H2.
  rewrite dict_get_set_eq in H2. cbn [str_of_pyval] in H2.
  eexists _, _, _. split.
  - rewrite (bind_ok _ _ _ _ _ H1), (bind_ok _ _ _ _ _ H2). reflexivity.
  - split; [reflexivity |]. split; [reflexivity |].
    cbn [heap set_heap w1].
    rewrite list_insert_insert_eq.
    rewrite (lookup_replaced _ _ _ _ Hl). now rewrite dict_set_set_eq.
Qed.

Lemma Standard_init_twice_witness :
  exists a b w',
    (a <- Standard.__init__ Sample.env (PRef 0) ;;
     b <- Standard.__init__ Sample.env (PRef 0) ;;
     ret (a, b)) (mkWorld [ODict [("id", PStr "LINT1")]] [] []) = (Ok (a, b), w')
    /\ Standard.id a = PStr "[LINT1] "
    /\ Standard.id b = PStr "[[LINT1] ] "
    /\ heap w' !! 0 = Some (ODict [("id", PStr "[[LINT1] ] ")]).
Proof.
  apply (Standard_init_twice Sample.env 0 [("id", PStr "LINT1")]
           (mkWorld [ODict [("id", PStr "LINT1")]] [] [])).
  reflexivity.
Defined.

(** X17: on a value that is not a mapping [Standard.__init__] raises
    ([TypeError] for [None], a number or a boolean, [AttributeError] for a
    string or a list) and changes nothing. *)
Theorem Standard_init_not_a_mapping (E : environment) (standard_dict : pyval)
    (w : world) :
  obj_dict standard_dict w = (Ok None, w) ->
  exists e, Standard.__init__ E standard_dict w = (Raise e, w)
    /\ (e = TypeError \/ e = AttributeError).
Proof.
  intros Hd. unfold Standard.__init__.
  assert (obj_entries standard_dict w = (Raise AttributeError, w)) as Hentries
    by (unfold obj_entries; now rewrite (bind_ok _ _ _ _ _ Hd)).
  assert (forall k x, obj_update1 standard_dict k x w = (Raise AttributeError, w)) as Hupd
    by (intros; unfold obj_update1; now rewrite (bind_raise _ _ _ _ _ Hentries)).
  assert (forall k x, obj_get standard_dict k x w = (Raise AttributeError, w)) as Hget
    by (intros; unfold obj_get; now rewrite (bind_raise _ _ _ _ _ Hentries)).
  pose proof (pure_obj_in "id" standard_dict w) as Hpure.
  destruct (obj_in "id" standard_dict w) as [[has|e] w1] eqn:Hin;
    cbn [snd] in Hpure; subst w1.
  - exists AttributeError. split; [|now right].
    rewrite (bind_ok _ _ _ _ _ Hin).
    destruct has; cbn [negb].
    + now rewrite (bind_raise _ _ w AttributeError w);
        [|rewrite (bind_raise _ _ _ _ _ (Hget _ _))].
    + now rewrite (bind_raise _ _ _ _ _ (Hupd _ _)).
  - exists e. split; [now rewrite (bind_raise _ _ _ _ _ Hin) |].
    destruct standard_dict as [| | | |l]; cbn in Hin; try (injection Hin as <-; now left);
      try discriminate.
    unfold obj_dict, load in Hd. cbn [bind] in Hd, Hin. unfold load in Hin.
    destruct (heap w !! l) as [[d|items]|]; cbn in Hd, Hin; discriminate.
Qed.

Lemma Standard_init_not_a_mapping_witness :
  exists e, Standard.__init__ Sample.env (PRef 0) (mkWorld [OList [PStr "id"]] [] [])
            = (Raise e, mkWorld [OList [PStr "id"]] [] [])
    /\ (e = TypeError \/ e = AttributeError).
Proof.
  apply (Standard_init_not_a_mapping Sample.env (PRef 0) (mkWorld [OList [PStr "id"]] [] [])).
  reflexivity.
Defined.

(** ** [rolename] *)

Lemma prefix_nil (s : string) : String.prefix "" s = true.
Proof. now destruct s. Qed.

Lemma find_from_none (sub s : string) (i : Z) :
  PyStr.contains sub s = false -> PyText.find_from sub s i = (-1)%Z.
Proof.
  revert i. induction s as [|c s IH]; intros i; cbn [PyStr.contains PyText.find_from];
    destruct (String.prefix sub _); try discriminate; [reflexivity | apply IH].
Qed.

Lemma find_from_at (sub s : string) (i : Z) :
  String.prefix sub s = true -> PyText.find_from sub s i = i.
Proof. intros H. destruct s; cbn [PyText.find_from]; now rewrite H. Qed.

(** The first occurrence is at the end of [pre] when [sub] starts there and
    at no earlier place. *)
Lemma find_from_app (sub pre t : string) (i : Z) :
  String.prefix sub t = true ->
  (forall a b, pre = a +:+ b -> b <> "" -> String.prefix sub (b +:+ t) = false) ->
  PyText.find_from sub (pre +:+ t) i = (i + Z.of_nat (String.length pre))%Z.
Proof.
  intros Ht. revert i. induction pre as [|c pre IH]; intros i Hearlier.
  - cbn [String.length]. rewrite Z.add_0_r. now apply find_from_at.
  - change (String c pre +:+ t) with (String c (pre +:+ t)).
    cbn [PyText.find_from].
    change (String c (pre +:+ t)) with (String c pre +:+ t) at 1.
    rewrite (Hearlier "" (String c pre) eq_refl) by discriminate.
    rewrite IH.
    + cbn [String.length]. lia.
    + intros a b -> Hb. apply (Hearlier (String c a) b); [reflexivity | exact Hb].
Qed.

Lemma find_char_app (c : ascii) (a t : string) (i : Z) :
  PyStr.contains (String c "") a = false ->
  PyText.find_from (String c "") (a +:+ String c t) i
  = (i + Z.of_nat (String.length a))%Z.
Proof.
  intros Ha. apply find_from_app.
  - cbn. destruct (ascii_dec c c); [apply prefix_nil | congruence].
  - intros x b -> Hb. destruct b as [|y b]; [congruence |].
    assert (PyStr.contains (String c "") (String y b) = false) as Hyb.
    { clear Hb. induction x as [|z x IH]; [exact Ha |].
      apply IH. change (String z x +:+ String y b) with (String z (x +:+ String y b)) in Ha.
      cbn [PyStr.contains] in Ha.
      now destruct (String.prefix (String c "") (String z (x +:+ String y b))). }
    cbn [PyStr.contains] in Hyb.
    change (String y b +:+ String c t) with (String y (b +:+ String c t)).
    cbn [String.prefix] in Hyb |- *.
    destruct (ascii_dec c y); [|reflexivity].
    now rewrite prefix_nil in Hyb.
Qed.

Lemma append_cons (c : ascii) (a b : string) :
  String c a +:+ b = String c (a +:+ b).
Proof. reflexivity. Qed.

Lemma append_nil_l (b : string) : "" +:+ b = b.
Proof. reflexivity. Qed.

Lemma append_assoc (a b c : string) : (a +:+ b) +:+ c = a +:+ (b +:+ c).
Proof.
  induction a as [|x a IH]; [reflexivity |]. rewrite !append_cons. now rewrite IH.
Qed.

Lemma length_append (a b : string) :
  String.length (a +:+ b) = String.length a + String.length b.
Proof.
  induction a as [|c a IH]; [reflexivity |].
  rewrite append_cons. cbn [String.length]. now rewrite IH.
Qed.

Lemma substring_all (s : string) : String.substring 0 (String.length s) s = s.
Proof. induction s as [|c s IH]; cbn; [reflexivity | now rewrite IH]. Qed.

Lemma substring_head (a b : string) :
  String.substring 0 (String.length a) (a +:+ b) = a.
Proof.
  induction a as [|c a IH].
  - rewrite append_nil_l. now destruct b.
  - rewrite append_cons. cbn [String.length String.substring]. now rewrite IH.
Qed.

Lemma substring_tail (a b : string) (n : nat) :
  String.substring (String.length a) n (a +:+ b) = String.substring 0 n b.
Proof.
  induction a as [|c a IH]; [reflexivity |].
  rewrite append_cons. cbn [String.length String.substring]. exact IH.
Qed.

Lemma slice_from_app (a b : string) :
  PyText.slice_from (a +:+ b) (Z.of_nat (String.length a)) = b.
Proof.
  unfold PyText.slice_from, PyText.bound. rewrite length_append.
  assert ((Z.of_nat (String.length a) <? 0)%Z = false) as -> by (apply Z.ltb_ge; lia).
  replace (Z.to_nat _) with (String.length a) by lia.
  rewrite substring_tail.
  replace (String.length a + String.length b - String.length a) with (String.length b)
    by lia.
  apply substring_all.
Qed.

Lemma slice_to_app (a b : string) :
  PyText.slice_to (a +:+ b) (Z.of_nat (String.length a)) = a.
Proof.
  unfold PyText.slice_to, PyText.bound. rewrite length_append.
  assert ((Z.of_nat (String.length a) <? 0)%Z = false) as -> by (apply Z.ltb_ge; lia).
  replace (Z.to_nat _) with (String.length a) by lia.
  apply substring_head.
Qed.

(** X18: a path without [roles/] has the empty role name. *)
Theorem rolename_without_roles (filepath : string) :
  PyStr.contains "roles/" filepath = false -> rolename filepath = "".
Proof.
  intros H. unfold rolename, PyText.find. now rewrite (find_from_none _ _ _ H).
Qed.

Lemma rolename_without_roles_witness : rolename "/pb/site.yml" = "".
Proof. apply rolename_without_roles. reflexivity. Defined.

(** X19: the role name is what stands between the first [roles/] of the
    path and the next slash. *)
Theorem rolename_of_role_file (pre name rest : string) :
  PyText.find "roles/" (pre +:+ "roles/" +:+ name +:+ "/" +:+ rest)
  = Z.of_nat (String.length pre) ->
  PyStr.contains "/" name = false ->
  rolename (pre +:+ "roles/" +:+ name +:+ "/" +:+ rest) = name.
Proof.
  intros Hfirst Hname. unfold rolename. rewrite Hfirst.
  assert ((Z.of_nat (String.length pre) <? 0)%Z = false) as -> by (apply Z.ltb_ge; lia).
  assert (PyText.slice_from (pre +:+ "roles/" +:+ name +:+ "/" +:+ rest)
            (Z.of_nat (String.length pre) + 6) = name +:+ "/" +:+ rest) as ->.
  { change (pre +:+ "roles/" +:+ name +:+ "/" +:+ rest)
      with (pre +:+ ("roles/" +:+ (name +:+ "/" +:+ rest))).
    replace (pre +:+ ("roles/" +:+ (name +:+ "/" +:+ rest)))
      with ((pre +:+ "roles/") +:+ (name +:+ "/" +:+ rest)).
    - replace (Z.of_nat (String.length pre) + 6)%Z
        with (Z.of_nat (String.length (pre +:+ "roles/")))
        by (rewrite length_append; cbn; lia).
      apply slice_from_app.
    - apply append_assoc. }
  unfold PyText.find.
  change (name +:+ "/" +:+ rest) with (name +:+ String "/" rest).
  rewrite (find_char_app "/" name rest 0 Hname). rewrite Z.add_0_l.
  apply slice_to_app.
Qed.

Lemma rolename_of_role_file_witness :
  rolename ("/pb/" +:+ "roles/" +:+ "web" +:+ "/" +:+ "tasks/main.yml") = "web".
Proof.
  apply (rolename_of_role_file "/pb/" "web" "tasks/main.yml"); reflexivity.
Defined.

(** X20: when nothing follows the role name, not even a slash, the name
    loses its last character: [find] returns [-1], and the slice ends one
    character before the end. *)
Theorem rolename_without_trailing_slash (pre name : string) :
  PyText.find "roles/" (pre +:+ "roles/" +:+ name) = Z.of_nat (String.length pre) ->
  PyStr.contains "/" name = false ->
  rolename (pre +:+ "roles/" +:+ name)
  = String.substring 0 (String.length name - 1) name.
Proof.
  intros Hfirst Hname. unfold rolename. rewrite Hfirst.
  assert ((Z.of_nat (String.length pre) <? 0)%Z = false) as -> by (apply Z.ltb_ge; lia).
  assert (PyText.slice_from (pre +:+ "roles/" +:+ name)
            (Z.of_nat (String.length pre) + 6) = name) as ->.
  { replace (pre +:+ "roles/" +:+ name) with ((pre +:+ "roles/") +:+ name).
    - replace (Z.of_nat (String.length pre) + 6)%Z
        with (Z.of_nat (String.length (pre +:+ "roles/")))
        by (rewrite length_append; cbn; lia).
      apply slice_from_app.
    - apply append_assoc. }
  unfold PyText.find. rewrite (find_from_none _ _ _ Hname).
  unfold PyText.slice_to, PyText.bound. cbn [Z.ltb Z.compare].
  f_equal. lia.
Qed.

Lemma rolename_without_trailing_slash_witness :
  rolename ("/pb/" +:+ "roles/" +:+ "web") = "we".
Proof.
  apply (rolename_without_trailing_slash "/pb/" "web"); reflexivity.
Defined.

(** ** [_kv_to_dict] *)

Lemma tokenize_args_kwargs (tokens : list string) (nonkvfound : bool)
    (args args' : list string) (kwargs kwargs' : list (string * string)) (w w' : world) :
  tokenize_args tokens nonkvfound args kwargs w = (Ok (args', kwargs'), w') ->
  NoDup (dict_keys kwargs) -> NoDup (dict_keys kwargs').
Proof.
  revert nonkvfound args kwargs.
  induction tokens as [|arg tokens IH]; intros nonkvfound args kwargs H Hkw.
  - injection H as _ <- _. exact Hkw.
  - cbn [tokenize_args] in H.
    destruct (PyStr.contains "=" arg && negb nonkvfound); [|now apply (IH _ _ _ H)].
    destruct (PyStr.split_once "=" arg) as [|kv0 [|kv1 kv]]; try discriminate.
    apply (IH _ _ _ H). now apply dict_set_NoDup.
Qed.

Lemma dict_keys_map_values {A B} (f : A -> B) (d : list (string * A)) :
  dict_keys (map (fun kv => (fst kv, f (snd kv))) d) = dict_keys d.
Proof. unfold dict_keys. rewrite map_map. reflexivity. Qed.

Lemma dict_get_map_values {A B} (f : A -> B) (d : list (string * A)) (k : string) :
  dict_get (map (fun kv => (fst kv, f (snd kv))) d) k = option_map f (dict_get d k).
Proof.
  induction d as [|[k' v] d IH]; cbn; [reflexivity |].
  now destruct (String.eqb k' k).
Qed.

(** X21: whenever [_kv_to_dict] returns, the record is a dictionary with
    distinct keys whose [__ansible_module__] is the command word of the line
    and whose other fields are the keyword arguments; a keyword argument named
    [__ansible_module__] or [__ansible_arguments__] does not overwrite the
    field: the call raises [TypeError]. *)
Theorem kv_to_dict_record (v : string) (w w' : world) (command : string)
    (args : list string) (kwargs : list (string * string)) :
  tokenize v w = (Ok (command, args, kwargs), w') ->
  if dict_has kwargs "__ansible_module__" || dict_has kwargs "__ansible_arguments__"
  then _kv_to_dict v w = (Raise TypeError, w)
  else exists d,
         _kv_to_dict v w = (Ok (VDict d), w)
         /\ NoDup (dict_keys d)
         /\ dict_get d "__ansible_module__" = Some (VStr command)
         /\ dict_get d "__ansible_arguments__" = Some (VList (map VStr args))
         /\ forall k x, dict_get kwargs k = Some x -> dict_get d k = Some (VStr x).
Proof.
  intros Htok.
  assert (w' = w) as ->.
  { pose proof (pure_tokenize v w) as H. now rewrite Htok in H. }
  assert (NoDup (dict_keys kwargs)) as Hnodup.
  { unfold tokenize in Htok.
    apply bind_ok_inv in Htok as (t0 & w1 & _ & Htok).
    apply bind_ok_inv in Htok as (t1 & w2 & _ & Htok).
    apply bind_ok_inv in Htok as (t2 & w3 & _ & Htok).
    apply bind_ok_inv in Htok as ([args' kwargs'] & w4 & Hargs & Htok).
    injection Htok as _ <- <- _. cbn [snd].
    apply (tokenize_args_kwargs _ _ _ _ _ _ _ _ Hargs). constructor. }
  unfold _kv_to_dict. rewrite (bind_ok _ _ _ _ _ Htok). cbn [fst snd].
  destruct (dict_has kwargs "__ansible_module__") eqn:Hm; [reflexivity |].
  destruct (dict_has kwargs "__ansible_arguments__") eqn:Ha; [reflexivity |].
  cbn [orb]. eexists. split; [reflexivity |].
  unfold dict_has in Hm, Ha.
  destruct (dict_get kwargs "__ansible_module__") eqn:Hm'; [discriminate |].
  destruct (dict_get kwargs "__ansible_arguments__") eqn:Ha'; [discriminate |].
  split; [|split; [reflexivity | split; [reflexivity |]]].
  - cbn [app dict_keys map fst]. fold (dict_keys (map (fun kv => (fst kv, VStr (snd kv))) kwargs)).
    rewrite dict_keys_map_values.
    apply dict_get_None_keys in Hm', Ha'.
    apply NoDup_cons. split.
    + rewrite list_elem_of_In. cbn. intros [H|H]; [discriminate | tauto].
    + apply NoDup_cons. split; [now rewrite list_elem_of_In | exact Hnodup].
  - intros k x Hk. cbn [app dict_get].
    destruct (String.eqb_spec "__ansible_module__" k) as [<-|_]; [congruence |].
    destruct (String.eqb_spec "__ansible_arguments__" k) as [<-|_]; [congruence |].
    rewrite dict_get_map_values, Hk. reflexivity.
Qed.

Lemma kv_to_dict_record_witness :
  (exists d,
     _kv_to_dict "copy src=a dest=b x" Sample.empty = (Ok (VDict d), Sample.empty)
     /\ NoDup (dict_keys d)
     /\ dict_get d "__ansible_module__" = Some (VStr "copy")
     /\ dict_get d "__ansible_arguments__" = Some (VList (map VStr ["x"]))
     /\ forall k x, dict_get [("src", "a"); ("dest", "b")] k = Some x ->
                    dict_get d k = Some (VStr x))
  /\ _kv_to_dict "copy __ansible_module__=x" Sample.empty = (Raise TypeError, Sample.empty).
Proof.
  split.
  - apply (kv_to_dict_record "copy src=a dest=b x" Sample.empty Sample.empty
             "copy" ["x"] [("src", "a"); ("dest", "b")]).
    reflexivity.
  - apply (kv_to_dict_record "copy __ansible_module__=x" Sample.empty Sample.empty
             "copy" [] [("__ansible_module__", "x")]).
    reflexivity.
Defined.

(** ** [normalized_yaml] *)

(** The lines appended to [removes] are the lines that meet one of the three
    conditions, each once: no line meets two of them. *)
Lemma removes_filter (m e : bool) (lines : list (nat * string)) :
  flat_map (fun il =>
    (if PyStr.startswith "#" (PyText.strip (snd il)) then [il] else [])
    ++ (if m && String.eqb (PyText.strip (snd il)) "---" then [il] else [])
    ++ (if e && String.eqb (PyText.strip (snd il)) "" then [il] else [])) lines
  = List.filter (fun il =>
      PyStr.startswith "#" (PyText.strip (snd il))
      || m && String.eqb (PyText.strip (snd il)) "---"
      || e && String.eqb (PyText.strip (snd il)) "") lines.
Proof.
  induction lines as [|il lines IH]; [reflexivity |].
  cbn [flat_map List.filter]. rewrite IH. f_equal.
  destruct (String.eqb (PyText.strip (snd il)) "---") eqn:Hmarker.
  { apply String.eqb_eq in Hmarker. rewrite Hmarker. now destruct m, e. }
  destruct (String.eqb (PyText.strip (snd il)) "") eqn:Hempty.
  { apply String.eqb_eq in Hempty. rewrite Hempty. now destruct m, e. }
  rewrite !andb_false_r, !orb_false_r.
  now destruct (PyStr.startswith "#" (PyText.strip (snd il))).
Qed.

Lemma list_remove_head (x : nat * string) (lines : list (nat * string)) :
  list_remove x (x :: lines) = Some lines.
Proof. cbn. now rewrite Nat.eqb_refl, String.eqb_refl. Qed.

Lemma list_remove_later (x y : nat * string) (lines : list (nat * string)) :
  fst y <> fst x ->
  list_remove x (y :: lines) = option_map (cons y) (list_remove x lines).
Proof.
  intros Hne. cbn [list_remove]. apply Nat.eqb_neq in Hne. now rewrite Hne.
Qed.

Lemma remove_all_skip (y : nat * string) (removes : list (nat * string))
    (acc : option (list (nat * string))) :
  Forall (fun x => fst y <> fst x) removes ->
  fold_left (fun acc line => match acc with
                             | Some ls => list_remove line ls
                             | None => None
                             end) removes (option_map (cons y) acc)
  = option_map (cons y)
      (fold_left (fun acc line => match acc with
                                  | Some ls => list_remove line ls
                                  | None => None
                                  end) removes acc).
Proof.
  intros Hne. revert acc. induction Hne as [|x removes Hx _ IH]; intros acc;
    [reflexivity |].
  cbn [fold_left]. destruct acc as [ls|]; cbn [option_map].
  - rewrite (list_remove_later x y ls Hx). apply IH.
  - apply (IH None).
Qed.

(** Removing, one after the other, the lines that a predicate selects leaves
    the lines it does not select, when no two lines have the same number. *)
Lemma remove_all_filter (removed : nat * string -> bool) (lines : list (nat * string)) :
  NoDup (map fst lines) ->
  fold_left (fun acc line => match acc with
                             | Some ls => list_remove line ls
                             | None => None
                             end) (List.filter removed lines) (Some lines)
  = Some (List.filter (fun il => negb (removed il)) lines).
Proof.
  induction lines as [|y lines IH]; intros Hnodup; [reflexivity |].
  cbn [map] in Hnodup. apply NoDup_cons in Hnodup as [Hy Hnodup].
  cbn [List.filter]. destruct (removed y); cbn [negb fold_left].
  - rewrite list_remove_head. now apply IH.
  - change (Some (y :: lines)) with (option_map (cons y) (Some lines)).
    rewrite remove_all_skip.
    + now rewrite (IH Hnodup).
    + apply Forall_forall. intros x Hx Heq.
      apply list_elem_of_In, filter_In in Hx as [Hx _].
      apply Hy. rewrite Heq. apply list_elem_of_In, in_map, Hx.
Qed.

Lemma enumerate_from_fst (i : nat) (content : list string) :
  map fst (enumerate_from i content) = seq i (length content).
Proof.
  revert i. induction content as [|x content IH]; intros i; cbn; [reflexivity |].
  now rewrite IH.
Qed.

Lemma enumerate_from_lookup (i : nat) (content : list string) (n : nat) (line : string) :
  In (n, line) (enumerate_from i content) ->
  i <= n /\ content !! (n - i) = Some line.
Proof.
  revert i. induction content as [|x content IH]; intros i H; [destruct H |].
  cbn in H. destruct H as [H|H].
  - injection H as <- <-. split; [lia |]. now rewrite Nat.sub_diag.
  - destruct (IH _ H) as [Hle Hn]. split; [lia |].
    replace (n - i) with (S (n - S i)) by lia. exact Hn.
Qed.

Lemma normalized_yaml_kept (content : list string) (options : list (string * value)) :
  let opt k := match dict_get options k with
               | Some v => py_truthy v
               | None => false
               end in
  normalized_yaml content options
  = Some (List.filter
            (fun il =>
               negb (PyStr.startswith "#" (PyText.strip (snd il))
                     || opt "remove_markers" && String.eqb (PyText.strip (snd il)) "---"
                     || opt "remove_empty" && String.eqb (PyText.strip (snd il)) ""))
            (enumerate_from 1 content)).
Proof.
  intros opt. unfold normalized_yaml, yaml_removes. cbv zeta. fold opt.
  rewrite removes_filter.
  apply (remove_all_filter
           (fun il => PyStr.startswith "#" (PyText.strip (snd il))
                      || opt "remove_markers" && String.eqb (PyText.strip (snd il)) "---"
                      || opt "remove_empty" && String.eqb (PyText.strip (snd il)) "")).
  rewrite enumerate_from_fst. apply NoDup_ListNoDup, seq_NoDup.
Qed.

(** X22: on a file of ASCII characters, [normalized_yaml] never fails in
    [lines.remove], and what it returns are the numbered lines of the file,
    in order, without the lines that are only a comment, without the document
    markers when [remove_markers] is set and without the blank lines when
    [remove_empty] is set. *)
Theorem normalized_yaml_filter (content : list string) (options : list (string * value)) :
  Forall (fun line => PyStr.is_ascii line = true) content ->
  let opt k := match dict_get options k with
               | Some v => py_truthy v
               | None => false
               end in
  normalized_yaml content options
  = Some (List.filter
            (fun il =>
               negb (PyStr.startswith "#" (PyText.strip (snd il))
                     || opt "remove_markers" && String.eqb (PyText.strip (snd il)) "---"
                     || opt "remove_empty" && String.eqb (PyText.strip (snd il)) ""))
            (enumerate_from 1 content)).
Proof.
  intros _ opt. unfold normalized_yaml, yaml_removes. cbv zeta. fold opt.
  rewrite removes_filter.
  apply (remove_all_filter
           (fun il => PyStr.startswith "#" (PyText.strip (snd il))
                      || opt "remove_markers" && String.eqb (PyText.strip (snd il)) "---"
                      || opt "remove_empty" && String.eqb (PyText.strip (snd il)) "")).
  rewrite enumerate_from_fst. apply NoDup_ListNoDup, seq_NoDup.
Qed.

Lemma normalized_yaml_filter_witness :
  normalized_yaml ["---"; "  # comment"; "a: 1"; "   "; "b: 2 # kept"]
    [("remove_markers", VBool true); ("remove_empty", VBool true)]
  = Some [(3, "a: 1"); (5, "b: 2 # kept")].
Proof.
  apply (normalized_yaml_filter ["---"; "  # comment"; "a: 1"; "   "; "b: 2 # kept"]
           [("remove_markers", VBool true); ("remove_empty", VBool true)]).
  repeat constructor.
Defined.

(** X23: every pair that [normalized_yaml] returns carries the number the
    line has in the file, counted from one, and the line as it was read;
    removing lines renumbers nothing. *)
Theorem normalized_yaml_line_numbers (content : list string)
    (options : list (string * value)) (lines : list (nat * string))
    (n : nat) (line : string) :
  normalized_yaml content options = Some lines ->
  In (n, line) lines ->
  1 <= n /\ content !! (n - 1) = Some line
  /\ PyStr.startswith "#" (PyText.strip line) = false.
Proof.
  intros Hrun Hin. rewrite normalized_yaml_kept in Hrun. cbv zeta in Hrun.
  injection Hrun as <-. apply filter_In in Hin as [Hin Hkept].
  destruct (enumerate_from_lookup _ _ _ _ Hin) as [Hle Hline].
  split; [exact Hle |]. split; [exact Hline |].
  cbn [snd] in Hkept. apply negb_true_iff in Hkept.
  now destruct (PyStr.startswith "#" (PyText.strip line)).
Qed.

Lemma normalized_yaml_line_numbers_witness :
  1 <= 3 /\ ["---"; "# comment"; "a: 1"; ""; "b: 2"] !! (3 - 1) = Some "a: 1"
  /\ PyStr.startswith "#" (PyText.strip "a: 1") = false.
Proof.
  apply (normalized_yaml_line_numbers ["---"; "# comment"; "a: 1"; ""; "b: 2"]
           [("remove_markers", VBool true)] [(3, "a: 1"); (4, ""); (5, "b: 2")]).
  - reflexivity.
  - now left.
Defined.

(** ** [add_action_type] *)

Lemma obj_setitem_inv (a : pyval) (k : string) (v : pyval) (w w' : world) :
  obj_setitem a k v w = (Ok tt, w') ->
  exists l d, a = PRef l /\ heap w !! l = Some (ODict d)
    /\ w' = set_heap w (<[l := ODict (dict_set d k v)]> (heap w)).
Proof.
  unfold obj_setitem. destruct a as [| | | |l]; try discriminate.
  unfold load. cbn [bind].
  destruct (heap w !! l) as [[d|items]|] eqn:Hl; try discriminate.
  cbn. intros H. injection H as <-. now exists l, d.
Qed.

Lemma tagged_store (ty : string) (l : nat) (h : list pyobj) (a : nat)
    (da : list (string * pyval)) (k : string) (v : pyval) :
  tagged ty l h ->
  h !! a = Some (ODict da) ->
  (k = "__ansible_action_type__" -> v = PStr ty) ->
  tagged ty l (<[a := ODict (dict_set da k v)]> h).
Proof.
  intros (d & Hl & Hty) Ha Hk.
  destruct (decide (a = l)) as [->|Hne].
  - rewrite Hl in Ha. injection Ha as <-.
    exists (dict_set d k v). split; [now apply (lookup_replaced _ _ _ _ Hl) |].
    destruct (String.eqb_spec k "__ansible_action_type__") as [->|Hne].
    + rewrite (Hk eq_refl). apply dict_get_set_eq.
    + now rewrite dict_get_set_ne.
  - exists d. split; [now rewrite list_lookup_insert_ne | exact Hty].
Qed.

(** One iteration of the loop of [add_action_type]: the action joins the
    results, it is tagged, and the actions tagged before stay tagged. *)
Lemma add_action_type_step (action_type ty : string) (action_meta : pyval)
    (results acc : list pyval) (action : pyval) (w w' : world) :
  dict_get BLOCK_NAME_TO_ACTION_TYPE_MAP action_type = Some ty ->
  (ty0 <- match dict_get BLOCK_NAME_TO_ACTION_TYPE_MAP action_type with
          | Some ty0 => ret ty0
          | None => raise (KeyError action_type)
          end ;;
   obj_setitem action "__ansible_action_type__" (PStr ty0) ;;
   has_meta <- obj_truthy action_meta ;;
   (if (has_meta : bool)
    then obj_setitem action "__ansible_action_meta__" action_meta
    else ret tt) ;;
   ret (results ++ [action])) w = (Ok acc, w') ->
  acc = results ++ [action]
  /\ (exists l, action = PRef l /\ tagged ty l (heap w'))
  /\ forall l, tagged ty l (heap w) -> tagged ty l (heap w').
Proof.
  intros Hty H. rewrite Hty in H.
  apply bind_ok_inv in H as (ty0 & w0 & Hret & H). injection Hret as <- <-.
  apply bind_ok_inv in H as ([] & w1 & Hset & H).
  destruct (obj_setitem_inv _ _ _ _ _ Hset) as (l & d & -> & Hl & ->).
  apply bind_ok_inv in H as (has_meta & w2 & Htruthy & H).
  pose proof (pure_obj_truthy action_meta
                (set_heap w (<[l := ODict (dict_set d "__ansible_action_type__" (PStr ty))]>
                               (heap w)))) as Hpure.
  rewrite Htruthy in Hpure. cbn [snd] in Hpure. subst w2.
  apply bind_ok_inv in H as ([] & w3 & Hmeta & H). injection H as <- <-.
  assert (tagged ty l (<[l := ODict (dict_set d "__ansible_action_type__" (PStr ty))]>
                         (heap w))) as Htag1.
  { exists (dict_set d "__ansible_action_type__" (PStr ty)).
    split; [now apply (lookup_replaced _ _ _ _ Hl) | apply dict_get_set_eq]. }
  assert (forall l0, tagged ty l0 (heap w) ->
            tagged ty l0 (<[l := ODict (dict_set d "__ansible_action_type__" (PStr ty))]>
                            (heap w))) as Hkeep1
    by (intros l0 H0; now apply tagged_store).
  split; [reflexivity |].
  destruct has_meta.
  - destruct (obj_setitem_inv _ _ _ _ _ Hmeta) as (l' & d' & Heq & Hl' & ->).
    injection Heq as <-. cbn [heap set_heap] in *.
    split.
    + exists l. split; [reflexivity |]. apply tagged_store; [exact Htag1 | exact Hl' | discriminate].
    + intros l0 H0. apply tagged_store; [now apply Hkeep1 | exact Hl' | discriminate].
  - injection Hmeta as <-. cbn [heap set_heap]. split; [now exists l | exact Hkeep1].
Qed.

Lemma add_action_type_loop (action_type ty : string) (action_meta : pyval)
    (items results rs : list pyval) (w w' : world) :
  dict_get BLOCK_NAME_TO_ACTION_TYPE_MAP action_type = Some ty ->
  foldM (fun results action =>
           ty0 <- match dict_get BLOCK_NAME_TO_ACTION_TYPE_MAP action_type with
                  | Some ty0 => ret ty0
                  | None => raise (KeyError action_type)
                  end ;;
           obj_setitem action "__ansible_action_type__" (PStr ty0) ;;
           has_meta <- obj_truthy action_meta ;;
           (if (has_meta : bool)
            then obj_setitem action "__ansible_action_meta__" action_meta
            else ret tt) ;;
           ret (results ++ [action])) items results w = (Ok rs, w') ->
  rs = results ++ items
  /\ Forall (fun a => exists l, a = PRef l /\ tagged ty l (heap w')) items
  /\ forall l, tagged ty l (heap w) -> tagged ty l (heap w').
Proof.
  intros Hty. revert results w.
  induction items as [|action items IH]; intros results w H.
  - injection H as <- <-. rewrite app_nil_r. repeat split; [constructor | auto].
  - cbn [foldM] in H. apply bind_ok_inv in H as (acc & w1 & Hstep & H).
    destruct (add_action_type_step _ _ _ _ _ _ _ _ Hty Hstep) as (-> & (l & -> & Hl) & Hkeep).
    destruct (IH _ _ H) as (-> & Hall & Hkeep').
    split; [now rewrite <- app_assoc |]. split; [|auto].
    constructor; [exists l; split; [reflexivity | now apply Hkeep'] | exact Hall].
Qed.

(** X24: when [add_action_type] returns, the actions it returns are the
    items of the list it was given, the same objects in the same order, and
    in the store it leaves each of them is a mapping whose
    [__ansible_action_type__] is the type the block name maps to, also when
    one object occurs several times or occurs in its own metadata. *)
Theorem add_action_type_tags (actions : pyval)
    (action_type ty : string) (action_meta : pyval) (w w' : world) (rs : list pyval) :
  dict_get BLOCK_NAME_TO_ACTION_TYPE_MAP action_type = Some ty ->
  add_action_type actions action_type action_meta w = (Ok rs, w') ->
  obj_iter actions w = (Ok rs, w)
  /\ Forall (fun a => exists l d, a = PRef l /\ heap w' !! l = Some (ODict d)
                        /\ dict_get d "__ansible_action_type__" = Some (PStr ty)) rs.
Proof.
  intros Hty H. unfold add_action_type in H.
  apply bind_ok_inv in H as (items & w1 & Hiter & H).
  pose proof (pure_obj_iter actions w) as Hpure. rewrite Hiter in Hpure.
  cbn [snd] in Hpure. subst w1.
  destruct (add_action_type_loop _ _ _ _ _ _ _ _ Hty H) as (-> & Hall & _).
  cbn [app]. split; [exact Hiter |].
  eapply Forall_impl; [exact Hall |].
  intros a (l & -> & d & Hl & Hd). now exists l, d.
Qed.

Lemma add_action_type_tags_witness :
  let w := mkWorld [ODict [("debug", PStr "msg=a")]; OList [PRef 0; PRef 0]] [] [] in
  let w' := mkWorld [ODict [("debug", PStr "msg=a");
                            ("__ansible_action_type__", PStr "handler")];
                     OList [PRef 0; PRef 0]] [] [] in
  obj_iter (PRef 1) w = (Ok [PRef 0; PRef 0], w)
  /\ Forall (fun a => exists l d, a = PRef l /\ heap w' !! l = Some (ODict d)
                        /\ dict_get d "__ansible_action_type__" = Some (PStr "handler"))
            [PRef 0; PRef 0].
Proof.
  apply (add_action_type_tags (PRef 1) "handlers" "handler" PNone
           (mkWorld [ODict [("debug", PStr "msg=a")]; OList [PRef 0; PRef 0]] [] [])
           (mkWorld [ODict [("debug", PStr "msg=a");
                            ("__ansible_action_type__", PStr "handler")];
                     OList [PRef 0; PRef 0]] [] [])); reflexivity.
Defined.

(** X25: [add_action_type] with a block name that is not in the map raises
    [KeyError] before it changes anything, unless there is nothing to tag:
    for an empty list it returns the empty list. *)
Theorem add_action_type_unknown_type (actions : pyval)
    (action_type : string) (action_meta : pyval) (items : list pyval) (w : world) :
  dict_get BLOCK_NAME_TO_ACTION_TYPE_MAP action_type = None ->
  obj_iter actions w = (Ok items, w) ->
  add_action_type actions action_type action_meta w
  = match items with
    | [] => (Ok [], w)
    | _ :: _ => (Raise (KeyError action_type), w)
    end.
Proof.
  intros Hty Hiter. unfold add_action_type.
  rewrite (bind_ok _ _ _ _ _ Hiter).
  destruct items as [|action items]; [reflexivity |].
  cbn [foldM bind]. now rewrite Hty.
Qed.

Lemma add_action_type_unknown_type_witness :
  add_action_type (PRef 0) "roles" PNone (mkWorld [OList [PRef 1]; ODict []] [] [])
  = (Raise (KeyError "roles"), mkWorld [OList [PRef 1]; ODict []] [] []).
Proof.
  apply (add_action_type_unknown_type (PRef 0) "roles" PNone [PRef 1]
           (mkWorld [OList [PRef 1]; ODict []] [] [])); reflexivity.
Defined.

(** ** [extract_from_list] with nothing to extract *)

Lemma extract_candidate_nothing (E : environment) (block : pyval)
    (results : list pyval) (c : string) (w : world) :
  nothing_under (heap w) block c = true ->
  extract_candidate E block results c w = (Ok results, w).
Proof.
  unfold nothing_under, extract_candidate, obj_dict.
  destruct block as [| | | |l]; try reflexivity.
  unfold load. cbn [bind].
  destruct (heap w !! l) as [[d|items]|]; try discriminate; [|reflexivity].
  cbn [ret]. destruct (dict_get d c) as [[]|]; try discriminate; reflexivity.
Qed.

(** X26: when no block holds anything but [None] under a candidate key
    (blocks that are not mappings count as holding nothing),
    [extract_from_list] returns the empty list and changes nothing: no
    metadata is built, no entry is tagged. *)
Theorem extract_from_list_nothing (E : environment) (blocks : list pyval)
    (candidates : list string) (w : world) :
  Forall (fun block =>
            forallb (nothing_under (heap w) block) candidates = true) blocks ->
  extract_from_list E blocks candidates w = (Ok [], w).
Proof.
  intros Hblocks. unfold extract_from_list. generalize (@nil pyval) as results.
  induction Hblocks as [|block blocks Hblock _ IH]; intros results; [reflexivity |].
  cbn [foldM].
  assert (foldM (extract_candidate E block) candidates results w = (Ok results, w)) as Hin.
  { clear IH. induction candidates as [|c candidates IHc]; [reflexivity |].
    cbn [forallb] in Hblock. apply andb_prop in Hblock as [Hc Hrest].
    cbn [foldM]. rewrite (bind_ok _ _ _ _ _ (extract_candidate_nothing E _ _ _ _ Hc)).
    now apply IHc. }
  rewrite (bind_ok _ _ _ _ _ Hin). apply IH.
Qed.

Lemma extract_from_list_nothing_witness :
  let w := mkWorld [ODict [("hosts", PStr "all"); ("tasks", PNone)];
                    OList [PRef 0]] [] [] in
  extract_from_list Sample.env [PRef 0; PStr "x"; PRef 1]
    ["tasks"; "handlers"; "pre_tasks"; "post_tasks"] w = (Ok [], w).
Proof.
  apply (extract_from_list_nothing Sample.env [PRef 0; PStr "x"; PRef 1]
           ["tasks"; "handlers"; "pre_tasks"; "post_tasks"]
           (mkWorld [ODict [("hosts", PStr "all"); ("tasks", PNone)];
                     OList [PRef 0]] [] [])).
  repeat constructor.
Defined.

(** ** What [normalize_task] leaves alone *)

Lemma heap_only_pure {A} (m : M A) : pure m -> heap_only m.
Proof. intros H w. exists (heap w). now rewrite H, set_heap_same. Qed.

Lemma heap_only_bind {A B} (m : M A) (k : A -> M B) :
  heap_only m -> (forall a, heap_only (k a)) -> heap_only (bind m k).
Proof.
  intros Hm Hk w. destruct (Hm w) as [h Hh]. cbn [bind].
  destruct (m w) as [[a|e] w1]; cbn [snd] in *; subst w1.
  - destruct (Hk a (set_heap w h)) as [h' Hh']. exists h'.
    now rewrite Hh', set_heap_set_heap.
  - now exists h.
Qed.

Lemma heap_only_alloc (o : pyobj) : heap_only (alloc o).
Proof. intros w. now exists (heap w ++ [o]). Qed.

Lemma heap_only_parse_task (E : environment) (entries : list (string * pyval)) :
  heap_only (parse_task E entries).
Proof.
  intros w. exists (heap w). unfold parse_task.
  destruct (ModuleArgsParser_parse E (heap w) (BUILTIN_TASKS w) entries);
    cbn [snd]; now rewrite set_heap_same.
Qed.

Lemma heap_only_normalized_record (E : environment) (task filename : pyval)
    (meta : task_meta) (parsed : parsed_action) :
  heap_only (normalized_record task filename meta parsed).
Proof.
  unfold normalized_record.
  apply heap_only_bind; [apply heap_only_pure, pure_obj_entries | intros items].
  apply heap_only_bind.
  { destruct (dict_get _ "_raw_params") as [[]|];
      apply heap_only_pure; first [apply pure_ret | apply pure_raise]. }
  intros raw.
  apply heap_only_bind; [apply heap_only_alloc | intros raw_list].
  apply heap_only_bind; [apply heap_only_alloc | intros action_dict].
  do 3 (apply heap_only_bind; [apply heap_only_pure, pure_restore_meta | intros ?]).
  apply heap_only_bind; [apply heap_only_alloc | intros; apply heap_only_pure, pure_ret].
Qed.

(** [normalize_task] on a mapping, up to the call of the grammar *)
Lemma normalize_task_to_grammar (E : environment) (l : nat) (d : list (string * pyval))
    (filename : pyval) (custom_modules : option (list string)) (w : world) :
  heap w !! l = Some (ODict d) ->
  let stripped := fold_left dict_remove bookkeeping_keys d in
  let meta := mkMeta (match dict_get d "__ansible_action_type__" with
                      | Some x => x
                      | None => PStr "task"
                      end)
                (dict_get d "__line__") (dict_get d "__file__")
                (dict_get d "__ansible_action_meta__") in
  let w1 := mkWorld (<[l := ODict stripped]> (heap w)) (module_dirs w)
              (merge_names (BUILTIN_TASKS w)
                 (match custom_modules with Some c => c | None => [] end)) in
  normalize_task E (PRef l) filename custom_modules w
  = (parsed <- parse_task E stripped ;;
     normalized_record (PRef l) filename meta parsed) w1.
Proof.
  intros Hl stripped meta w1.
  assert (heap w1 !! l = Some (ODict stripped)) as Hl1
    by (cbn; now apply (lookup_replaced _ _ _ _ Hl)).
  unfold normalize_task.
  rewrite (bind_ok _ _ _ _ _ (take_metadata_dict _ _ _ Hl)).
  rewrite (bind_ok _ _ _ _ _ (register_custom_modules_run _ _)).
  rewrite (bind_ok _ _ _ _ _ (obj_entries_ok _ _ _ Hl1)).
  reflexivity.
Qed.

(** X27: whether it returns or raises, a call of [normalize_task] on a task
    that is a mapping changes no object of the store other than the task
    (what it builds is new), leaves the module directories alone, and leaves
    [BUILTIN_TASKS] as the old names together with the custom modules, each
    name once: the global registry is changed for good, also by a call that
    fails. *)
Theorem normalize_task_footprint (E : environment) (l : nat)
    (d : list (string * pyval)) (filename : pyval)
    (custom_modules : option (list string)) (w : world) :
  heap w !! l = Some (ODict d) ->
  let w' := snd (normalize_task E (PRef l) filename custom_modules w) in
  (forall l' o, l' <> l -> heap w !! l' = Some o -> heap w' !! l' = Some o)
  /\ module_dirs w' = module_dirs w
  /\ BUILTIN_TASKS w'
     = merge_names (BUILTIN_TASKS w)
         (match custom_modules with Some c => c | None => [] end)
  /\ NoDup (BUILTIN_TASKS w').
Proof.
  intros Hl w'. subst w'. rewrite (normalize_task_to_grammar E _ _ _ _ _ Hl).
  set (w1 := mkWorld _ _ _).
  set (m := bind _ _).
  assert (framed m) as Hframed.
  { apply framed_bind; [apply framed_parse_task |].
    intros p. apply framed_normalized_record. exact E. }
  assert (heap_only m) as Honly.
  { apply heap_only_bind; [apply heap_only_parse_task |].
    intros p. apply heap_only_normalized_record. exact E. }
  destruct (Honly w1) as [h Hh]. split; [|rewrite Hh; cbn; repeat split].
  - intros l' o Hne Hl'. apply Hframed. subst w1. cbn [heap].
    now rewrite list_lookup_insert_ne.
  - unfold merge_names. apply NoDup_remove_dups.
Qed.

Lemma normalize_task_footprint_witness :
  let w := mkWorld [ODict [("name", PStr "x"); ("__line__", PInt 3)];
                    OList [PStr "keep"]] ["library"] ["copy"] in
  let w' := snd (normalize_task Sample.env (PRef 0) (PStr "x.yml")
                   (Some ["mymodule"; "copy"]) w) in
  (forall l' o, l' <> 0 -> heap w !! l' = Some o -> heap w' !! l' = Some o)
  /\ module_dirs w' = module_dirs w
  /\ BUILTIN_TASKS w' = merge_names (BUILTIN_TASKS w) ["mymodule"; "copy"]
  /\ NoDup (BUILTIN_TASKS w').
Proof.
  apply (normalize_task_footprint Sample.env 0
           [("name", PStr "x"); ("__line__", PInt 3)] (PStr "x.yml")
           (Some ["mymodule"; "copy"])
           (mkWorld [ODict [("name", PStr "x"); ("__line__", PInt 3)];
                     OList [PStr "keep"]] ["library"] ["copy"])).
  reflexivity.
Defined.

(** ** The record of [normalize_task], field by field *)

Lemma obj_entries_inv (l : nat) (items : list (string * pyval)) (w w' : world) :
  obj_entries (PRef l) w = (Ok items, w') -> heap w !! l = Some (ODict items) /\ w' = w.
Proof.
  unfold obj_entries, obj_dict, load. cbn [bind].
  destruct (heap w !! l) as [[d|xs]|]; cbn; intros H; inversion H. now split.
Qed.

Lemma obj_truthy_in (x : pyval) (b : bool) (w w' : world) (more : list pyobj) :
  obj_truthy x w = (Ok b, w') -> w' = w /\ truthy_in (heap w ++ more) x = b.
Proof.
  destruct x as [| | | |l]; cbn; try (intros H; inversion H; now split).
  unfold load. destruct (heap w !! l) as [o|] eqn:Hl; cbn; [|discriminate].
  intros H. injection H as Hb Hw. subst b w'. split; [reflexivity |].
  unfold truthy_in. rewrite (lookup_app_l_Some _ more _ _ Hl). now destruct o as [[]|[]].
Qed.

(** What goes back into the record for a popped value, read in a store that
    extends the one of the call *)
Lemma restore_meta_truthy (normalized normalized' : list (string * pyval)) (k : string)
    (v : option pyval) (w w' : world) (more : list pyobj) :
  restore_meta normalized k v w = (Ok normalized', w') ->
  w' = w
  /\ normalized' = match v with
                   | Some x => if truthy_in (heap w ++ more) x
                               then dict_set normalized k x else normalized
                   | None => normalized
                   end.
Proof.
  destruct v as [x|]; cbn [restore_meta].
  - intros H. apply bind_ok_inv in H as (b & w1 & Hb & H).
    destruct (obj_truthy_in _ _ _ _ more Hb) as [-> ->]. now inversion H.
  - intros H. now inversion H.
Qed.

(** [normalized_record], when it returns, step by step: the two objects of
    the action and the record are the three objects added to the store. *)
Lemma normalized_record_inv (l : nat) (filename : pyval) (meta : task_meta)
    (parsed : parsed_action) (w w' : world) (r : pyval) :
  normalized_record (PRef l) filename meta parsed w = (Ok r, w') ->
  let args1 := if dict_has (parsed_arguments parsed) "_uses_shell"
               then dict_remove (parsed_arguments parsed) "_uses_shell"
               else parsed_arguments parsed in
  let h := heap w in
  let A := dict_update [("__ansible_module__", PStr (resolved_module parsed));
                        ("__ansible_arguments__", PRef (length h))]
             (dict_remove args1 "_raw_params") in
  exists items raw N1 N2 N3,
    heap w !! l = Some (ODict items)
    /\ match dict_get args1 "_raw_params" with
       | Some (PStr s) => raw = map PStr (PyStr.split_ws s)
       | Some _ => False
       | None => raw = []
       end
    /\ (let w2 := set_heap w (h ++ [OList raw; ODict A]) in
        let N0 := dict_set
                    (dict_set
                       (dict_set
                          (pass_through (resolved_module parsed) items
                             [("delegate_to", parsed_delegate_to parsed)])
                          "action" (PRef (S (length h))))
                       "__file__" filename)
                    "__ansible_action_type__" (ansible_action_type meta) in
        restore_meta N0 "__line__" (meta_line meta) w2 = (Ok N1, w2)
        /\ restore_meta N1 "__file__" (meta_file meta) w2 = (Ok N2, w2)
        /\ restore_meta N2 "__ansible_action_meta__" (meta_action_meta meta) w2
           = (Ok N3, w2))
    /\ r = PRef (S (S (length h)))
    /\ w' = set_heap w (h ++ [OList raw; ODict A; ODict N3]).
Proof.
  intros H args1 h A. unfold normalized_record in H.
  apply bind_ok_inv in H as (items & w1 & Hitems & H).
  destruct (obj_entries_inv _ _ _ _ Hitems) as [Hl ->].
  apply bind_ok_inv in H as (raw & w1 & Hraw & H).
  fold args1 in Hraw, H. 
  assert (w1 = w /\ match dict_get args1 "_raw_params" with
                    | Some (PStr s) => raw = map PStr (PyStr.split_ws s)
                    | Some _ => False
                    | None => raw = []
                    end) as [-> Hrawv].
  { destruct (dict_get args1 "_raw_params") as [[]|]; inversion Hraw; now split. }
  clear Hraw.
  apply bind_ok_inv in H as (raw_list & w1 & Halloc1 & H).
  inversion Halloc1; subst raw_list w1; clear Halloc1.
  apply bind_ok_inv in H as (action_dict & w2 & Halloc2 & H).
  inversion Halloc2; subst action_dict w2; clear Halloc2.
  cbn [heap set_heap] in H. fold h in H. fold A in H.
  rewrite !set_heap_set_heap in H.
  replace (length (h ++ [OList raw])) with (S (length h)) in H
    by (rewrite length_app; cbn; lia).
  replace ((h ++ [OList raw]) ++ [ODict A]) with (h ++ [OList raw; ODict A]) in H
    by now rewrite <- app_assoc.
  apply bind_ok_inv in H as (N1 & w3 & Hr1 & H).
  destruct (restore_meta_inv _ _ _ _ _ _ Hr1) as [-> _].
  apply bind_ok_inv in H as (N2 & w4 & Hr2 & H).
  destruct (restore_meta_inv _ _ _ _ _ _ Hr2) as [-> _].
  apply bind_ok_inv in H as (N3 & w5 & Hr3 & H).
  destruct (restore_meta_inv _ _ _ _ _ _ Hr3) as [-> _].
  apply bind_ok_inv in H as (result & w6 & Halloc3 & H).
  inversion Halloc3; subst result w6; clear Halloc3.
  inversion H; subst r w'; clear H.
  exists items, raw, N1, N2, N3.
  split; [exact Hl |]. split; [exact Hrawv |].
  split; [repeat split; assumption |].
  cbn [heap set_heap]. rewrite set_heap_set_heap.
  split.
  - f_equal. rewrite length_app. cbn. lia.
  - f_equal. now rewrite <- app_assoc.
Qed.

Lemma normalize_task_inv (E : environment) (l : nat) (d : list (string * pyval))
    (filename : pyval) (custom_modules : option (list string)) (w w' : world)
    (r : pyval) :
  heap w !! l = Some (ODict d) ->
  normalize_task E (PRef l) filename custom_modules w = (Ok r, w') ->
  let stripped := fold_left dict_remove bookkeeping_keys d in
  let meta := mkMeta (match dict_get d "__ansible_action_type__" with
                      | Some x => x
                      | None => PStr "task"
                      end)
                (dict_get d "__line__") (dict_get d "__file__")
                (dict_get d "__ansible_action_meta__") in
  let w1 := mkWorld (<[l := ODict stripped]> (heap w)) (module_dirs w)
              (merge_names (BUILTIN_TASKS w)
                 (match custom_modules with Some c => c | None => [] end)) in
  exists parsed,
    ModuleArgsParser_parse E (heap w1) (BUILTIN_TASKS w1) stripped = AnsibleOk parsed
    /\ normalized_record (PRef l) filename meta parsed w1 = (Ok r, w').
Proof.
  intros Hl Hrun stripped meta w1.
  rewrite (normalize_task_to_grammar E _ _ _ _ _ Hl) in Hrun.
  apply bind_ok_inv in Hrun as (parsed & w2 & Hparse & Hrecord).
  unfold parse_task in Hparse.
  destruct (ModuleArgsParser_parse E _ _ _) as [p|msg] eqn:Hgrammar;
    inversion Hparse; subst p w2; clear Hparse.
  exists parsed. split; [reflexivity | exact Hrecord].
Qed.

Lemma lookup_new3 (h : list pyobj) (o0 o1 o2 : pyobj) :
  (h ++ [o0; o1; o2]) !! length h = Some o0
  /\ (h ++ [o0; o1; o2]) !! S (length h) = Some o1
  /\ (h ++ [o0; o1; o2]) !! S (S (length h)) = Some o2.
Proof.
  repeat split; rewrite lookup_app_r by lia.
  - now rewrite Nat.sub_diag.
  - now replace (S (length h) - length h) with 1 by lia.
  - now replace (S (S (length h)) - length h) with 2 by lia.
Qed.

Lemma dict_remove_NoDup {A} (d : list (string * A)) (k : string) :
  NoDup (dict_keys d) -> NoDup (dict_keys (dict_remove d k)).
Proof.
  unfold dict_keys, dict_remove.
  induction d as [|[k' v'] d IH]; cbn [List.filter map fst]; [auto |].
  intros Hd. apply NoDup_cons in Hd as [Hk' Hd].
  destruct (negb (String.eqb k' k)); cbn [map fst]; [|now apply IH].
  apply NoDup_cons. split; [|now apply IH].
  intros Hin. apply Hk'. apply list_elem_of_In in Hin. apply list_elem_of_In.
  apply in_map_iff in Hin as (kv & <- & Hkv). apply in_map.
  now apply List.filter_In in Hkv.
Qed.

(** [d.update(e)] for an [e] whose keys are distinct: the keys of [e] hold
    the values of [e]. *)
Lemma dict_get_update_present {A} (d e : list (string * A)) (k : string) (v : A) :
  NoDup (dict_keys e) -> dict_get e k = Some v -> dict_get (dict_update d e) k = Some v.
Proof.
  unfold dict_update. revert d.
  induction e as [|[k' v'] e IH]; intros d He Hget; [discriminate |].
  cbn [dict_keys map fst] in He. apply NoDup_cons in He as [Hk' He].
  cbn [fold_left fst snd]. cbn [dict_get] in Hget.
  destruct (String.eqb_spec k' k) as [->|Hne].
  - injection Hget as ->.
    change (dict_get (dict_update (dict_set d k v) e) k = Some v).
    rewrite dict_get_update_absent; [apply dict_get_set_eq |].
    apply dict_get_None_keys. intros Hin. apply Hk'. now apply list_elem_of_In.
  - now apply IH.
Qed.

(** X28: the arguments in the record of [normalize_task].  When the call
    returns, the [action] mapping of the record has neither [_uses_shell] nor
    [_raw_params]: these two markers of the grammar never reach the record.
    Every other argument the grammar returned is a field of the mapping, with
    its value.  Unless the grammar returned an argument of that very name,
    [__ansible_arguments__] is a list that was not in the store before the
    call; it is empty when there are no raw parameters, and for raw
    parameters of ASCII characters it holds their words, split at white
    space; raw parameters that are not a string do not let the call
    return. *)
Theorem normalize_task_arguments (E : environment) (l : nat)
    (d : list (string * pyval)) (filename : pyval)
    (custom_modules : option (list string)) (w w' : world) (r : pyval) :
  heap w !! l = Some (ODict d) ->
  normalize_task E (PRef l) filename custom_modules w = (Ok r, w') ->
  let stripped := fold_left dict_remove bookkeeping_keys d in
  exists parsed n N a A,
    ModuleArgsParser_parse E (<[l := ODict stripped]> (heap w))
      (merge_names (BUILTIN_TASKS w)
         (match custom_modules with Some c => c | None => [] end))
      stripped = AnsibleOk parsed
    /\ r = PRef n /\ heap w' !! n = Some (ODict N)
    /\ dict_get N "action" = Some (PRef a) /\ heap w' !! a = Some (ODict A)
    /\ dict_has A "_uses_shell" = false
    /\ dict_has A "_raw_params" = false
    /\ (NoDup (dict_keys (parsed_arguments parsed)) ->
        forall k v, k <> "_uses_shell" -> k <> "_raw_params" ->
          dict_get (parsed_arguments parsed) k = Some v -> dict_get A k = Some v)
    /\ (dict_has (parsed_arguments parsed) "__ansible_arguments__" = false ->
        exists words raw,
          dict_get A "__ansible_arguments__" = Some (PRef words)
          /\ heap w !! words = None
          /\ heap w' !! words = Some (OList raw)
          /\ match dict_get (parsed_arguments parsed) "_raw_params" with
             | Some (PStr s) =>
                 PyStr.is_ascii s = true -> raw = map PStr (PyStr.split_ws s)
             | Some _ => False
             | None => raw = []
             end).
Proof.
  intros Hl Hrun stripped.
  destruct (normalize_task_inv E _ _ _ _ _ _ _ Hl Hrun) as (parsed & Hgrammar & Hrecord).
  destruct (normalized_record_inv _ _ _ _ _ _ _ Hrecord)
    as (items & raw & N1 & N2 & N3 & _ & Hraw & (Hr1 & Hr2 & Hr3) & -> & ->).
  match goal with
  | |- context [set_heap _ (?h0 ++ [?o0; ?o1; ?o2])] =>
      destruct (lookup_new3 h0 o0 o1 o2) as (Hn0 & Hn1 & Hn2); set (h := h0) in *
  end.
  set (args := parsed_arguments parsed) in *.
  set (args1 := if dict_has args "_uses_shell"
                then dict_remove args "_uses_shell" else args) in *.
  set (A := dict_update _ (dict_remove args1 "_raw_params")) in *.
  assert (forall k, k <> "_uses_shell" ->
            dict_get args1 k = dict_get args k) as Hargs1.
  { intros k Hk. subst args1. destruct (dict_has args "_uses_shell");
      [now apply dict_get_remove_ne | reflexivity]. }
  assert (dict_get args1 "_uses_shell" = None) as Hshell.
  { subst args1. unfold dict_has.
    destruct (dict_get args "_uses_shell") eqn:Hget;
      [apply dict_get_remove_eq | exact Hget]. }
  exists parsed, (S (S (length h))), N3, (S (length h)), A.
  split; [exact Hgrammar |]. split; [reflexivity |].
  split; [exact Hn2 |].
  split.
  { rewrite (restore_meta_get _ _ _ _ _ _ _ Hr3), (restore_meta_get _ _ _ _ _ _ _ Hr2),
      (restore_meta_get _ _ _ _ _ _ _ Hr1) by discriminate.
    rewrite !dict_get_set_ne by discriminate. apply dict_get_set_eq. }
  split; [exact Hn1 |].
  split.
  { unfold dict_has. subst A. rewrite dict_get_update_absent; [reflexivity |].
    now rewrite dict_get_remove_ne by discriminate. }
  split.
  { unfold dict_has. subst A. rewrite dict_get_update_absent; [reflexivity |].
    apply dict_get_remove_eq. }
  split.
  { intros Hnodup k v Hk1 Hk2 Hget. subst A.
    apply dict_get_update_present.
    - apply dict_remove_NoDup. subst args1.
      destruct (dict_has args "_uses_shell"); [now apply dict_remove_NoDup | exact Hnodup].
    - rewrite dict_get_remove_ne by congruence. now rewrite Hargs1. }
  intros Hno. exists (length h), raw.
  split.
  { subst A. rewrite dict_get_update_absent; [reflexivity |].
    rewrite dict_get_remove_ne by discriminate. rewrite Hargs1 by discriminate.
    unfold dict_has in Hno. fold args in Hno.
    now destruct (dict_get args "__ansible_arguments__"). }
  split.
  { apply lookup_ge_None_2. subst h. cbn [heap]. rewrite length_insert. lia. }
  split; [exact Hn0 |].
  fold args. rewrite <- (Hargs1 "_raw_params") by discriminate.
  destruct (dict_get args1 "_raw_params") as [[| | |s|]|]; auto.
Qed.

Lemma normalize_task_arguments_witness :
  let d := [("shell", PStr "echo hi chdir=/tmp"); ("__line__", PInt 3)] in
  let stripped := [("shell", PStr "echo hi chdir=/tmp")] in
  let w := mkWorld [ODict d] [] [] in
  let w' := mkWorld
              [ ODict stripped;
                OList [PStr "echo"; PStr "hi"];
                ODict [("__ansible_module__", PStr "shell");
                       ("__ansible_arguments__", PRef 1);
                       ("chdir", PStr "/tmp")];
                ODict [("delegate_to", PNone); ("action", PRef 2);
                       ("__file__", PStr "x.yml");
                       ("__ansible_action_type__", PStr "task"); ("__line__", PInt 3)] ]
              [] [] in
  exists parsed n N a A,
    ModuleArgsParser_parse Sample.env [ODict stripped] [] stripped = AnsibleOk parsed
    /\ PRef 3 = PRef n /\ heap w' !! n = Some (ODict N)
    /\ dict_get N "action" = Some (PRef a) /\ heap w' !! a = Some (ODict A)
    /\ dict_has A "_uses_shell" = false
    /\ dict_has A "_raw_params" = false
    /\ (NoDup (dict_keys (parsed_arguments parsed)) ->
        forall k v, k <> "_uses_shell" -> k <> "_raw_params" ->
          dict_get (parsed_arguments parsed) k = Some v -> dict_get A k = Some v)
    /\ (dict_has (parsed_arguments parsed) "__ansible_arguments__" = false ->
        exists words raw,
          dict_get A "__ansible_arguments__" = Some (PRef words)
          /\ heap w !! words = None
          /\ heap w' !! words = Some (OList raw)
          /\ match dict_get (parsed_arguments parsed) "_raw_params" with
             | Some (PStr s) =>
                 PyStr.is_ascii s = true -> raw = map PStr (PyStr.split_ws s)
             | Some _ => False
             | None => raw = []
             end).
Proof.
  apply (normalize_task_arguments Sample.env 0
           [("shell", PStr "echo hi chdir=/tmp"); ("__line__", PInt 3)]
           (PStr "x.yml") None
           (mkWorld [ODict [("shell", PStr "echo hi chdir=/tmp");
                            ("__line__", PInt 3)]] [] [])).
  - reflexivity.
  - reflexivity.
Defined.

(** A field that the task does not have is not carried over. *)
Lemma pass_through_absent (action : string) (items normalized : list (string * pyval))
    (k : string) :
  dict_get items k = None ->
  dict_get (pass_through action items normalized) k = dict_get normalized k.
Proof.
  unfold pass_through. revert normalized.
  induction items as [|[k' v'] items IH]; intros normalized Hk; cbn [fold_left fst snd];
    [reflexivity |].
  cbn [dict_get] in Hk. destruct (String.eqb_spec k' k) as [->|Hne]; [discriminate |].
  rewrite (IH _ Hk).
  destruct (str_in k' ["action"; "local_action"; "args"; "delegate_to"]
            || String.eqb k' action); [reflexivity |].
  now apply dict_get_set_ne.
Qed.

(** X29: the bookkeeping fields of the record of [normalize_task].  When the
    call returns, the record's [__ansible_action_type__] is the one the task
    had, [task] when it had none.  Its [__file__] is the task's own
    [__file__] when that is a true value, and the [filename] argument
    otherwise: the argument is a default, the task's own field wins.
    [__line__] and [__ansible_action_meta__] are fields of the record exactly
    when the task had a true value for them, which the record then holds. *)
Theorem normalize_task_bookkeeping (E : environment) (l : nat)
    (d : list (string * pyval)) (filename : pyval)
    (custom_modules : option (list string)) (w w' : world) (r : pyval) :
  heap w !! l = Some (ODict d) ->
  normalize_task E (PRef l) filename custom_modules w = (Ok r, w') ->
  let restored k :=
    match dict_get d k with
    | Some x => if truthy_in (heap w') x then Some x else None
    | None => None
    end in
  exists n N,
    r = PRef n /\ heap w' !! n = Some (ODict N)
    /\ dict_get N "__ansible_action_type__"
       = Some (match dict_get d "__ansible_action_type__" with
               | Some x => x
               | None => PStr "task"
               end)
    /\ dict_get N "__file__"
       = Some (match restored "__file__" with Some x => x | None => filename end)
    /\ dict_get N "__line__" = restored "__line__"
    /\ dict_get N "__ansible_action_meta__" = restored "__ansible_action_meta__".
Proof.
  intros Hl Hrun restored.
  destruct (normalize_task_inv E _ _ _ _ _ _ _ Hl Hrun) as (parsed & _ & Hrecord).
  destruct (normalized_record_inv _ _ _ _ _ _ _ Hrecord)
    as (items & raw & N1 & N2 & N3 & Hitems & _ & (Hr1 & Hr2 & Hr3) & Hr & Hw').
  cbn [heap] in Hitems. rewrite (lookup_replaced _ _ _ _ Hl) in Hitems.
  injection Hitems as <-.
  match type of Hw' with
  | _ = set_heap _ (?h0 ++ [?o0; ?o1; ?o2]) =>
      destruct (lookup_new3 h0 o0 o1 o2) as (_ & _ & Hn2);
      assert (heap w' = (h0 ++ [o0; o1]) ++ [o2]) as Hheap
        by (rewrite Hw'; cbn [heap set_heap]; now rewrite <- app_assoc);
      set (h := h0) in *
  end.
  apply (restore_meta_truthy _ _ _ _ _ _ [ODict N3]) in Hr1 as [_ HN1].
  apply (restore_meta_truthy _ _ _ _ _ _ [ODict N3]) in Hr2 as [_ HN2].
  apply (restore_meta_truthy _ _ _ _ _ _ [ODict N3]) in Hr3 as [_ HN3].
  cbn [heap set_heap meta_line meta_file meta_action_meta ansible_action_type]
    in HN1, HN2, HN3.
  rewrite <- Hheap in HN1, HN2, HN3.
  set (stripped := fold_left dict_remove bookkeeping_keys d) in *.
  assert (dict_get stripped "__line__" = None
          /\ dict_get stripped "__ansible_action_meta__" = None) as [Hline Hmeta].
  { subst stripped. unfold bookkeeping_keys. cbn [fold_left].
    split; repeat first [ rewrite dict_get_remove_eq; reflexivity
                        | rewrite dict_get_remove_ne by discriminate ]. }
  set (N0 := dict_set _ "__ansible_action_type__" _) in *.
  assert (dict_get N0 "__ansible_action_type__"
          = Some (match dict_get d "__ansible_action_type__" with
                  | Some x => x
                  | None => PStr "task"
                  end)) as H0type by (subst N0; apply dict_get_set_eq).
  assert (dict_get N0 "__file__" = Some filename) as H0file.
  { subst N0. rewrite dict_get_set_ne by discriminate. apply dict_get_set_eq. }
  assert (dict_get N0 "__line__" = None) as H0line.
  { subst N0. rewrite !dict_get_set_ne by discriminate.
    now rewrite pass_through_absent. }
  assert (dict_get N0 "__ansible_action_meta__" = None) as H0meta.
  { subst N0. rewrite !dict_get_set_ne by discriminate.
    now rewrite pass_through_absent. }
  exists (S (S (length h))), N3. rewrite Hw' at 1. cbn [heap set_heap].
  split; [exact Hr |]. split; [exact Hn2 |].
  subst restored. cbn beta.
  assert (forall (N : list (string * pyval)) k k' (v : option pyval),
            k <> k' ->
            dict_get (match v with
                      | Some x => if truthy_in (heap w') x then dict_set N k x else N
                      | None => N
                      end) k' = dict_get N k') as Hother.
  { intros N k k' [x|] Hne; [|reflexivity].
    destruct (truthy_in (heap w') x); [now apply dict_get_set_ne | reflexivity]. }
  assert (forall (N : list (string * pyval)) k (v : option pyval),
            dict_get (match v with
                      | Some x => if truthy_in (heap w') x then dict_set N k x else N
                      | None => N
                      end) k
            = match match v with
                    | Some x => if truthy_in (heap w') x then Some x else None
                    | None => None
                    end with
              | Some x => Some x
              | None => dict_get N k
              end) as Hsame.
  { intros N k [x|]; [|reflexivity].
    destruct (truthy_in (heap w') x); [apply dict_get_set_eq | reflexivity]. }
  subst N3 N2 N1. repeat split.
  - now rewrite !Hother by discriminate.
  - rewrite Hother by discriminate. rewrite Hsame. rewrite Hother by discriminate.
    rewrite H0file. now destruct (dict_get d "__file__") as [x|]; [destruct (truthy_in _ x) |].
  - rewrite !Hother by discriminate. rewrite Hsame, H0line.
    now destruct (dict_get d "__line__") as [x|]; [destruct (truthy_in _ x) |].
  - rewrite Hsame. rewrite !Hother by discriminate. rewrite H0meta.
    now destruct (dict_get d "__ansible_action_meta__") as [x|];
      [destruct (truthy_in _ x) |].
Qed.

Lemma normalize_task_bookkeeping_witness :
  let d := [("name", PStr "n"); ("debug", PStr "msg=a"); ("__line__", PInt 0);
            ("__file__", PStr "own.yml"); ("__ansible_action_meta__", PRef 1);
            ("__ansible_action_type__", PStr "handler")] in
  let w := mkWorld [ODict d; ODict [("when", PStr "x")]] [] [] in
  let N := [("delegate_to", PNone); ("name", PStr "n"); ("action", PRef 3);
            ("__file__", PStr "own.yml"); ("__ansible_action_type__", PStr "handler");
            ("__ansible_action_meta__", PRef 1)] in
  let w' := mkWorld
              [ ODict [("name", PStr "n"); ("debug", PStr "msg=a")];
                ODict [("when", PStr "x")];
                OList [];
                ODict [("__ansible_module__", PStr "debug");
                       ("__ansible_arguments__", PRef 2); ("msg", PStr "a")];
                ODict N ] [] [] in
  let restored k :=
    match dict_get d k with
    | Some x => if truthy_in (heap w') x then Some x else None
    | None => None
    end in
  exists n N,
    PRef 4 = PRef n /\ heap w' !! n = Some (ODict N)
    /\ dict_get N "__ansible_action_type__"
       = Some (match dict_get d "__ansible_action_type__" with
               | Some x => x
               | None => PStr "task"
               end)
    /\ dict_get N "__file__"
       = Some (match restored "__file__" with Some x => x | None => PStr "x.yml" end)
    /\ dict_get N "__line__" = restored "__line__"
    /\ dict_get N "__ansible_action_meta__" = restored "__ansible_action_meta__".
Proof.
  apply (normalize_task_bookkeeping Sample.env 0
           [("name", PStr "n"); ("debug", PStr "msg=a"); ("__line__", PInt 0);
            ("__file__", PStr "own.yml"); ("__ansible_action_meta__", PRef 1);
            ("__ansible_action_type__", PStr "handler")]
           (PStr "x.yml") None
           (mkWorld [ODict [("name", PStr "n"); ("debug", PStr "msg=a");
                            ("__line__", PInt 0); ("__file__", PStr "own.yml");
                            ("__ansible_action_meta__", PRef 1);
                            ("__ansible_action_type__", PStr "handler")];
                     ODict [("when", PStr "x")]] [] [])).
  - reflexivity.
  - reflexivity.
Defined.

(** ** [task_to_str] *)

Lemma task_to_str_pairs (E : environment) (items : list (string * pyval))
    (acc : list string) (w : world) :
  foldM (fun acc kv =>
           if str_in (fst kv) ["__ansible_module__"; "__ansible_arguments__"]
           then ret acc
           else s <- obj_str E (snd kv) ;;
                ret (acc ++ [fst kv +:+ "=" +:+ s])) items acc w
  = (Ok (acc ++ map (fun kv => fst kv +:+ "=" +:+ str_of_pyval E (heap w) (snd kv))
                  (List.filter
                     (fun kv => negb (str_in (fst kv)
                                        ["__ansible_module__"; "__ansible_arguments__"]))
                     items)), w).
Proof.
  revert acc. induction items as [|kv items IH]; intros acc.
  - cbn. now rewrite app_nil_r.
  - cbn [foldM List.filter].
    destruct (str_in (fst kv) ["__ansible_module__"; "__ansible_arguments__"]);
      cbn [negb bind ret].
    + apply IH.
    + unfold obj_str at 1. cbn [map]. rewrite IH. now rewrite <- app_assoc.
Qed.

Lemma task_to_str_words (words : list string) (acc : list string) (w : world) :
  foldM (fun acc x =>
           match x with
           | PStr s => ret (acc ++ [s])
           | _ => raise TypeError
           end) (map PStr words) acc w
  = (Ok (acc ++ words), w).
Proof.
  revert acc. induction words as [|s words IH]; intros acc.
  - cbn. now rewrite app_nil_r.
  - cbn [map foldM bind ret]. rewrite IH. now rewrite <- app_assoc.
Qed.

(** X30: the string of a record without a true name.  For a record whose
    [action] is a mapping with a module name and with a list of words under
    [__ansible_arguments__], [task_to_str] returns the module name, a space,
    and then, separated by spaces, [k=v] for every other field of the action
    in the order of the mapping, followed by the words; it changes nothing.
    After the module name there is always a space, also when nothing
    follows. *)
Theorem task_to_str_of_record (E : environment) (l a ws : nat)
    (N A : list (string * pyval)) (m : string) (words : list string) (w : world) :
  heap w !! l = Some (ODict N) ->
  obj_truthy (match dict_get N "name" with Some x => x | None => PNone end) w
  = (Ok false, w) ->
  dict_get N "action" = Some (PRef a) ->
  heap w !! a = Some (ODict A) ->
  dict_get A "__ansible_module__" = Some (PStr m) ->
  dict_get A "__ansible_arguments__" = Some (PRef ws) ->
  heap w !! ws = Some (OList (map PStr words)) ->
  let pairs :=
    map (fun kv => fst kv +:+ "=" +:+ str_of_pyval E (heap w) (snd kv))
        (List.filter
           (fun kv => negb (str_in (fst kv)
                              ["__ansible_module__"; "__ansible_arguments__"])) A) in
  task_to_str E (PRef l) w
  = (Ok (PStr (m +:+ " " +:+ PyStr.join " " (pairs ++ words))), w).
Proof.
  intros Hl Hname Haction Ha Hmodule Harguments Hws pairs.
  unfold task_to_str.
  rewrite (bind_ok _ _ _ _ _ (obj_get_dict "name" PNone _ _ _ Hl)).
  rewrite (bind_ok _ _ _ _ _ Hname).
  rewrite (bind_ok _ _ _ _ _ (obj_get_dict "action" PNone _ _ _ Hl)).
  rewrite Haction.
  rewrite (bind_ok _ _ _ _ _ (obj_entries_ok _ _ _ Ha)).
  rewrite (bind_ok _ _ _ _ _ (task_to_str_pairs E A [] w)).
  rewrite (bind_ok _ _ _ _ _ (obj_get_dict "__ansible_arguments__" PNone _ _ _ Ha)).
  rewrite Harguments.
  assert (obj_list (PRef ws) w = (Ok (Some (map PStr words)), w)) as Hlist.
  { unfold obj_list, load. cbn [bind]. now rewrite Hws. }
  rewrite (bind_ok _ _ _ _ _ Hlist).
  rewrite (bind_ok _ _ _ _ _ (task_to_str_words words _ w)).
  assert (obj_getitem (PRef a) "__ansible_module__" w = (Ok (PStr m), w)) as Hget.
  { unfold obj_getitem, load. cbn [bind]. now rewrite Ha, Hmodule. }
  rewrite (bind_ok _ _ _ _ _ Hget).
  reflexivity.
Qed.

Lemma task_to_str_of_record_witness :
  let w := mkWorld
             [ ODict [("delegate_to", PNone); ("action", PRef 1)];
               ODict [("__ansible_module__", PStr "command");
                      ("chdir", PStr "/tmp");
                      ("__ansible_arguments__", PRef 2)];
               OList [PStr "echo"; PStr "hi"];
               ODict [("action", PRef 4)];
               ODict [("__ansible_module__", PStr "setup");
                      ("__ansible_arguments__", PRef 5)];
               OList [] ] [] [] in
  task_to_str Sample.env (PRef 0) w = (Ok (PStr "command chdir=/tmp echo hi"), w)
  /\ task_to_str Sample.env (PRef 3) w = (Ok (PStr "setup "), w).
Proof.
  split.
  - apply (task_to_str_of_record Sample.env 0 1 2
             [("delegate_to", PNone); ("action", PRef 1)]
             [("__ansible_module__", PStr "command"); ("chdir", PStr "/tmp");
              ("__ansible_arguments__", PRef 2)]
             "command" ["echo"; "hi"]); reflexivity.
  - apply (task_to_str_of_record Sample.env 3 4 5
             [("action", PRef 4)]
             [("__ansible_module__", PStr "setup"); ("__ansible_arguments__", PRef 5)]
             "setup" []); reflexivity.
Defined.
